(** * Odin search agents: a shallow embedding of [search_agent.py] and
    [advanced_search_agent.py]

    The two Python classes [DeepSearchAgent] and [AdvancedSearchAgent] are
    thin orchestration code around two external collaborators (a browser
    agent and an LLM completion service), the wall clock and the file
    system.  The collaborators are taken as an explicit environment, the
    effects of the code (clock reads, agent and LLM calls, prints, file
    writes) as explicit state passing over a [world], and Python exceptions
    as the [Raise] outcome of an error monad. *)

From Stdlib Require Import ZArith String Ascii List Bool Lia.
From Stdlib Require Import DecimalString.
From Stdlib Require DecimalFacts DecimalPos DecimalZ.
From stdpp Require Import base option list gmap strings.

#[local] Open Scope Z_scope.
#[local] Arguments String.append : simpl nomatch.

(** ** Python values and exceptions *)

Module Py.

(** The exceptions the code can meet.  [AttributeError] is singled out
    because [hasattr] swallows it and nothing else. *)
Inductive exn : Type :=
| AttributeError
| OtherError (name : string).

Inductive outcome (A : Type) : Type :=
| Return (a : A)
| Raise (e : exn).
Arguments Return {A} a.
Arguments Raise {A} e.

Definition bind {A B} (m : outcome A) (k : A -> outcome B) : outcome B :=
  match m with
  | Return a => k a
  | Raise e => Raise e
  end.

(** [try: m except: h] with a bare [except]. *)
Definition try_except {A} (m : outcome A) (h : A) : outcome A :=
  match m with
  | Return a => Return a
  | Raise _ => Return h
  end.

(** [hasattr(obj, name)]: runs the attribute lookup, answers [False] on
    [AttributeError] and lets every other exception through. *)
Definition hasattr {A} (lookup : outcome A) : outcome bool :=
  match lookup with
  | Return _ => Return true
  | Raise AttributeError => Return false
  | Raise e => Raise e
  end.

Definition raises {A} (m : outcome A) : Prop :=
  match m with Raise _ => True | Return _ => False end.

End Py.
Import Py.

Notation "'do' x <- m ; k" := (Py.bind m (fun x => k))
  (at level 10, x name, m at level 100, k at level 200,
   format "'[v' 'do'  x  <-  m ; '/' k ']'").

(** ** Result objects of the browser agent

    The object returned by [agent.run()] is duck-typed.  The code only ever
    looks up the attributes [text], [__str__] and [messages] on it, calls
    [str] on it, and reads [content] on the last message; an object is
    therefore given by the outcome of each of these.  Attribute lookups
    are taken to be repeatable (the same outcome each time) and text-like
    values to be strings. *)

Record message : Type := { content : outcome string }.

Record agent_result : Type := {
  text : outcome string;             (* result.text *)
  dunder_str : outcome unit;         (* result.__str__ *)
  str : outcome string;              (* str(result) *)
  messages : outcome (list message)  (* result.messages *)
}.

Definition fallback_text : string :=
  "Could not extract text from search results.".

(** [result.messages[-1].content] on a list already known to be non-empty. *)
Definition last_content (ms : list message) : outcome string :=
  match last ms with
  | Some m => content m
  | None => Raise (OtherError "IndexError")
  end.

(** The block guarded by [try] (lines 102-105 of the advanced variant,
    58-61 of the simple one). *)
Definition extract_from_messages (r : agent_result) : outcome string :=
  do has <- hasattr (messages r);
  if has then
    do ms <- messages r;
    match ms with
    | [] => Return fallback_text
    | _ :: _ => do ms' <- messages r; last_content ms'
    end
  else Return fallback_text.

(** "Convert result to string if it's not already": the same text in both
    variants. *)
Definition extract_text (r : agent_result) : outcome string :=
  do has_text <- hasattr (text r);
  if has_text then text r
  else
    do has_str <- hasattr (dunder_str r);
    if has_str then str r
    else try_except (extract_from_messages r) fallback_text.

(** ** Strings

    A Python [str] is a Rocq [string]; the operations below act on the
    ASCII range, which is all the code's literals use. *)

Module PyStr.

Definition nl : string := String (ascii_of_nat 10) "".

Definition is_upper (c : ascii) : bool :=
  let n := N_of_ascii c in ((65 <=? n) && (n <=? 90))%N.

Definition lower_char (c : ascii) : ascii :=
  if is_upper c then ascii_of_N (N_of_ascii c + 32) else c.

(** [s.lower()] on ASCII text: the letters A to Z are lowered, every
    other byte is kept. *)
Fixpoint lower (s : string) : string :=
  match s with
  | EmptyString => EmptyString
  | String c s' => String (lower_char c) (lower s')
  end.

(** [s.replace(old, new)] for one-character [old] and [new]. *)
Fixpoint replace (old new : ascii) (s : string) : string :=
  match s with
  | EmptyString => EmptyString
  | String c s' =>
      String (if Ascii.eqb c old then new else c) (replace old new s')
  end.

(** [sep.join(items)] *)
Fixpoint join (sep : string) (items : list string) : string :=
  match items with
  | [] => ""
  | [x] => x
  | x :: rest => x +:+ sep +:+ join sep rest
  end.

(** [str(n)] for an [int]. *)
Definition of_int (z : Z) : string := NilZero.string_of_int (Z.to_int z).

Definition digit_char (z : Z) : ascii :=
  ascii_of_N (48 + Z.to_N (z mod 10)).

Definition is_digit (c : ascii) : bool :=
  let n := N_of_ascii c in ((48 <=? n) && (n <=? 57))%N.

(** The last [width] decimal digits of [z]. *)
Fixpoint fixed_digits (width : nat) (z : Z) : string :=
  match width with
  | O => ""
  | S w => fixed_digits w (z / 10) +:+ String (digit_char z) ""
  end.

(** A field that is not negative printed as [%02d] and the like print it:
    on [width] digits with leading zeros, on more when it needs more. *)
Definition zero_padded (width : nat) (z : Z) : string :=
  if z <? 10 ^ Z.of_nat width then fixed_digits width z else of_int z.

Fixpoint all_chars (p : ascii -> bool) (s : string) : bool :=
  match s with
  | EmptyString => true
  | String c s' => p c && all_chars p s'
  end.

End PyStr.

(** ** Wall-clock time: [datetime] *)

Record datetime : Type := {
  year : Z; month : Z; day : Z;
  hour : Z; minute : Z; second : Z; microsecond : Z
}.

Module Datetime.

Definition is_leap (y : Z) : bool :=
  (y mod 4 =? 0) && (negb (y mod 100 =? 0) || (y mod 400 =? 0)).

Definition days_in_month (y m : Z) : Z :=
  if m =? 2 then (if is_leap y then 29 else 28)
  else if (m =? 4) || (m =? 6) || (m =? 9) || (m =? 11) then 30
  else 31.

Definition days_before_year (y : Z) : Z :=
  let y' := y - 1 in y' * 365 + y' / 4 - y' / 100 + y' / 400.

Fixpoint days_before_month_aux (y : Z) (m : nat) : Z :=
  match m with
  | O => 0
  | S m' => days_before_month_aux y m' + days_in_month y (Z.of_nat m)
  end.

Definition days_before_month (y m : Z) : Z :=
  days_before_month_aux y (Z.to_nat (m - 1)).

(** Proleptic Gregorian ordinal of the day, 1 for 0001-01-01. *)
Definition to_ordinal (d : datetime) : Z :=
  days_before_year (year d) + days_before_month (year d) (month d) + day d.

(** Microseconds since the start of day 0: the quantity [datetime]
    subtraction works on. *)
Definition to_microseconds (d : datetime) : Z :=
  ((to_ordinal d * 24 + hour d) * 60 + minute d) * 60000000
  + second d * 1000000 + microsecond d.

(** [(b - a).total_seconds()], kept exact as a count of microseconds;
    the Python value is this count divided by [10 ** 6], as a float. *)
Definition sub_microseconds (b a : datetime) : Z :=
  to_microseconds b - to_microseconds a.

(** The invariant of Python's [datetime] objects, which keeps every field
    within the width [strftime] prints it on.  Years below 1000 are left
    out: [strftime("%Y")] does not pad them on every platform. *)
Definition valid (d : datetime) : bool :=
  (1000 <=? year d) && (year d <=? 9999)
  && (1 <=? month d) && (month d <=? 12)
  && (1 <=? day d) && (day d <=? days_in_month (year d) (month d))
  && (0 <=? hour d) && (hour d <? 24)
  && (0 <=? minute d) && (minute d <? 60)
  && (0 <=? second d) && (second d <? 60)
  && (0 <=? microsecond d) && (microsecond d <? 1000000).

Import PyStr.

(** [d.strftime("%Y%m%d_%H%M%S")] *)
Definition strftime_compact (d : datetime) : string :=
  zero_padded 4 (year d) +:+ zero_padded 2 (month d)
  +:+ zero_padded 2 (day d) +:+ "_"
  +:+ zero_padded 2 (hour d) +:+ zero_padded 2 (minute d)
  +:+ zero_padded 2 (second d).

(** [d.strftime('%Y-%m-%d %H:%M:%S')] *)
Definition strftime_human (d : datetime) : string :=
  zero_padded 4 (year d) +:+ "-" +:+ zero_padded 2 (month d)
  +:+ "-" +:+ zero_padded 2 (day d) +:+ " "
  +:+ zero_padded 2 (hour d) +:+ ":" +:+ zero_padded 2 (minute d)
  +:+ ":" +:+ zero_padded 2 (second d).

(** [d.isoformat()] *)
Definition isoformat (d : datetime) : string :=
  zero_padded 4 (year d) +:+ "-" +:+ zero_padded 2 (month d)
  +:+ "-" +:+ zero_padded 2 (day d) +:+ "T"
  +:+ zero_padded 2 (hour d) +:+ ":" +:+ zero_padded 2 (minute d)
  +:+ ":" +:+ zero_padded 2 (second d)
  +:+ (if microsecond d =? 0 then ""
       else "." +:+ zero_padded 6 (microsecond d)).

End Datetime.

(** ** Options of the multi-keyword variant

    The caller's [options] dict may leave any key out; the keys and the
    types of their values are those of the docstring of
    [AdvancedSearchAgent.search_and_summarize]. *)

Record options : Type := {
  depth : Z;
  output_format : string;
  output_dir : string;
  max_results : Z;
  focus_areas : list string;
  language : string;
  blog_style : bool
}.

Record partial_options : Type := {
  p_depth : option Z;
  p_output_format : option string;
  p_output_dir : option string;
  p_max_results : option Z;
  p_focus_areas : option (list string);
  p_language : option string;
  p_blog_style : option bool
}.

Definition default_options : options := {|
  depth := 2;
  output_format := "markdown";
  output_dir := ".";
  max_results := 10;
  focus_areas := [];
  language := "english";
  blog_style := false
|}.

(** The empty dict [{}]. *)
Definition no_options : partial_options := {|
  p_depth := None; p_output_format := None; p_output_dir := None;
  p_max_results := None; p_focus_areas := None; p_language := None;
  p_blog_style := None
|}.

(** [{**d, **o}]: a key of [o] wins, a key it leaves out keeps [d]'s
    value. *)
Definition merge (d : options) (o : partial_options) : options := {|
  depth := default (depth d) (p_depth o);
  output_format := default (output_format d) (p_output_format o);
  output_dir := default (output_dir d) (p_output_dir o);
  max_results := default (max_results d) (p_max_results o);
  focus_areas := default (focus_areas d) (p_focus_areas o);
  language := default (language d) (p_language o);
  blog_style := default (blog_style d) (p_blog_style o)
|}.

(** Lines 39-53: [options=None] stands for the empty dict. *)
Definition resolve_options (o : option partial_options) : options :=
  merge default_options (default no_options o).

(** ** Task description *)

(** The dict [{1: "briefly", 2: "thoroughly", 3: "exhaustively"}]. *)
Definition depth_desc : gmap Z string :=
  {[ 1 := "briefly"; 2 := "thoroughly"; 3 := "exhaustively" ]}.

(** [min(max(options["depth"], 1), 3)] *)
Definition depth_level (o : options) : Z := Z.min (Z.max (depth o) 1) 3.

(** [d[k]] on a dict: [KeyError] when the key is missing. *)
Definition subscript {K V} `{Countable K} (d : gmap K V) (k : K) : outcome V :=
  match d !! k with
  | Some v => Return v
  | None => Raise (OtherError "KeyError")
  end.

Definition focus_str (o : options) : string :=
  match focus_areas o with
  | [] => ""
  | _ :: _ =>
      " Focus especially on: " +:+ PyStr.join ", " (focus_areas o) +:+ "."
  end.

(** Lines 64-77 of the multi-keyword variant. *)
Definition build_task (keyword : string) (o : options) : outcome string :=
  do adverb <- subscript depth_desc (depth_level o);
  Return ("Search " +:+ adverb +:+ " for information about '" +:+ keyword +:+ "'."
          +:+ " Find detailed facts, comparisons, and recent developments."
          +:+ " Create a comprehensive summary with key points organized by subtopics."
          +:+ " Include up to " +:+ PyStr.of_int (max_results o)
          +:+ " most relevant findings." +:+ focus_str o).

(** Lines 35-36 of the single-keyword variant. *)
Definition simple_depth_desc (depth : Z) : string :=
  if 2 <=? depth then "thoroughly" else "briefly".

Definition simple_build_task (keywords : string) (depth : Z) : string :=
  "Search " +:+ simple_depth_desc depth +:+ " for information about '"
  +:+ keywords +:+ "'. Find detailed facts, comparisons, and recent developments. Create a comprehensive summary with key points organized by subtopics.".

(** ** Transformation prompt *)

(** [options["blog_style"] or options["language"].lower() != "english"] *)
Definition wants_transform (blog : bool) (lang : string) : bool :=
  blog || negb (String.eqb (PyStr.lower lang) "english").

(** The f-string of lines 115-129 (71-85 in the single-keyword variant);
    [margin] is the indentation of the source block, which the triple-quoted
    literal keeps on every line: sixteen spaces in the multi-keyword
    variant, twelve in the other. *)
Definition blog_prompt (margin language_str result_text : string) : string :=
  let line (body : string) := margin +:+ body +:+ PyStr.nl in
  PyStr.nl
  +:+ line ("Transform the following research summary into a well-written, engaging "
            +:+ language_str +:+ " blog article.")
  +:+ line ""
  +:+ line "The article should:"
  +:+ line "1. Have an engaging title and introduction"
  +:+ line "2. Use a conversational, yet informative tone"
  +:+ line "3. Include section headings where appropriate"
  +:+ line "4. Maintain all the factual information from the original"
  +:+ line "5. Conclude with some thoughtful insights"
  +:+ line ("6. Be written entirely in " +:+ language_str)
  +:+ line ""
  +:+ line "Here is the research summary to transform:"
  +:+ line ""
  +:+ line result_text
  +:+ margin.

Definition margin16 : string := "                ".
Definition margin12 : string := "            ".

(** ** File names *)

(** [keyword.replace(" ", "_").replace("/", "_").replace("\\", "_")] *)
Definition safe_keyword (keyword : string) : string :=
  PyStr.replace "\" "_" (PyStr.replace "/" "_" (PyStr.replace " " "_" keyword)).

(** [os.path.join(a, b)] on a POSIX system. *)
Definition path_join (a b : string) : string :=
  match b with
  | String "/" _ => b
  | _ =>
      if String.eqb a "" then b
      else if String.eqb (substring (String.length a - 1) 1 a) "/" then a +:+ b
      else a +:+ "/" +:+ b
  end.

(** The extension chosen by lines 143-162. *)
Definition extension (fmt : string) : string :=
  if String.eqb fmt "json" then "json"
  else if String.eqb fmt "markdown" then "md" else "txt".

Definition file_name (keyword : string) (stamp : datetime) (ext : string) : string :=
  safe_keyword keyword +:+ "_" +:+ Datetime.strftime_compact stamp +:+ "." +:+ ext.

(** ** JSON: [json.dump] and [json.load]

    The values [json.dump] is given and [json.load] gives back.  An object
    keeps its pairs in order, as a Python dict does; a float is kept as its
    literal, its numeric value playing no role here. *)

#[local] Set Warnings "-register-all".

Inductive json : Type :=
| JNull
| JBool (b : bool)
| JInt (z : Z)
| JFloat (literal : string)
| JString (s : string)
| JArray (items : list json)
| JObject (pairs : list (string * json)).

Module Json.

Import PyStr.

Definition dquote : ascii := "034"%char.
Definition backslash : ascii := "092"%char.

Definition hex_char (n : N) : ascii :=
  if (n <? 10)%N then ascii_of_N (48 + n) else ascii_of_N (87 + n).

(** One character of a string literal, as [encode_basestring] writes it
    with [ensure_ascii=False]: the quote, the backslash and the control
    characters are escaped, everything else is copied. *)
Definition escape_char (c : ascii) : string :=
  match c with
  | "034"%char => String backslash (String dquote "")
  | "092"%char => String backslash (String backslash "")
  | "008"%char => String backslash "b"
  | "012"%char => String backslash "f"
  | "010"%char => String backslash "n"
  | "013"%char => String backslash "r"
  | "009"%char => String backslash "t"
  | _ =>
      let n := N_of_ascii c in
      if (n <? 32)%N
      then String backslash
             (String "u" (String "0" (String "0"
               (String (hex_char (n / 16)) (String (hex_char (n mod 16)) "")))))
      else String c ""
  end.

Fixpoint escape (s : string) : string :=
  match s with
  | EmptyString => EmptyString
  | String c s' => escape_char c +:+ escape s'
  end.

Definition encode_basestring (s : string) : string :=
  String dquote (escape s +:+ String dquote "").

Fixpoint spaces (n : nat) : string :=
  match n with
  | O => ""
  | S n' => String " " (spaces n')
  end.

(** The line break and indentation [json.dump] puts before an item at
    nesting [level] when [indent=2]. *)
Definition newline_indent (level : nat) : string :=
  nl +:+ spaces (2 * level).

(** [json.dumps(j, indent=2, ensure_ascii=False)], [level] being the
    nesting of [j] in the document. *)
Fixpoint dumps_at (level : nat) (j : json) : string :=
  match j with
  | JNull => "null"
  | JBool true => "true"
  | JBool false => "false"
  | JInt z => of_int z
  | JFloat literal => literal
  | JString s => encode_basestring s
  | JArray [] => "[]"
  | JArray items =>
      "[" +:+ newline_indent (S level)
      +:+ join ("," +:+ newline_indent (S level))
            (List.map (dumps_at (S level)) items)
      +:+ newline_indent level +:+ "]"
  | JObject [] => "{}"
  | JObject pairs =>
      "{" +:+ newline_indent (S level)
      +:+ join ("," +:+ newline_indent (S level))
            (List.map (fun kv => encode_basestring (fst kv) +:+ ": "
                                 +:+ dumps_at (S level) (snd kv)) pairs)
      +:+ newline_indent level +:+ "}"
  end.

Definition dumps (j : json) : string := dumps_at 0 j.

(** [d[key]] on the dict [json.load] builds from the pairs of an object:
    when a key is repeated the last pair wins. *)
Fixpoint get_pair (key : string) (pairs : list (string * json)) : option json :=
  match pairs with
  | [] => None
  | (k, v) :: rest =>
      match get_pair key rest with
      | Some v' => Some v'
      | None => if String.eqb k key then Some v else None
      end
  end.

Definition get (key : string) (j : json) : option json :=
  match j with
  | JObject pairs => get_pair key pairs
  | _ => None
  end.

(** *** Reading: [json.loads] *)

Definition is_ws (c : ascii) : bool :=
  match c with
  | " "%char | "009"%char | "010"%char | "013"%char => true
  | _ => false
  end.

Fixpoint skip_ws (s : string) : string :=
  match s with
  | String c s' => if is_ws c then skip_ws s' else s
  | EmptyString => EmptyString
  end.

Definition hex_value (c : ascii) : option N :=
  let n := N_of_ascii c in
  if ((48 <=? n) && (n <=? 57))%N then Some (n - 48)%N
  else if ((97 <=? n) && (n <=? 102))%N then Some (n - 87)%N
  else if ((65 <=? n) && (n <=? 70))%N then Some (n - 55)%N
  else None.

Definition hex4 (a b c d : ascii) : option N :=
  x3 ← hex_value a; x2 ← hex_value b; x1 ← hex_value c; x0 ← hex_value d;
  Some (((x3 * 16 + x2) * 16 + x1) * 16 + x0)%N.

Definition byte (n : N) : ascii := ascii_of_N n.

(** The UTF-8 bytes of [chr(cp)], strings being kept as their UTF-8
    encoding. *)
Definition utf8 (cp : N) : string :=
  (if cp <? 128 then String (byte cp) ""
   else if cp <? 2048 then
     String (byte (192 + cp / 64)) (String (byte (128 + cp mod 64)) "")
   else if cp <? 65536 then
     String (byte (224 + cp / 4096))
       (String (byte (128 + (cp / 64) mod 64))
          (String (byte (128 + cp mod 64)) ""))
   else
     String (byte (240 + cp / 262144))
       (String (byte (128 + (cp / 4096) mod 64))
          (String (byte (128 + (cp / 64) mod 64))
             (String (byte (128 + cp mod 64)) ""))))%N.

(** The table [BACKSLASH] of the decoder. *)
Definition unescape (c : ascii) : option ascii :=
  match c with
  | "034"%char => Some dquote
  | "092"%char => Some backslash
  | "/"%char => Some "/"%char
  | "b"%char => Some "008"%char
  | "f"%char => Some "012"%char
  | "n"%char => Some "010"%char
  | "r"%char => Some "013"%char
  | "t"%char => Some "009"%char
  | _ => None
  end.

Definition is_high_surrogate (cp : N) : bool := ((55296 <=? cp) && (cp <=? 56319))%N.
Definition is_low_surrogate (cp : N) : bool := ((56320 <=? cp) && (cp <=? 57343))%N.

(** [scanstring], from just after the opening quote, in strict mode:
    the decoded text and what follows the closing quote. *)
Fixpoint scan_string (s : string) : option (string * string) :=
  match s with
  | EmptyString => None
  | String c r =>
      if Ascii.eqb c dquote then Some ("", r)
      else if Ascii.eqb c backslash then
        match r with
        | String "u" (String a (String b (String c' (String d r')))) =>
            cp ← hex4 a b c' d;
            let plain :=
              '(t, rest) ← scan_string r'; Some (utf8 cp +:+ t, rest) in
            if is_high_surrogate cp then
              match r' with
              | String "092" (String "u" (String a2 (String b2 (String c2 (String d2 r''))))) =>
                  cp2 ← hex4 a2 b2 c2 d2;
                  if is_low_surrogate cp2 then
                    '(t, rest) ← scan_string r'';
                    Some (utf8 (65536 + ((cp - 55296) * 1024 + (cp2 - 56320)))%N +:+ t, rest)
                  else plain
              | _ => plain
              end
            else plain
        | String "u" _ => None
        | String e r' =>
            ch ← unescape e;
            '(t, rest) ← scan_string r';
            Some (String ch t, rest)
        | EmptyString => None
        end
      else if (N_of_ascii c <? 32)%N then None
      else
        '(t, rest) ← scan_string r;
        Some (String c t, rest)
  end.

(** The longest run of decimal digits at the front of [s]. *)
Fixpoint span_digits (s : string) : string * string :=
  match s with
  | String c s' =>
      if is_digit c then
        let '(ds, rest) := span_digits s' in (String c ds, rest)
      else ("", s)
  | EmptyString => ("", "")
  end.

(** The three groups of [NUMBER_RE]: an optional minus sign and either
    a single zero or a digit run that starts with a non-zero digit; an
    optional point and digit run; an optional exponent. *)
Definition scan_integer (s : string) : option (string * string) :=
  let '(sign, s1) :=
    match s with String "-" r => ("-", r) | _ => ("", s) end in
  match s1 with
  | String "0" r => Some (sign +:+ "0", r)
  | String c r =>
      if is_digit c then
        let '(ds, rest) := span_digits r in Some (sign +:+ String c ds, rest)
      else None
  | EmptyString => None
  end.

Definition scan_frac (s : string) : string * string :=
  match s with
  | String "." r =>
      match span_digits r with
      | (EmptyString, _) => ("", s)
      | (ds, rest) => (String "." ds, rest)
      end
  | _ => ("", s)
  end.

Definition scan_exp (s : string) : string * string :=
  match s with
  | String e r =>
      if Ascii.eqb e "e" || Ascii.eqb e "E" then
        let '(sign, r1) :=
          match r with
          | String "-" r' => ("-", r')
          | String "+" r' => ("+", r')
          | _ => ("", r)
          end in
        match span_digits r1 with
        | (EmptyString, _) => ("", s)
        | (ds, rest) => (String e (sign +:+ ds), rest)
        end
      else ("", s)
  | EmptyString => ("", s)
  end.

(** [int(literal)] on a literal matched by the first group. *)
Definition int_of_literal (literal : string) : option Z :=
  match literal with
  | String "-" ds => (fun u => - Z.of_uint u) <$> NilEmpty.uint_of_string ds
  | ds => Z.of_uint <$> NilEmpty.uint_of_string ds
  end.

Definition scan_number (s : string) : option (json * string) :=
  '(integer, s1) ← scan_integer s;
  let '(frac, s2) := scan_frac s1 in
  let '(exp, s3) := scan_exp s2 in
  match frac, exp with
  | EmptyString, EmptyString => z ← int_of_literal integer; Some (JInt z, s3)
  | _, _ => Some (JFloat (integer +:+ frac +:+ exp), s3)
  end.

(** [s] starts with [lit]: what follows it. *)
Fixpoint strip_prefix (lit s : string) : option string :=
  match lit, s with
  | EmptyString, _ => Some s
  | String a lit', String b s' =>
      if Ascii.eqb a b then strip_prefix lit' s' else None
  | _, EmptyString => None
  end.

Definition scan_constant (lit : string) (v : json) (s : string)
  : option (json * string) :=
  rest ← strip_prefix lit s; Some (v, rest).

(** [scan_once], [JSONObject] and [JSONArray] of the decoder.  [fuel]
    bounds the depth of the calls; every call consumes input, so the
    length of the document is enough. *)
Fixpoint scan_once (fuel : nat) (s : string) : option (json * string) :=
  match fuel with
  | O => None
  | S fuel' =>
      match s with
      | EmptyString => None
      | String c r =>
          if Ascii.eqb c dquote then
            '(t, rest) ← scan_string r; Some (JString t, rest)
          else if Ascii.eqb c "{" then
            match strip_prefix "}" (skip_ws r) with
            | Some rest => Some (JObject [], rest)
            | None => '(pairs, rest) ← scan_members fuel' (skip_ws r);
                      Some (JObject pairs, rest)
            end
          else if Ascii.eqb c "[" then
            match strip_prefix "]" (skip_ws r) with
            | Some rest => Some (JArray [], rest)
            | None => '(items, rest) ← scan_items fuel' (skip_ws r);
                      Some (JArray items, rest)
            end
          else if Ascii.eqb c "n" then scan_constant "null" JNull s
          else if Ascii.eqb c "t" then scan_constant "true" (JBool true) s
          else if Ascii.eqb c "f" then scan_constant "false" (JBool false) s
          else
            match scan_number s with
            | Some r => Some r
            | None =>
                if Ascii.eqb c "N" then scan_constant "NaN" (JFloat "NaN") s
                else if Ascii.eqb c "I" then
                  scan_constant "Infinity" (JFloat "Infinity") s
                else if Ascii.eqb c "-" then
                  scan_constant "-Infinity" (JFloat "-Infinity") s
                else None
            end
      end
  end
(** The pairs of an object from its first key on, up to the closing
    brace. *)
with scan_members (fuel : nat) (s : string)
  : option (list (string * json) * string) :=
  match fuel with
  | O => None
  | S fuel' =>
      match s with
      | String "034" r =>
          '(key, r1) ← scan_string r;
          match skip_ws r1 with
          | String ":" r2 =>
              '(value, r3) ← scan_once fuel' (skip_ws r2);
              match skip_ws r3 with
              | String "}" rest => Some ([(key, value)], rest)
              | String "," r4 =>
                  '(more, rest) ← scan_members fuel' (skip_ws r4);
                  Some ((key, value) :: more, rest)
              | _ => None
              end
          | _ => None
          end
      | _ => None
      end
  end
(** The items of an array from the first one on, up to the closing
    bracket. *)
with scan_items (fuel : nat) (s : string) : option (list json * string) :=
  match fuel with
  | O => None
  | S fuel' =>
      '(value, r1) ← scan_once fuel' s;
      match skip_ws r1 with
      | String "]" rest => Some ([value], rest)
      | String "," r2 =>
          '(more, rest) ← scan_items fuel' (skip_ws r2);
          Some (value :: more, rest)
      | _ => None
      end
  end.

(** [json.loads(s)]: one value, blanks allowed around it, nothing else. *)
Definition loads (s : string) : option json :=
  '(v, rest) ← scan_once (S (String.length s)) (skip_ws s);
  match skip_ws rest with
  | EmptyString => Some v
  | _ => None
  end.

End Json.

(** ** Durations as floats

    [timedelta.total_seconds()] is the exact count of microseconds divided
    by [10 ** 6].  [float_repr] is the [repr] of that float, which is what
    [json.dump] writes: the shortest decimal that reads back as the same
    float, which for a count below [10 ** 15] is the exact decimal value,
    in exponent notation below [1e-4]. *)

Module Duration.

Import PyStr.

Fixpoint strip_trailing_zeros (s : string) : string :=
  match s with
  | EmptyString => EmptyString
  | String c s' =>
      match strip_trailing_zeros s' with
      | EmptyString => if Ascii.eqb c "0" then EmptyString else String c EmptyString
      | t => String c t
      end
  end.

Definition fraction (us : Z) : string :=
  match strip_trailing_zeros (zero_padded 6 us) with
  | EmptyString => "0"
  | t => t
  end.

(** The digits of a count of microseconds that is not negative. *)
Definition repr_magnitude (a : Z) : string :=
  if a =? 0 then "0.0"
  else if a <? 10 then String (digit_char a) "e-06"
  else if a <? 100 then
    String (digit_char (a / 10))
      (if a mod 10 =? 0 then "e-05"
       else String "." (String (digit_char a) "e-05"))
  else of_int (a / 1000000) +:+ "." +:+ fraction (a mod 1000000).

Definition float_repr (microseconds : Z) : string :=
  (if microseconds <? 0 then "-" else "")
  +:+ repr_magnitude (Z.abs microseconds).

End Duration.

(** ** The environment and the state of a run *)

(** The collaborators the code calls: the wall clock, the browser agent,
    the LLM service and the file system.  The clock is the sequence of the
    values that successive calls of [datetime.now()] return; an agent or
    LLM call is identified by its rank among the calls of the run. *)
Record env : Type := {
  now : nat -> datetime;
  agent_run : nat -> string -> outcome agent_result;
  llm_invoke : nat -> string -> outcome string;
  makedirs : string -> outcome unit;
  open_for_writing : string -> outcome unit
}.

Record world : Type := {
  clock_reads : nat;
  agent_tasks : list string;
  llm_prompts : list string;
  stdout : list string;
  directories : gset string;
  files : gmap string string
}.

Definition initial_world : world := {|
  clock_reads := 0%nat; agent_tasks := []; llm_prompts := [];
  stdout := []; directories := ∅; files := ∅
|}.

(** The entry stored under a keyword in the dict the multi-keyword variant
    returns; the duration is counted in microseconds. *)
Record result_entry : Type := {
  entry_output_file : string;
  duration_microseconds : Z
}.

(** [duration_seconds >= 0] *)
Definition non_negative_duration (r : result_entry) : Prop :=
  0 <= duration_microseconds r.

(** The [keywords] argument: a string or a list of strings. *)
Inductive keywords_arg : Type :=
| OneKeyword (keyword : string)
| KeywordList (keywords : list string).

(** Computations that read and change the [world] and may raise. *)
Definition M (A : Type) : Type := world -> outcome A * world.

Definition ret {A} (a : A) : M A := fun w => (Return a, w).

Definition seq {A B} (m : M A) (k : A -> M B) : M B :=
  fun w =>
    match m w with
    | (Return a, w') => k a w'
    | (Raise x, w') => (Raise x, w')
    end.

Definition lift {A} (o : outcome A) : M A := fun w => (o, w).

Notation "'run' x <- m ; k" := (seq m (fun x => k))
  (at level 10, x name, m at level 100, k at level 200,
   format "'[v' 'run'  x  <-  m ; '/' k ']'").
Notation "'exec' m ; k" := (seq m (fun _ => k))
  (at level 10, m at level 100, k at level 200,
   format "'[v' 'exec'  m ; '/' k ']'").

Section Run.

Variable e : env.

(** [datetime.now()] *)
Definition datetime_now : M datetime := fun w =>
  (Return (now e (clock_reads w)),
   {| clock_reads := S (clock_reads w); agent_tasks := agent_tasks w;
      llm_prompts := llm_prompts w; stdout := stdout w;
      directories := directories w; files := files w |}).

(** [await Agent(task=task, llm=self.llm).run()] *)
Definition run_agent (task : string) : M agent_result := fun w =>
  (agent_run e (length (agent_tasks w)) task,
   {| clock_reads := clock_reads w; agent_tasks := agent_tasks w ++ [task];
      llm_prompts := llm_prompts w; stdout := stdout w;
      directories := directories w; files := files w |}).

(** [self.llm.invoke(prompt).content] *)
Definition invoke_llm (prompt : string) : M string := fun w =>
  (llm_invoke e (length (llm_prompts w)) prompt,
   {| clock_reads := clock_reads w; agent_tasks := agent_tasks w;
      llm_prompts := llm_prompts w ++ [prompt]; stdout := stdout w;
      directories := directories w; files := files w |}).

Definition print (line : string) : M unit := fun w =>
  (Return tt,
   {| clock_reads := clock_reads w; agent_tasks := agent_tasks w;
      llm_prompts := llm_prompts w; stdout := stdout w ++ [line];
      directories := directories w; files := files w |}).

(** [os.makedirs(path, exist_ok=True)] *)
Definition os_makedirs (path : string) : M unit := fun w =>
  match makedirs e path with
  | Raise x => (Raise x, w)
  | Return _ =>
      (Return tt,
       {| clock_reads := clock_reads w; agent_tasks := agent_tasks w;
          llm_prompts := llm_prompts w; stdout := stdout w;
          directories := {[ path ]} ∪ directories w; files := files w |})
  end.

(** [open(path, "w", encoding="utf-8")]: the file is created or
    emptied. *)
Definition file_open (path : string) : M unit := fun w =>
  match open_for_writing e path with
  | Raise x => (Raise x, w)
  | Return _ =>
      (Return tt,
       {| clock_reads := clock_reads w; agent_tasks := agent_tasks w;
          llm_prompts := llm_prompts w; stdout := stdout w;
          directories := directories w;
          files := <[ path := "" ]> (files w) |})
  end.

(** [f.write(data)] on the file opened at [path]. *)
Definition file_write (path data : string) : M unit := fun w =>
  (Return tt,
   {| clock_reads := clock_reads w; agent_tasks := agent_tasks w;
      llm_prompts := llm_prompts w; stdout := stdout w;
      directories := directories w;
      files := <[ path := default "" (files w !! path) +:+ data ]> (files w) |}).

(** Lines 109-133 (65-89 in the single-keyword variant). *)
Definition transform (margin : string) (blog : bool) (lang result_text : string)
  : M string :=
  if wants_transform blog lang then
    exec print ("Transforming results to " +:+ lang +:+ " blog-style article...");
    invoke_llm (blog_prompt margin (PyStr.lower lang) result_text)
  else ret result_text.

(** The dict handed to [json.dump], lines 146-157. *)
Definition json_data (keyword iso result_text : string) (o : options)
    (duration : Z) : json :=
  JObject [
    ("keyword", JString keyword);
    ("timestamp", JString iso);
    ("summary", JString result_text);
    ("metadata", JObject [
       ("depth", JInt (depth o));
       ("focus_areas", JArray (List.map JString (focus_areas o)));
       ("duration_seconds", JFloat (Duration.float_repr duration));
       ("language", JString (language o));
       ("blog_style", JBool (blog_style o)) ])
  ].

(** Lines 143-158. *)
Definition write_json (output_file keyword result_text : string)
    (o : options) (duration : Z) : M unit :=
  exec file_open output_file;
  run stamp <- datetime_now;
  file_write output_file
    (Json.dumps (json_data keyword (Datetime.isoformat stamp) result_text o duration)).

(** Lines 164-179. *)
Definition write_text (output_file keyword result_text : string)
    (o : options) : M unit :=
  exec file_open output_file;
  exec (if String.eqb (output_format o) "markdown" then
         if negb (blog_style o) then
           exec file_write output_file
                 ("# Summary: " +:+ keyword +:+ PyStr.nl +:+ PyStr.nl);
           run stamp <- datetime_now;
           exec file_write output_file
                 ("*Generated on: " +:+ Datetime.strftime_human stamp +:+ "*"
                  +:+ PyStr.nl +:+ PyStr.nl);
           match focus_areas o with
           | [] => ret tt
           | _ :: _ =>
               file_write output_file
                 ("**Focus Areas:** " +:+ PyStr.join ", " (focus_areas o)
                  +:+ PyStr.nl +:+ PyStr.nl)
           end
         else ret tt
       else
         if negb (blog_style o) then
           exec file_write output_file ("SUMMARY: " +:+ keyword +:+ PyStr.nl);
           run stamp <- datetime_now;
           exec file_write output_file
                 ("Generated on: " +:+ Datetime.strftime_human stamp +:+ PyStr.nl);
           match focus_areas o with
           | [] => ret tt
           | _ :: _ =>
               file_write output_file
                 ("Focus Areas: " +:+ PyStr.join ", " (focus_areas o)
                  +:+ PyStr.nl +:+ PyStr.nl)
           end
         else ret tt);
  file_write output_file result_text.

(** Lines 94-187: from the agent's result to the entry stored for the
    keyword. *)
Definition save_result (o : options) (keyword : string)
    (result : agent_result) (duration : Z) : M result_entry :=
  run extracted <- lift (extract_text result);
  run result_text <- transform margin16 (blog_style o) (language o) extracted;
  exec os_makedirs (output_dir o);
  run stamp <- datetime_now;
  let output_file :=
    path_join (output_dir o) (file_name keyword stamp (extension (output_format o))) in
  exec (if String.eqb (output_format o) "json"
        then write_json output_file keyword result_text o duration
        else write_text output_file keyword result_text o);
  exec print ("Summary for '" +:+ keyword +:+ "' saved to: " +:+ output_file);
  ret {| entry_output_file := output_file; duration_microseconds := duration |}.

(** The body of the loop, lines 63-187: one keyword. *)
Definition process_keyword (o : options) (keyword : string) : M result_entry :=
  run task <- lift (build_task keyword o);
  exec print ("Starting deep search for: " +:+ keyword);
  exec print "This may take a few minutes depending on search depth...";
  run start_time <- datetime_now;
  run result <- run_agent task;
  run end_time <- datetime_now;
  save_result o keyword result
    (Datetime.sub_microseconds end_time start_time).

(** The loop of lines 62-187 over the keywords left, [results] being the
    dict filled so far. *)
Fixpoint process_keywords (o : options) (keywords : list string)
    (results : gmap string result_entry) : M (gmap string result_entry) :=
  match keywords with
  | [] => ret results
  | keyword :: rest =>
      run entry <- process_keyword o keyword;
      process_keywords o rest (<[ keyword := entry ]> results)
  end.

(** [AdvancedSearchAgent.search_and_summarize] *)
Definition search_and_summarize (keywords : keywords_arg)
    (opts : option partial_options) : M (gmap string result_entry) :=
  let o := resolve_options opts in
  let keywords :=
    match keywords with
    | OneKeyword k => [k]
    | KeywordList l => l
    end in
  process_keywords o keywords ∅.

(** Lines 50-107 of the single-keyword variant; an [output_file] that
    is [None] or empty is falsy. *)
Definition simple_save_result (keywords : string)
    (output_file : option string) (lang : string) (blog : bool)
    (result : agent_result) : M string :=
  run extracted <- lift (extract_text result);
  run result_text <- transform margin12 blog lang extracted;
  run output_file <-
    match output_file with
    | Some (String c f) => ret (String c f)
    | _ =>
        run stamp <- datetime_now;
        ret (file_name keywords stamp "md")
    end;
  exec file_open output_file;
  exec (if negb blog then
          exec file_write output_file
                ("# Summary: " +:+ keywords +:+ PyStr.nl +:+ PyStr.nl);
          run stamp <- datetime_now;
          file_write output_file
            ("*Generated on: " +:+ Datetime.strftime_human stamp +:+ "*"
             +:+ PyStr.nl +:+ PyStr.nl)
        else ret tt);
  exec file_write output_file result_text;
  exec print ("Summary saved to: " +:+ output_file);
  ret output_file.

(** [DeepSearchAgent.search_and_summarize] *)
Definition simple_search_and_summarize (keywords : string) (depth : Z)
    (output_file : option string) (lang : string) (blog : bool) : M string :=
  let task := simple_build_task keywords depth in
  exec print ("Starting deep search for: " +:+ keywords);
  exec print "This may take a few minutes depending on search depth...";
  run result <- run_agent task;
  simple_save_result keywords output_file lang blog result.

End Run.


(** ** Construction of the agents

    [__init__] of both classes: the key, when one is given, is written
    into the environment of the process, then the LLM handle is built for
    a model name.  Text is held as its UTF-8 bytes, and the system is a
    POSIX one. *)

(** The string holds the character NUL. *)
Fixpoint has_nul (s : string) : bool :=
  match s with
  | EmptyString => false
  | String c s' => Ascii.eqb c "000" || has_nul s'
  end.

(** Lines 15-16 (14-15 in the single-keyword variant):
    [if openai_api_key: os.environ["OPENAI_API_KEY"] = openai_api_key].
    [None] and the empty string are falsy.  The assignment hands the
    value to [putenv], which raises [ValueError] for a value with an
    embedded NUL; the environment is then left as it was. *)
Definition set_api_key (openai_api_key : option string)
    (environ : gmap string string) : outcome unit * gmap string string :=
  match openai_api_key with
  | Some (String c s) =>
      if has_nul (String c s) then (Raise (OtherError "ValueError"), environ)
      else (Return tt, <[ "OPENAI_API_KEY" := String c s ]> environ)
  | _ => (Return tt, environ)
  end.

Section Construction.

(** [ChatOpenAI(model=...)]: the construction of the LLM handle, which
    reads the environment of the process and may raise. *)
Context {handle : Type}.
Variable chat_openai : string -> gmap string string -> outcome handle.

(** [AdvancedSearchAgent.__init__(openai_api_key=None, model="gpt-4o")]:
    the handle stored in [self.llm], or the exception raised, and the
    environment left. *)
Definition advanced_init (openai_api_key model : option string)
    (environ : gmap string string) : outcome handle * gmap string string :=
  match set_api_key openai_api_key environ with
  | (Raise x, environ') => (Raise x, environ')
  | (Return _, environ') =>
      (chat_openai (default "gpt-4o" model) environ', environ')
  end.

(** [DeepSearchAgent.__init__(openai_api_key=None)] *)
Definition simple_init (openai_api_key : option string)
    (environ : gmap string string) : outcome handle * gmap string string :=
  match set_api_key openai_api_key environ with
  | (Raise x, environ') => (Raise x, environ')
  | (Return _, environ') => (chat_openai "gpt-4o" environ', environ')
  end.

End Construction.

(** ** The interactive entry points *)

(** The terminal: the lines still to be read from standard input and the
    prompts [input] has shown, oldest first. *)
Record console : Type := {
  pending : list string;
  shown : list string
}.

(** Computations that read the terminal and may raise. *)
Definition R (A : Type) : Type := console -> outcome A * console.

Definition answer {A} (a : A) : R A := fun c => (Return a, c).

Definition then_ask {A B} (m : R A) (k : A -> R B) : R B :=
  fun c =>
    match m c with
    | (Return a, c') => k a c'
    | (Raise x, c') => (Raise x, c')
    end.

Notation "'ask' x <- m ; k" := (then_ask m (fun x => k))
  (at level 10, x name, m at level 100, k at level 200,
   format "'[v' 'ask'  x  <-  m ; '/' k ']'").

(** [input(prompt)]: shows the prompt and takes the next line, without
    its line end; [EOFError] when there is none. *)
Definition input (prompt : string) : R string := fun c =>
  match pending c with
  | [] => (Raise (OtherError "EOFError"),
           {| pending := []; shown := shown c ++ [prompt] |})
  | line :: rest =>
      (Return line, {| pending := rest; shown := shown c ++ [prompt] |})
  end.

(** [s.split(sep)] for a separator of one character. *)
Fixpoint split (sep : ascii) (s : string) : list string :=
  match s with
  | EmptyString => [EmptyString]
  | String c s' =>
      if Ascii.eqb c sep then EmptyString :: split sep s'
      else
        match split sep s' with
        | [] => [String c EmptyString]
        | x :: xs => String c x :: xs
        end
  end.

(** [x in items] on a list of strings. *)
Definition member (x : string) (items : list string) : bool :=
  existsb (String.eqb x) items.

(** A string is truthy when it is not empty. *)
Definition truthy (s : string) : bool :=
  match s with EmptyString => false | String _ _ => true end.

(** The keys of a dict in the order [items()] gives them, for a dict
    filled by assigning the keys of [keys] in turn: the order of the first
    assignments. *)
Fixpoint insertion_order (seen keys : list string) : list string :=
  match keys with
  | [] => []
  | k :: rest =>
      if member k seen then insertion_order seen rest
      else k :: insertion_order (k :: seen) rest
  end.

Definition format_options : list string := ["markdown"; "json"; "txt"].

Section Main.

(** The builtins [str.strip] and [int], and the rendering of a duration by
    the format [.1f], are taken as given. *)
Variable strip : string -> string.
Variable int : string -> outcome Z.
Variable one_decimal : Z -> string.
Variable e : env.

(** Lines 199-231 of the multi-keyword variant: the answers to the six
    prompts, as the keywords and the options passed on. *)
Definition read_answers : R (list string * partial_options) :=
  ask keywords_input <-
    input "Enter keywords or topics to search (comma-separated): ";
  let keywords := List.map strip (split "," keywords_input) in
  ask depth_input <- input "Enter search depth (1-3, where 3 is deepest): ";
  ask depth <- (fun c => (int depth_input, c));
  ask focus_input <-
    input "Enter specific focus areas (comma-separated, or press Enter to skip): ";
  let focus_areas :=
    if truthy (strip focus_input)
    then List.map strip (split "," focus_input) else [] in
  ask format_input <-
    input ("Enter output format (" +:+ PyStr.join "/" format_options
           +:+ ", default: markdown): ");
  let output_format :=
    if member (PyStr.lower format_input) format_options
    then PyStr.lower format_input else "markdown" in
  ask language_input <-
    input "Enter output language (e.g., english, chinese, default: english): ";
  let language :=
    if truthy (strip language_input) then strip language_input else "english" in
  ask blog_style_input <- input "Format as blog article? (y/n, default: n): ";
  let blog_style := member (PyStr.lower blog_style_input) ["y"; "yes"; "true"] in
  answer (keywords,
          {| p_depth := Some depth;
             p_output_format := Some output_format;
             p_output_dir := Some "search_results";
             p_max_results := None;
             p_focus_areas := Some focus_areas;
             p_language := Some language;
             p_blog_style := Some blog_style |}).

(** Lines 236-239: the closing lines, one for each entry of the dict. *)
Fixpoint print_entries (results : gmap string result_entry)
    (keys : list string) : M unit :=
  match keys with
  | [] => ret tt
  | keyword :: rest =>
      exec (match results !! keyword with
            | Some data =>
                print ("- '" +:+ keyword +:+ "': Saved to "
                       +:+ entry_output_file data +:+ " (took "
                       +:+ one_decimal (duration_microseconds data)
                       +:+ " seconds)")
            | None => ret tt
            end);
      print_entries results rest
  end.

Definition print_summary (results : gmap string result_entry)
    (keywords : list string) : M unit :=
  exec print (PyStr.nl +:+ "Search completed!");
  print_entries results (insertion_order [] keywords).

(** [main] of [advanced_search_agent.py], from line 196 on, the agent of
    line 193 being built on the collaborators of [e]. *)
Definition main (c : console) (w : world) : outcome unit * console * world :=
  let '(_, w0) :=
    (exec print "Advanced Search Agent"; print "====================") w in
  match read_answers c with
  | (Raise x, c') => (Raise x, c', w0)
  | (Return (keywords, options), c') =>
      let '(done, w1) :=
        (run results <-
           search_and_summarize e (KeywordList keywords) (Some options);
         print_summary results keywords) w0 in
      (done, c', w1)
  end.

(** Lines 117-129 of the single-keyword variant. *)
Definition simple_read_answers : R (string * Z * string * bool) :=
  ask keywords <- input "Enter keywords or topic to search for: ";
  ask depth_input <- input "Enter search depth (1-3, where 3 is deepest): ";
  ask depth <- (fun c => (int depth_input, c));
  ask language_input <-
    input "Enter output language (e.g., english, chinese, default: english): ";
  let language :=
    if truthy (strip language_input) then strip language_input else "english" in
  ask blog_style_input <- input "Format as blog article? (y/n, default: n): ";
  let blog_style := member (PyStr.lower blog_style_input) ["y"; "yes"; "true"] in
  answer (keywords, depth, language, blog_style).

(** [main] of [search_agent.py], from line 114 on. *)
Definition simple_main (c : console) (w : world)
  : outcome unit * console * world :=
  let '(_, w0) :=
    (exec print "Deep Search Agent"; print "================") w in
  match simple_read_answers c with
  | (Raise x, c') => (Raise x, c', w0)
  | (Return (keywords, depth, language, blog_style), c') =>
      let '(done, w1) :=
        (run saved <-
           simple_search_and_summarize e keywords depth None language blog_style;
         ret tt) w0 in
      (done, c', w1)
  end.

End Main.
(** ** Sample objects and environments *)

Module Samples.

(** An ordinary object whose only data attribute is a list of messages;
    like every Python object it inherits [__str__] from [object]. *)
Definition only_messages : agent_result := {|
  text := Raise AttributeError;
  dunder_str := Return tt;
  str := Return "<AgentHistoryList object>";
  messages := Return [ {| content := Return "first" |};
                       {| content := Return "the findings" |} ]
|}.

(** The same data on an object whose attribute lookup answers for
    nothing but [messages]. *)
Definition bare_messages : agent_result := {|
  text := Raise AttributeError;
  dunder_str := Raise AttributeError;
  str := Return "<AgentHistoryList object>";
  messages := Return [ {| content := Return "first" |};
                       {| content := Return "the findings" |} ]
|}.

(** An object whose every attribute lookup fails. *)
Definition opaque : agent_result := {|
  text := Raise AttributeError;
  dunder_str := Raise AttributeError;
  str := Raise (OtherError "TypeError");
  messages := Raise (OtherError "RuntimeError")
|}.

(** An object whose [text] property fails with an error of its own. *)
Definition broken_text : agent_result := {|
  text := Raise (OtherError "RuntimeError");
  dunder_str := Return tt;
  str := Return "<AgentHistoryList object>";
  messages := Return []
|}.

Definition with_text (t : string) : agent_result := {|
  text := Return t;
  dunder_str := Return tt;
  str := Return "<AgentHistoryList object>";
  messages := Raise AttributeError
|}.

(** The caller asks for a depth of 7 and for JSON output. *)
Definition deep_options : partial_options := {|
  p_depth := Some 7; p_output_format := Some "json"; p_output_dir := None;
  p_max_results := None; p_focus_areas := None; p_language := None;
  p_blog_style := None
|}.

(** A clock that advances by a minute at each reading, up to 12:59. *)
Definition noon (n : nat) : datetime := {|
  year := 2025; month := 11; day := 3;
  hour := 12; minute := Z.min (Z.of_nat n) 59; second := 0; microsecond := 0
|}.

(** Collaborators that always answer. *)
Definition quiet_env : env := {|
  now := noon;
  agent_run := fun _ _ => Return (with_text "Three findings.");
  llm_invoke := fun _ _ => Return "Rewritten as an article.";
  makedirs := fun _ => Return tt;
  open_for_writing := fun _ => Return tt
|}.

(** The local time of a night on which daylight saving time ends.  The
    first reading, taken before the agent runs, is 01:59:50; the clocks
    then go back from 02:00 to 01:00, and the readings that follow start
    at 01:00:05. *)
Definition autumn_night (n : nat) : datetime :=
  match n with
  | O => {| year := 2025; month := 11; day := 2;
            hour := 1; minute := 59; second := 50; microsecond := 0 |}
  | S k => {| year := 2025; month := 11; day := 2;
              hour := 1; minute := 0; second := Z.min (5 + Z.of_nat k) 59;
              microsecond := 0 |}
  end.

Definition autumn_env : env := {|
  now := autumn_night;
  agent_run := fun _ _ => Return (with_text "Three findings.");
  llm_invoke := fun _ _ => Return "Rewritten as an article.";
  makedirs := fun _ => Return tt;
  open_for_writing := fun _ => Return tt
|}.

Definition french_blog : options := {|
  depth := 2; output_format := "txt"; output_dir := "out";
  max_results := 5; focus_areas := ["history"; "pricing"];
  language := "French"; blog_style := true
|}.

Definition plain_text : options := {|
  depth := 1; output_format := "txt"; output_dir := "out";
  max_results := 5; focus_areas := []; language := "English";
  blog_style := false
|}.

End Samples.


(** ** Sample terminals and builtins *)

Module Terminal.

(** A clock that stands still: every reading falls in the same second. *)
Definition frozen_env : env := {|
  now := fun _ => Samples.noon 0;
  agent_run := fun _ _ => Return (Samples.with_text "Three findings.");
  llm_invoke := fun _ _ => Return "Rewritten as an article.";
  makedirs := fun _ => Return tt;
  open_for_writing := fun _ => Return tt
|}.

(** A clock that steps back once, at its third reading, the one the
    first file name is stamped with: 12:00, 12:01, 11:00, 12:03 and so
    on. *)
Definition stepping_back (n : nat) : datetime :=
  match n with
  | 2%nat => {| year := 2025; month := 11; day := 3;
                hour := 11; minute := 0; second := 0; microsecond := 0 |}
  | _ => Samples.noon n
  end.

Definition stepping_back_env : env := {|
  now := stepping_back;
  agent_run := fun _ _ => Return (Samples.with_text "Three findings.");
  llm_invoke := fun _ _ => Return "Rewritten as an article.";
  makedirs := fun _ => Return tt;
  open_for_writing := fun _ => Return tt
|}.

(** An agent that fails at its second run. *)
Definition failing_env : env := {|
  now := Samples.noon;
  agent_run := fun n _ =>
    match n with
    | 1%nat => Raise (OtherError "TimeoutError")
    | _ => Return (Samples.with_text "Three findings.")
    end;
  llm_invoke := fun _ _ => Return "Rewritten as an article.";
  makedirs := fun _ => Return tt;
  open_for_writing := fun _ => Return tt
|}.

(** A file system that refuses every file. *)
Definition read_only_env : env := {|
  now := Samples.noon;
  agent_run := fun _ _ => Return (Samples.with_text "Three findings.");
  llm_invoke := fun _ _ => Return "Rewritten as an article.";
  makedirs := fun _ => Return tt;
  open_for_writing := fun _ => Raise (OtherError "PermissionError")
|}.

(** The caller asks for a French article in a text file. *)
Definition french_article : partial_options := {|
  p_depth := None; p_output_format := Some "txt"; p_output_dir := None;
  p_max_results := None; p_focus_areas := None; p_language := Some "French";
  p_blog_style := Some true
|}.

Definition is_space (c : ascii) : bool :=
  Ascii.eqb c " " || Ascii.eqb c "009" || Ascii.eqb c "010" || Ascii.eqb c "013".

Fixpoint lstrip (s : string) : string :=
  match s with
  | String c s' => if is_space c then lstrip s' else s
  | EmptyString => EmptyString
  end.

Fixpoint rstrip (s : string) : string :=
  match s with
  | EmptyString => EmptyString
  | String c s' =>
      match rstrip s' with
      | EmptyString => if is_space c then EmptyString else String c EmptyString
      | t => String c t
      end
  end.

(** [str.strip] on ASCII text. *)
Definition strip (s : string) : string := rstrip (lstrip s).

Fixpoint digits_value (acc : Z) (s : string) : Z :=
  match s with
  | EmptyString => acc
  | String c s' => digits_value (10 * acc + (Z.of_N (N_of_ascii c) - 48)) s'
  end.

(** [int] on ASCII text: an optional sign and decimal digits, spaces
    around them allowed. *)
Definition int (s : string) : outcome Z :=
  let body (t : string) : option Z :=
    match t with
    | EmptyString => None
    | _ => if PyStr.all_chars PyStr.is_digit t then Some (digits_value 0 t) else None
    end in
  let parsed :=
    match strip s with
    | String "-" t => option_map Z.opp (body t)
    | String "+" t => body t
    | t => body t
    end in
  match parsed with
  | Some z => Return z
  | None => Raise (OtherError "ValueError")
  end.

(** A duration of so many microseconds, in seconds with one decimal,
    rounded half up. *)
Definition one_decimal (micro : Z) : string :=
  let tenths := (Z.abs micro + 50000) / 100000 in
  (if micro <? 0 then "-" else "")
  +:+ PyStr.of_int (tenths / 10) +:+ "." +:+ PyStr.of_int (tenths mod 10).

(** The terminal of a user who answers the six questions. *)
Definition six_answers : console := {|
  pending := ["rust async, tokio"; "3"; ""; "JSON"; " "; "n"];
  shown := []
|}.

(** The terminal of a user who answers the second question with a
    word. *)
Definition worded_depth : console := {|
  pending := ["rust async"; "deep"; ""; "json"; ""; "n"];
  shown := []
|}.

(** The terminal of a user who leaves after the third question. *)
Definition early_leave : console := {|
  pending := ["rust async"; "2"; "history"];
  shown := []
|}.

(** The answers to the four questions of the single-keyword variant. *)
Definition four_answers : console := {|
  pending := ["rust async, tokio"; "2"; ""; "no"];
  shown := []
|}.

End Terminal.
(** ** Statements of the specification *)

(** The three cases of the extraction as the specification lists them,
    on one result object. *)
Definition extraction_as_specified (r : agent_result) : Prop :=
  (forall v, text r = Return v -> extract_text r = Return v)
  /\ (forall ms m c,
        text r = Raise AttributeError ->
        messages r = Return ms -> last ms = Some m -> content m = Return c ->
        extract_text r = Return c)
  /\ (forall x,
        text r = Raise AttributeError -> messages r = Raise x ->
        extract_text r = Return fallback_text).

(** The failures that no handler covers: an error other than
    [AttributeError] while looking up [text] or [__str__], an error while
    reading [text], and an error in [str(result)]. *)
Definition unguarded_failure (r : agent_result) (x : exn) : Prop :=
  (text r = Raise x /\ x <> AttributeError)
  \/ (text r = Raise AttributeError
      /\ ((dunder_str r = Raise x /\ x <> AttributeError)
          \/ (dunder_str r = Return tt /\ str r = Raise x))).


(** The adverb the specification gives for a depth. *)
Definition adverb_of_depth (d : Z) : option string :=
  if d =? 1 then Some "briefly"
  else if d =? 2 then Some "thoroughly"
  else if d =? 3 then Some "exhaustively"
  else None.

(** An instruction string that opens with the adverb [adv] for the
    keyword [kw]. *)
Definition opens_with (adv kw task : string) : Prop :=
  exists tail,
    task = "Search " +:+ adv +:+ " for information about '" +:+ kw +:+ "'." +:+ tail.

(** The adverb mapping of the specification, on both variants. *)
Definition adverb_as_specified (kw : string) (d : Z) : Prop :=
  forall adv, adverb_of_depth d = Some adv ->
    (forall o, depth o = d -> exists task, build_task kw o = Return task /\ opens_with adv kw task)
    /\ opens_with adv kw (simple_build_task kw d).

(** A computation that leaves the observation [f] of the world as it
    was, whatever its outcome. *)
Definition keeps {A B} (f : world -> B) (m : M A) : Prop :=
  forall w, f (m w).2 = f w.

(** ** The run of one keyword in closed form *)

(** An environment whose collaborators all answer: the agent returns an
    object the extraction accepts, the LLM returns a response, and the
    file system lets directories and files be created. *)
Record cooperative (e : env) : Prop := {
  agent_returns :
    forall n task, exists r t,
      agent_run e n task = Return r /\ extract_text r = Return t;
  llm_returns : forall n prompt, exists c, llm_invoke e n prompt = Return c;
  makedirs_succeeds : forall d, makedirs e d = Return tt;
  open_succeeds : forall p, open_for_writing e p = Return tt
}.

(** A clock whose readings are dates [strftime] prints on four, two,
    two digits and so on. *)
Definition valid_clock (e : env) : Prop :=
  forall n, Datetime.valid (now e n) = true.

(** A clock that never steps back. *)
Definition monotone_clock (e : env) : Prop :=
  forall n,
    Datetime.to_microseconds (now e n) <= Datetime.to_microseconds (now e (S n)).

Definition task_of (kw : string) (o : options) : string :=
  match build_task kw o with Return t => t | Raise _ => "" end.

Definition extracted_text (e : env) (n : nat) (task : string) : string :=
  match agent_run e n task with
  | Return r => match extract_text r with Return t => t | Raise _ => "" end
  | Raise _ => ""
  end.

Definition llm_content (e : env) (n : nat) (prompt : string) : string :=
  match llm_invoke e n prompt with Return c => c | Raise _ => "" end.

(** The lines written before the text in a markdown or text file, [stamp]
    being the time of their writing. *)
Definition header_text (o : options) (kw : string) (stamp : datetime) : string :=
  if blog_style o then ""
  else if String.eqb (output_format o) "markdown" then
    "# Summary: " +:+ kw +:+ PyStr.nl +:+ PyStr.nl
    +:+ "*Generated on: " +:+ Datetime.strftime_human stamp +:+ "*"
    +:+ PyStr.nl +:+ PyStr.nl
    +:+ match focus_areas o with
        | [] => ""
        | _ :: _ => "**Focus Areas:** " +:+ PyStr.join ", " (focus_areas o)
                    +:+ PyStr.nl +:+ PyStr.nl
        end
  else
    "SUMMARY: " +:+ kw +:+ PyStr.nl
    +:+ "Generated on: " +:+ Datetime.strftime_human stamp +:+ PyStr.nl
    +:+ match focus_areas o with
        | [] => ""
        | _ :: _ => "Focus Areas: " +:+ PyStr.join ", " (focus_areas o)
                    +:+ PyStr.nl +:+ PyStr.nl
        end.

Definition is_json (o : options) : bool := String.eqb (output_format o) "json".

Section Closed_form.

Variables (e : env) (o : options) (kw : string) (w : world).

Definition extracted : string :=
  extracted_text e (length (agent_tasks w)) (task_of kw o).

Definition prompt : string :=
  blog_prompt margin16 (PyStr.lower (language o)) extracted.

(** The working text once the optional transformation is over. *)
Definition working_text : string :=
  if wants_transform (blog_style o) (language o)
  then llm_content e (length (llm_prompts w)) prompt
  else extracted.

Definition duration : Z :=
  Datetime.sub_microseconds (now e (S (clock_reads w))) (now e (clock_reads w)).

Definition output_path : string :=
  path_join (output_dir o)
    (file_name kw (now e (S (S (clock_reads w)))) (extension (output_format o))).


Definition header : string :=
  header_text o kw (now e (S (S (S (clock_reads w))))).

Definition record_written : json :=
  json_data kw (Datetime.isoformat (now e (S (S (S (clock_reads w))))))
    working_text o duration.

Definition file_text : string :=
  if is_json o then Json.dumps record_written else header +:+ working_text.

Definition entry_after : result_entry :=
  {| entry_output_file := output_path; duration_microseconds := duration |}.

Definition world_after : world := {|
  clock_reads :=
    (if is_json o || negb (blog_style o) then 4 else 3) + clock_reads w;
  agent_tasks := agent_tasks w ++ [task_of kw o];
  llm_prompts :=
    if wants_transform (blog_style o) (language o)
    then llm_prompts w ++ [prompt] else llm_prompts w;
  stdout :=
    stdout w
    ++ ["Starting deep search for: " +:+ kw;
        "This may take a few minutes depending on search depth..."]
    ++ (if wants_transform (blog_style o) (language o)
        then ["Transforming results to " +:+ language o +:+ " blog-style article..."]
        else [])
    ++ ["Summary for '" +:+ kw +:+ "' saved to: " +:+ output_path];
  directories := {[ output_dir o ]} ∪ directories w;
  files := <[ output_path := file_text ]> (files w)
|}.

End Closed_form.

(** ** File names as the specification describes them *)

(** A space or a path separator. *)
Definition is_separator (c : ascii) : bool :=
  Ascii.eqb c " " || Ascii.eqb c "/" || Ascii.eqb c "\".

Fixpoint map_chars (f : ascii -> ascii) (s : string) : string :=
  match s with
  | EmptyString => EmptyString
  | String c s' => String (f c) (map_chars f s')
  end.

(** The keyword with every space and path separator replaced by an
    underscore. *)
Definition underscored (kw : string) : string :=
  map_chars (fun c => if is_separator c then "_"%char else c) kw.

(** A token of the form [YYYYMMDD_HHMMSS]. *)
Definition timestamp_token (ts : string) : Prop :=
  exists date time,
    ts = date +:+ "_" +:+ time
    /\ String.length date = 8%nat /\ String.length time = 6%nat
    /\ PyStr.all_chars PyStr.is_digit date = true
    /\ PyStr.all_chars PyStr.is_digit time = true.

(** The number a string of decimal digits writes, [acc] being the number
    written by the digits before it. *)
Fixpoint decimal_from (acc : Z) (s : string) : Z :=
  match s with
  | EmptyString => acc
  | String c s' => decimal_from (10 * acc + (Z.of_N (N_of_ascii c) - 48)) s'
  end.

Definition decimal_value (s : string) : Z := decimal_from 0 s.

(** The token [YYYYMMDD_HHMMSS] of a date: eight digits that write the
    year, the month and the day, an underscore, and six digits that write
    the hour, the minute and the second. *)
Definition token_of (d : datetime) (ts : string) : Prop :=
  exists date time,
    ts = date +:+ "_" +:+ time
    /\ String.length date = 8%nat /\ String.length time = 6%nat
    /\ PyStr.all_chars PyStr.is_digit date = true
    /\ PyStr.all_chars PyStr.is_digit time = true
    /\ decimal_value date = year d * 10000 + month d * 100 + day d
    /\ decimal_value time = hour d * 10000 + minute d * 100 + second d.

(** The path of the file the single-keyword variant writes. *)
Definition simple_output_path (e : env) (kw : string) (out : option string)
    (w : world) : string :=
  match out with
  | Some (String c f) => String c f
  | _ => file_name kw (now e (clock_reads w)) "md"
  end.

(** The text the single-keyword variant has in hand after the optional
    transformation, [n] agent calls and [k] LLM calls having been made
    before. *)
Definition simple_working_text (e : env) (kw : string) (depth : Z)
    (lang : string) (blog : bool) (w : world) : string :=
  let t := extracted_text e (length (agent_tasks w)) (simple_build_task kw depth) in
  if wants_transform blog lang
  then llm_content e (length (llm_prompts w))
         (blog_prompt margin12 (PyStr.lower lang) t)
  else t.

(** The lines the single-keyword variant writes before the text. *)
Definition simple_header (kw : string) (blog : bool) (stamp : datetime) : string :=
  if blog then ""
  else "# Summary: " +:+ kw +:+ PyStr.nl +:+ PyStr.nl
       +:+ "*Generated on: " +:+ Datetime.strftime_human stamp +:+ "*"
       +:+ PyStr.nl +:+ PyStr.nl.

(** The caller asked for a blog article or for a language other than
    English. *)
Definition transformation_requested (blog : bool) (lang : string) : Prop :=
  blog = true \/ PyStr.lower lang <> "english".

(** ** The scenario of two keywords *)

(** The run over the keywords A and B returns a dict of exactly two
    entries, one for each keyword, whose files are two different files of
    the file system, and whose durations are not negative. *)
Definition two_keywords_scenario (e : env) (opts : option partial_options)
    (w : world) : Prop :=
  exists results w' ea eb,
    search_and_summarize e (KeywordList ["A"; "B"]) opts w = (Return results, w')
    /\ size results = 2%nat
    /\ results !! "A" = Some ea /\ results !! "B" = Some eb
    /\ entry_output_file ea <> entry_output_file eb
    /\ is_Some (files w' !! entry_output_file ea)
    /\ is_Some (files w' !! entry_output_file eb)
    /\ non_negative_duration ea /\ non_negative_duration eb.

(** The wall clock did not step back between its reading [n] and the
    next one. *)
Definition steady_at (e : env) (n : nat) : Prop :=
  Datetime.to_microseconds (now e n) <= Datetime.to_microseconds (now e (S n)).

(** ** Documents [json.dump] writes *)

(** What follows a number in a document does not continue it. *)
Definition ends_value (rest : string) : bool :=
  match rest with
  | String c _ =>
      negb (PyStr.is_digit c || Ascii.eqb c "." || Ascii.eqb c "e" || Ascii.eqb c "E")
  | EmptyString => true
  end.

Definition starts_without_digit (s : string) : bool :=
  match s with
  | String c _ => negb (PyStr.is_digit c)
  | EmptyString => true
  end.

(** The literal of a float: it starts as a number does, and the number
    scanner reads it whole, as a float, whenever what follows does not
    continue it. *)
Definition number_literal (lit : string) : Prop :=
  (exists c tail, lit = String c tail /\ (PyStr.is_digit c = true \/ c = "-"%char))
  /\ forall rest, ends_value rest = true ->
       Json.scan_number (lit +:+ rest) = Some (JFloat lit, rest).

(** A value whose floats all carry the literal of a number. *)
Inductive well_formed : json -> Prop :=
| wf_null : well_formed JNull
| wf_bool b : well_formed (JBool b)
| wf_int z : well_formed (JInt z)
| wf_float lit : number_literal lit -> well_formed (JFloat lit)
| wf_string s : well_formed (JString s)
| wf_array items : Forall well_formed items -> well_formed (JArray items)
| wf_object pairs :
    Forall (fun kv => well_formed kv.2) pairs -> well_formed (JObject pairs).

(** The depth of calls the scanner needs to read a value back. *)
Fixpoint fuel_needed (j : json) : nat :=
  match j with
  | JArray items =>
      S (fold_right (fun x acc => S (Nat.max (fuel_needed x) acc)) 0%nat items)
  | JObject pairs =>
      S (fold_right (fun kv acc => S (Nat.max (fuel_needed kv.2) acc)) 0%nat pairs)
  | _ => 1%nat
  end.

(** Induction on a value, with the property at hand for the items of an
    array and the values of an object. *)
Section Json_induction.

Variable P : json -> Prop.
Hypothesis Hnull : P JNull.
Hypothesis Hbool : forall b, P (JBool b).
Hypothesis Hint : forall z, P (JInt z).
Hypothesis Hfloat : forall lit, P (JFloat lit).
Hypothesis Hstring : forall s, P (JString s).
Hypothesis Harray : forall items, Forall P items -> P (JArray items).
Hypothesis Hobject :
  forall pairs, Forall (fun kv => P kv.2) pairs -> P (JObject pairs).

Fixpoint json_induction (j : json) : P j :=
  match j with
  | JNull => Hnull
  | JBool b => Hbool b
  | JInt z => Hint z
  | JFloat lit => Hfloat lit
  | JString s => Hstring s
  | JArray items =>
      Harray items
        ((fix all (l : list json) : Forall P l :=
            match l with
            | [] => List.Forall_nil P
            | x :: l' => List.Forall_cons P x l' (json_induction x) (all l')
            end) items)
  | JObject pairs =>
      Hobject pairs
        ((fix all (l : list (string * json)) : Forall (fun kv => P kv.2) l :=
            match l with
            | [] => List.Forall_nil _
            | kv :: l' =>
                List.Forall_cons (fun kv => P kv.2) kv l' (json_induction kv.2) (all l')
            end) pairs)
  end.

End Json_induction.

(** The scanner, given the depth of calls [fuel_needed] counts, reads a
    written value back and stops right after it. *)
Definition reads_back (j : json) : Prop :=
  forall level rest fuel,
    well_formed j -> ends_value rest = true -> (fuel_needed j <= fuel)%nat ->
    Json.scan_once fuel (Json.dumps_at level j +:+ rest) = Some (j, rest).

(** A character a value can start with: not a blank, and not the bracket
    or brace that closes an array or an object. *)
Definition token_start (c : ascii) : bool :=
  negb (Json.is_ws c || Ascii.eqb c "]" || Ascii.eqb c "}").

Definition starts_with_token (s : string) : Prop :=
  exists c tail, s = String c tail /\ token_start c = true.

(** A pair of an object as [json.dump] writes it. *)
Definition render_pair (level : nat) (kv : string * json) : string :=
  Json.encode_basestring kv.1 +:+ ": " +:+ Json.dumps_at level kv.2.

(** ** The run of a list of keywords in closed form *)

(** The world after the keywords of [ks] have been processed in turn,
    and the dict they leave, [results] being the dict before. *)
Fixpoint world_after_all (e : env) (o : options) (ks : list string)
    (w : world) : world :=
  match ks with
  | [] => w
  | k :: rest => world_after_all e o rest (world_after e o k w)
  end.

Fixpoint results_after (e : env) (o : options) (ks : list string)
    (results : gmap string result_entry) (w : world)
  : gmap string result_entry :=
  match ks with
  | [] => results
  | k :: rest =>
      results_after e o rest (<[ k := entry_after e o k w ]> results)
        (world_after e o k w)
  end.

(** The name holds no space and no path separator. *)
Definition plain_name (name : string) : Prop :=
  PyStr.all_chars (fun c => negb (is_separator c)) name = true.

(** The string ends with [suffix]. *)
Definition ends_with (suffix s : string) : Prop :=
  exists front, s = front +:+ suffix.

(** The number of occurrences of the character in the string. *)
Fixpoint occurrences (c : ascii) (s : string) : nat :=
  match s with
  | EmptyString => 0%nat
  | String c' s' => ((if Ascii.eqb c' c then 1 else 0) + occurrences c s')%nat
  end.

(** Every reading of the clock falls in the same second. *)
Definition frozen_clock (e : env) : Prop :=
  forall n m,
    Datetime.strftime_compact (now e n) = Datetime.strftime_compact (now e m).

(** The construction of an agent of one class or the other. *)
Inductive construction : Type :=
| AdvancedAgent (openai_api_key model : option string)
| DeepAgent (openai_api_key : option string).

Definition key_given (c : construction) : option string :=
  match c with
  | AdvancedAgent key _ => key
  | DeepAgent key => key
  end.

(** The model the LLM handle of the agent is asked for. *)
Definition model_asked (c : construction) : string :=
  match c with
  | AdvancedAgent _ model => default "gpt-4o" model
  | DeepAgent _ => "gpt-4o"
  end.

Section Constructions.

Context {handle : Type}.
Variable chat_openai : string -> gmap string string -> outcome handle.

(** The attempt to build the agent: its outcome and the environment it
    leaves. *)
Definition attempt (c : construction) (environ : gmap string string)
  : outcome handle * gmap string string :=
  match c with
  | AdvancedAgent key model => advanced_init chat_openai key model environ
  | DeepAgent key => simple_init chat_openai key environ
  end.

(** The environment of the process after the attempts to build agents
    one after the other, whether they raised or not. *)
Definition after_constructions (cs : list construction)
    (environ : gmap string string) : gmap string string :=
  foldl (fun env c => (attempt c env).2) environ cs.

End Constructions.

(** The key holds the character NUL somewhere. *)
Definition holds_nul (key : string) : Prop :=
  "000"%char ∈ list_ascii_of_string key.

(** The key an attempt writes: the key given, when it is not empty and
    holds no NUL. *)
Definition key_written_of (key : option string) : option string :=
  match key with
  | Some key => if decide (key <> "" /\ ~ holds_nul key) then Some key else None
  | None => None
  end.

Definition key_written (c : construction) : option string :=
  key_written_of (key_given c).

(** The last key written by the attempts of the list. *)
Fixpoint last_key (cs : list construction) : option string :=
  match cs with
  | [] => None
  | c :: rest =>
      match last_key rest with
      | Some k => Some k
      | None => key_written c
      end
  end.

(** The six prompts of the multi-keyword variant, in order. *)
Definition six_prompts : list string :=
  ["Enter keywords or topics to search (comma-separated): ";
   "Enter search depth (1-3, where 3 is deepest): ";
   "Enter specific focus areas (comma-separated, or press Enter to skip): ";
   "Enter output format (markdown/json/txt, default: markdown): ";
   "Enter output language (e.g., english, chinese, default: english): ";
   "Format as blog article? (y/n, default: n): "].

(** The four prompts of the single-keyword variant. *)
Definition four_prompts : list string :=
  ["Enter keywords or topic to search for: ";
   "Enter search depth (1-3, where 3 is deepest): ";
   "Enter output language (e.g., english, chinese, default: english): ";
   "Format as blog article? (y/n, default: n): "].

(** The options [main] passes on when the depth read is [depth] and the
    last four answers are [focus], [fmt], [lang] and [blog]. *)
Definition answers_options (strip : string -> string) (depth : Z)
    (focus fmt lang blog : string) : partial_options := {|
  p_depth := Some depth;
  p_output_format :=
    Some (if member (PyStr.lower fmt) format_options
          then PyStr.lower fmt else "markdown");
  p_output_dir := Some "search_results";
  p_max_results := None;
  p_focus_areas :=
    Some (if truthy (strip focus) then List.map strip (split "," focus) else []);
  p_language := Some (if truthy (strip lang) then strip lang else "english");
  p_blog_style := Some (member (PyStr.lower blog) ["y"; "yes"; "true"])
|}.

(** The world once the lines have been printed. *)
Definition printed (lines : list string) (w : world) : world := {|
  clock_reads := clock_reads w; agent_tasks := agent_tasks w;
  llm_prompts := llm_prompts w; stdout := stdout w ++ lines;
  directories := directories w; files := files w
|}.

(** The closing line [main] prints for a keyword of the dict. *)
Definition summary_line (one_decimal : Z -> string)
    (results : gmap string result_entry) (keyword : string) : string :=
  match results !! keyword with
  | Some data =>
      "- '" +:+ keyword +:+ "': Saved to " +:+ entry_output_file data
      +:+ " (took " +:+ one_decimal (duration_microseconds data) +:+ " seconds)"
  | None => ""
  end.

(** The terminal after [main] has put its prompts and read as many
    answers. *)
Definition answered (prompts : list string) (rest : list string)
    (c : console) : console :=
  {| pending := rest; shown := shown c ++ prompts |}.
(** * Result-text extraction *)

Lemma extract_from_messages_last r ms m c :
  messages r = Return ms -> last ms = Some m -> content m = Return c ->
  extract_from_messages r = Return c.
Proof.
  intros Hms Hlast Hc. unfold extract_from_messages. rewrite Hms. simpl.
  destruct ms as [|m0 ms']; [discriminate|].
  unfold last_content. now rewrite Hlast.
Qed.

Lemma try_except_returns {A} (m : outcome A) (h : A) :
  exists a, try_except m h = Return a.
Proof. destruct m; simpl; eauto. Qed.

(** C1, as stated, fails: an object that exposes only a message list still
    has the [__str__] every object inherits, and the extraction returns
    [str(result)], not the content of the last message. *)
Lemma extraction_only_messages_counterexample :
  extract_text Samples.only_messages = Return "<AgentHistoryList object>"
  /\ ~ extraction_as_specified Samples.only_messages.
Proof.
  split; [reflexivity|].
  intros (_ & Hlast & _).
  specialize (Hlast _ {| content := Return "the findings" |} "the findings"
                eq_refl eq_refl eq_refl eq_refl).
  discriminate Hlast.
Qed.

(** C1, amended: the extraction returns [.text] when the object exposes
    it; the generic string conversion when it does not but has [__str__];
    and only when it has neither, the content of the last message of a
    non-empty message list, or the fallback string when the message list
    is missing or raises on access. *)
Theorem extraction_cases (r : agent_result) :
  (forall v, text r = Return v -> extract_text r = Return v)
  /\ (forall s,
        text r = Raise AttributeError -> dunder_str r = Return tt ->
        str r = Return s -> extract_text r = Return s)
  /\ (forall ms m c,
        text r = Raise AttributeError -> dunder_str r = Raise AttributeError ->
        messages r = Return ms -> last ms = Some m -> content m = Return c ->
        extract_text r = Return c)
  /\ (forall x,
        text r = Raise AttributeError -> dunder_str r = Raise AttributeError ->
        messages r = Raise x ->
        extract_text r = Return fallback_text).
Proof.
  unfold extract_text. split; [|split; [|split]].
  - intros v Hv. now rewrite Hv.
  - intros s Ht Hd Hs. now rewrite Ht, Hd.
  - intros ms m c Ht Hd Hms Hlast Hc. rewrite Ht, Hd. simpl.
    now rewrite (extract_from_messages_last r ms m c).
  - intros x Ht Hd Hx. rewrite Ht, Hd. simpl.
    unfold extract_from_messages. rewrite Hx. now destruct x.
Qed.

Lemma extraction_cases_witness :
  extract_text (Samples.with_text "found") = Return "found"
  /\ extract_text Samples.only_messages = Return "<AgentHistoryList object>"
  /\ extract_text Samples.bare_messages = Return "the findings"
  /\ extract_text Samples.opaque = Return fallback_text.
Proof.
  split; [|split; [|split]].
  - apply (proj1 (extraction_cases (Samples.with_text "found"))). reflexivity.
  - apply (proj1 (proj2 (extraction_cases Samples.only_messages)));
      reflexivity.
  - apply (proj1 (proj2 (proj2 (extraction_cases Samples.bare_messages)))
             [ {| content := Return "first" |};
               {| content := Return "the findings" |} ]
             {| content := Return "the findings" |}); reflexivity.
  - apply (proj2 (proj2 (proj2 (extraction_cases Samples.opaque)))
             (OtherError "RuntimeError")); reflexivity.
Defined.

(** C2, as stated, fails: an error raised by the lookup of [text] leaves
    the extraction as it is, no handler being in place there. *)
Lemma extraction_raises_counterexample :
  extract_text Samples.broken_text = Raise (OtherError "RuntimeError")
  /\ ~ (forall r, exists s, extract_text r = Return s).
Proof.
  split; [reflexivity|].
  intros H. destruct (H Samples.broken_text) as [s Hs]. discriminate Hs.
Qed.

(** C2, amended: only the probing of the message list is guarded.  Once
    the object has neither [text] nor [__str__] the extraction returns,
    with the fallback string whenever that probing raises; the extraction
    raises exactly on the failures that come before the guard. *)
Theorem extraction_guard (r : agent_result) :
  (text r = Raise AttributeError -> dunder_str r = Raise AttributeError ->
   (exists s, extract_text r = Return s)
   /\ (raises (extract_from_messages r) -> extract_text r = Return fallback_text))
  /\ (forall x, extract_text r = Raise x <-> unguarded_failure r x).
Proof.
  split.
  - intros Ht Hd. unfold extract_text. rewrite Ht, Hd. simpl. split.
    + apply try_except_returns.
    + destruct (extract_from_messages r); simpl; [tauto|intros _; reflexivity].
  - intros x. unfold extract_text, unguarded_failure.
    destruct (text r) as [v|[|n]] eqn:Ht; simpl;
      [intuition congruence| |intuition congruence].
    destruct (dunder_str r) as [[]|[|n]] eqn:Hd; simpl;
      [intuition congruence| |intuition congruence].
    destruct (extract_from_messages r); simpl; intuition congruence.
Qed.

Lemma extraction_guard_witness :
  (exists s, extract_text Samples.opaque = Return s)
  /\ extract_text Samples.opaque = Return fallback_text.
Proof.
  destruct (proj1 (extraction_guard Samples.opaque) eq_refl eq_refl) as [H1 H2].
  split; [exact H1|]. apply H2. exact I.
Defined.

(** * Options and task description *)

(** C3, as stated, fails: the resolver copies the caller's depth into the
    options as it is. *)
Lemma resolver_depth_counterexample :
  depth (resolve_options (Some Samples.deep_options)) = 7
  /\ ~ (forall opts, 1 <= depth (resolve_options opts) <= 3).
Proof.
  split; [reflexivity|].
  intros H. specialize (H (Some Samples.deep_options)). simpl in H. lia.
Qed.

(** C3, amended: the resolver gives every option the caller's value or,
    failing that, the documented default, the depth included and
    unclamped; the clamped depth is the separate value [depth_level],
    which always lies in 1..3 and is the depth itself when that already
    does. *)
Theorem resolver_populates_and_level_is_clamped (opts : option partial_options) :
  let o := resolve_options opts in
  let given := default no_options opts in
  depth o = default 2 (p_depth given)
  /\ output_format o = default "markdown" (p_output_format given)
  /\ output_dir o = default "." (p_output_dir given)
  /\ max_results o = default 10 (p_max_results given)
  /\ focus_areas o = default [] (p_focus_areas given)
  /\ language o = default "english" (p_language given)
  /\ blog_style o = default false (p_blog_style given)
  /\ 1 <= depth_level o <= 3
  /\ depth_level o
     = (if depth o <? 1 then 1 else if 3 <? depth o then 3 else depth o).
Proof.
  cbv zeta. repeat (split; [reflexivity|]).
  unfold depth_level. split; [lia|].
  destruct (Z.ltb_spec (depth (resolve_options opts)) 1);
    destruct (Z.ltb_spec 3 (depth (resolve_options opts))); lia.
Qed.

Lemma depth_desc_lookup (o : options) :
  depth_desc !! depth_level o
  = Some (if depth o <? 2 then "briefly"
          else if depth o <? 3 then "thoroughly" else "exhaustively").
Proof.
  unfold depth_level.
  destruct (Z.ltb_spec (depth o) 2) as [H2|H2].
  - replace (Z.min (Z.max (depth o) 1) 3) with 1 by lia. reflexivity.
  - destruct (Z.ltb_spec (depth o) 3) as [H3|H3].
    + replace (Z.min (Z.max (depth o) 1) 3) with 2 by lia. reflexivity.
    + replace (Z.min (Z.max (depth o) 1) 3) with 3 by lia. reflexivity.
Qed.

(** The lookup in [depth_desc] cannot fail: the task is always built. *)
Lemma build_task_returns (kw : string) (o : options) :
  exists task, build_task kw o = Return task.
Proof.
  unfold build_task, subscript. rewrite depth_desc_lookup. simpl. eauto.
Qed.

(** The instruction of the multi-keyword variant opens with the adverb of
    the clamped depth. *)
Lemma build_task_opens (kw : string) (o : options) :
  exists adv task,
    adverb_of_depth (depth_level o) = Some adv
    /\ build_task kw o = Return task /\ opens_with adv kw task.
Proof.
  exists (if depth o <? 2 then "briefly"
          else if depth o <? 3 then "thoroughly" else "exhaustively").
  eexists. split; [|split].
  - unfold depth_level.
    destruct (Z.ltb_spec (depth o) 2) as [H2|H2].
    + replace (Z.min (Z.max (depth o) 1) 3) with 1 by lia. reflexivity.
    + destruct (Z.ltb_spec (depth o) 3) as [H3|H3].
      * replace (Z.min (Z.max (depth o) 1) 3) with 2 by lia. reflexivity.
      * replace (Z.min (Z.max (depth o) 1) 3) with 3 by lia. reflexivity.
  - unfold build_task, subscript. rewrite depth_desc_lookup. reflexivity.
  - eexists. reflexivity.
Qed.

(** C4, as stated, fails: at depth 3 the single-keyword variant says
    "thoroughly". *)
Lemma adverb_counterexample :
  opens_with "thoroughly" "k" (simple_build_task "k" 3)
  /\ ~ adverb_as_specified "k" 3.
Proof.
  split.
  - eexists. reflexivity.
  - intros H. destruct (H "exhaustively" eq_refl) as [_ [tail Ht]].
    vm_compute in Ht. discriminate Ht.
Qed.

(** C4, amended: the multi-keyword variant puts in "briefly",
    "thoroughly", "exhaustively" for the depths 1, 2, 3 (the clamp sending
    every other depth to 1 or 3); the single-keyword variant knows two
    adverbs only, "briefly" below depth 2 and "thoroughly" from 2 on. *)
Theorem adverb_of_each_variant (kw : string) :
  (forall o, exists adv task,
      adverb_of_depth (depth_level o) = Some adv
      /\ build_task kw o = Return task /\ opens_with adv kw task)
  /\ (forall d,
        opens_with (if d <? 2 then "briefly" else "thoroughly") kw
          (simple_build_task kw d)).
Proof.
  split.
  - intros o. apply build_task_opens.
  - intros d. unfold simple_build_task, simple_depth_desc.
    rewrite Z.leb_antisym. destruct (d <? 2); eexists; reflexivity.
Qed.

(** * Runs *)

Lemma append_assoc (a b c : string) : (a +:+ b) +:+ c = a +:+ (b +:+ c).
Proof. induction a as [|x a IH]; simpl; [reflexivity|]. now rewrite IH. Qed.

Lemma append_nil_r (a : string) : a +:+ "" = a.
Proof. induction a as [|x a IH]; simpl; [reflexivity|]. now rewrite IH. Qed.

Lemma length_append (a b : string) :
  String.length (a +:+ b) = (String.length a + String.length b)%nat.
Proof. induction a as [|x a IH]; simpl; [reflexivity|]. now rewrite IH. Qed.

Lemma task_of_built (kw : string) (o : options) :
  build_task kw o = Return (task_of kw o).
Proof.
  unfold task_of. destruct (build_task_returns kw o) as [t Ht]. now rewrite Ht.
Qed.

Section Frame.

Context {B : Type} (f : world -> B).

Lemma keeps_ret {A} (a : A) : keeps f (ret a).
Proof. intros w. reflexivity. Qed.

Lemma keeps_lift {A} (m : outcome A) : keeps f (lift m).
Proof. intros w. reflexivity. Qed.

Lemma keeps_seq {A C} (m : M A) (k : A -> M C) :
  keeps f m -> (forall a, keeps f (k a)) -> keeps f (seq m k).
Proof.
  intros Hm Hk w. unfold seq. specialize (Hm w).
  destruct (m w) as [[a|x] w'] eqn:E; simpl in *.
  - now rewrite Hk.
  - exact Hm.
Qed.

End Frame.

(** A step keeps every field of the world it does not write. *)
Ltac primitive_keeps :=
  let w := fresh "w" in
  intros w;
  unfold datetime_now, run_agent, invoke_llm, print, os_makedirs, file_open,
    file_write;
  repeat case_match; reflexivity.

Ltac frame :=
  repeat first
    [ apply keeps_ret
    | apply keeps_lift
    | apply keeps_seq; [|intros ?]
    | primitive_keeps
    | progress unfold transform, write_json, write_text
    | case_match ].

Lemma transform_keeps_tasks e margin blog lang t :
  keeps agent_tasks (transform e margin blog lang t).
Proof. frame. Qed.

Lemma write_json_keeps_tasks e p kw t o d :
  keeps agent_tasks (write_json e p kw t o d).
Proof. frame. Qed.

Lemma write_text_keeps_tasks e p kw t o :
  keeps agent_tasks (write_text e p kw t o).
Proof. frame. Qed.

Lemma write_json_keeps_prompts e p kw t o d :
  keeps llm_prompts (write_json e p kw t o d).
Proof. frame. Qed.

Lemma write_text_keeps_prompts e p kw t o :
  keeps llm_prompts (write_text e p kw t o).
Proof. frame. Qed.

Ltac world_fields :=
  cbn [clock_reads agent_tasks llm_prompts stdout directories files fst snd].

Lemma write_json_run e p kw t o d w :
  open_for_writing e p = Return tt ->
  write_json e p kw t o d w
  = (Return tt,
     {| clock_reads := S (clock_reads w); agent_tasks := agent_tasks w;
        llm_prompts := llm_prompts w; stdout := stdout w;
        directories := directories w;
        files :=
          <[ p := Json.dumps
                    (json_data kw (Datetime.isoformat (now e (clock_reads w))) t o d) ]>
            (files w) |}).
Proof.
  intros Ho. unfold write_json, seq, file_open, datetime_now, file_write.
  rewrite Ho. world_fields.
  now rewrite lookup_insert_eq, insert_insert_eq.
Qed.

Lemma write_text_run e p kw t o w :
  open_for_writing e p = Return tt ->
  write_text e p kw t o w
  = (Return tt,
     {| clock_reads := (if blog_style o then 0 else 1) + clock_reads w;
        agent_tasks := agent_tasks w;
        llm_prompts := llm_prompts w; stdout := stdout w;
        directories := directories w;
        files := <[ p := header_text o kw (now e (clock_reads w)) +:+ t ]> (files w) |}).
Proof.
  intros Ho. unfold write_text, header_text, seq, file_open, datetime_now, file_write, ret.
  rewrite Ho.
  destruct (output_format o =? "markdown")%string, (blog_style o),
    (focus_areas o); cbn [negb]; world_fields;
    repeat (rewrite lookup_insert_eq, insert_insert_eq; cbn [default id]);
    rewrite ?append_assoc; reflexivity.
Qed.

Lemma save_result_run e o kw w r t d :
  let path :=
    path_join (output_dir o)
      (file_name kw (now e (clock_reads w)) (extension (output_format o))) in
  let text :=
    if wants_transform (blog_style o) (language o)
    then llm_content e (length (llm_prompts w))
           (blog_prompt margin16 (PyStr.lower (language o)) t)
    else t in
  extract_text r = Return t ->
  (wants_transform (blog_style o) (language o) = true ->
   exists c, llm_invoke e (length (llm_prompts w))
               (blog_prompt margin16 (PyStr.lower (language o)) t) = Return c) ->
  makedirs e (output_dir o) = Return tt ->
  open_for_writing e path = Return tt ->
  save_result e o kw r d w
  = (Return {| entry_output_file := path; duration_microseconds := d |},
     {| clock_reads :=
          (if String.eqb (output_format o) "json" || negb (blog_style o)
           then 2 else 1) + clock_reads w;
        agent_tasks := agent_tasks w;
        llm_prompts :=
          if wants_transform (blog_style o) (language o)
          then llm_prompts w
               ++ [blog_prompt margin16 (PyStr.lower (language o)) t]
          else llm_prompts w;
        stdout :=
          stdout w
          ++ (if wants_transform (blog_style o) (language o)
              then ["Transforming results to " +:+ language o +:+ " blog-style article..."]
              else [])
          ++ ["Summary for '" +:+ kw +:+ "' saved to: " +:+ path];
        directories := {[ output_dir o ]} ∪ directories w;
        files :=
          <[ path :=
               if String.eqb (output_format o) "json"
               then Json.dumps
                      (json_data kw (Datetime.isoformat (now e (S (clock_reads w))))
                         text o d)
               else header_text o kw (now e (S (clock_reads w))) +:+ text ]>
            (files w) |}).
Proof.
  cbv zeta. intros Ht Hllm Hmk Hop. unfold save_result, llm_content.
  rewrite Ht. unfold seq at 1, lift at 1.
  unfold transform.
  destruct (wants_transform (blog_style o) (language o)).
  - destruct (Hllm eq_refl) as [c Hc].
    unfold seq at 1. unfold seq at 1. unfold print at 1, invoke_llm at 1.
    world_fields. rewrite Hc.
    unfold seq at 1, os_makedirs at 1. rewrite Hmk.
    unfold seq at 1, datetime_now at 1. world_fields.
    destruct (output_format o =? "json")%string.
    + unfold seq at 1. rewrite write_json_run by exact Hop.
      unfold seq, print, ret. world_fields. rewrite <- ?app_assoc. reflexivity.
    + unfold seq at 1. rewrite write_text_run by exact Hop.
      unfold seq, print, ret. world_fields. rewrite <- ?app_assoc.
      destruct (blog_style o); reflexivity.
  - unfold seq at 1, ret at 1.
    unfold seq at 1, os_makedirs at 1. rewrite Hmk.
    unfold seq at 1, datetime_now at 1. world_fields.
    destruct (output_format o =? "json")%string.
    + unfold seq at 1. rewrite write_json_run by exact Hop.
      unfold seq, print, ret. world_fields. reflexivity.
    + unfold seq at 1. rewrite write_text_run by exact Hop.
      unfold seq, print, ret. world_fields.
      destruct (blog_style o); reflexivity.
Qed.

(** The run of one keyword when the collaborators it calls answer. *)
Lemma process_keyword_run_with e o kw w r t :
  agent_run e (length (agent_tasks w)) (task_of kw o) = Return r ->
  extract_text r = Return t ->
  (wants_transform (blog_style o) (language o) = true ->
   exists c, llm_invoke e (length (llm_prompts w))
               (blog_prompt margin16 (PyStr.lower (language o)) t) = Return c) ->
  makedirs e (output_dir o) = Return tt ->
  open_for_writing e (output_path e o kw w) = Return tt ->
  extracted e o kw w = t
  /\ process_keyword e o kw w
     = (Return (entry_after e o kw w), world_after e o kw w).
Proof.
  intros Hr Ht Hllm Hmk Hop.
  assert (Hx : extracted e o kw w = t).
  { unfold extracted, extracted_text. now rewrite Hr, Ht. }
  split; [exact Hx|].
  unfold process_keyword. rewrite task_of_built.
  unfold entry_after, world_after, file_text, record_written, header, working_text,
    duration, output_path, is_json, prompt in *.
  rewrite Hx. clear Hx.
  unfold seq at 1, lift at 1. unfold seq at 1, print at 1.
  unfold seq at 1, print at 1. unfold seq at 1, datetime_now at 1.
  unfold seq at 1, run_agent at 1. world_fields. rewrite Hr.
  unfold seq at 1, datetime_now at 1. world_fields.
  rewrite save_result_run with (t := t);
    [|exact Ht|exact Hllm|exact Hmk|exact Hop]. world_fields.
  rewrite <- ?app_assoc.
  destruct (wants_transform (blog_style o) (language o));
    destruct ((output_format o =? "json")%string || negb (blog_style o)); reflexivity.
Qed.

Lemma process_keyword_run e o kw w :
  cooperative e ->
  process_keyword e o kw w = (Return (entry_after e o kw w), world_after e o kw w).
Proof.
  intros He.
  destruct (agent_returns e He (length (agent_tasks w)) (task_of kw o))
    as (r & t & Hr & Ht).
  apply (process_keyword_run_with e o kw w r t Hr Ht).
  - intros _. apply (llm_returns e He).
  - apply (makedirs_succeeds e He).
  - apply (open_succeeds e He).
Qed.

Lemma save_result_keeps_tasks e o kw r d :
  keeps agent_tasks (save_result e o kw r d).
Proof. unfold save_result. frame. Qed.

Lemma process_keyword_tasks e o kw w :
  agent_tasks (process_keyword e o kw w).2 = agent_tasks w ++ [task_of kw o].
Proof.
  unfold process_keyword. rewrite task_of_built.
  unfold seq at 1, lift at 1. unfold seq at 1, print at 1.
  unfold seq at 1, print at 1. unfold seq at 1, datetime_now at 1.
  unfold seq at 1, run_agent at 1. world_fields.
  destruct (agent_run e (length (agent_tasks w)) (task_of kw o)) as [r|x];
    [|reflexivity].
  unfold seq at 1, datetime_now at 1. world_fields.
  now rewrite save_result_keeps_tasks.
Qed.

(** C9: the instruction string is a function of the keyword and the
    options alone.  In two runs, whatever the environments and the states
    they start from, the agent is handed the same string, the one
    [build_task] computes; and building it changes nothing in the state
    of the run. *)
Theorem task_depends_on_inputs_only
    (e1 e2 : env) (w1 w2 : world) (o : options) (kw : string) :
  exists task,
    build_task kw o = Return task
    /\ agent_tasks (process_keyword e1 o kw w1).2 = agent_tasks w1 ++ [task]
    /\ agent_tasks (process_keyword e2 o kw w2).2 = agent_tasks w2 ++ [task]
    /\ (lift (build_task kw o) w1).2 = w1
    /\ (lift (build_task kw o) w2).2 = w2.
Proof.
  exists (task_of kw o). split; [apply task_of_built|].
  split; [apply process_keyword_tasks|].
  split; [apply process_keyword_tasks|].
  split; reflexivity.
Qed.

(** * File names *)

Lemma replace_map (old new : ascii) (s : string) :
  PyStr.replace old new s
  = map_chars (fun c => if Ascii.eqb c old then new else c) s.
Proof. induction s as [|c s IH]; simpl; [reflexivity|]. now rewrite IH. Qed.

Lemma map_chars_compose (f g : ascii -> ascii) (s : string) :
  map_chars g (map_chars f s) = map_chars (fun c => g (f c)) s.
Proof. induction s as [|c s IH]; simpl; [reflexivity|]. now rewrite IH. Qed.

Lemma map_chars_ext (f g : ascii -> ascii) (s : string) :
  (forall c, f c = g c) -> map_chars f s = map_chars g s.
Proof.
  intros H. induction s as [|c s IH]; simpl; [reflexivity|]. now rewrite H, IH.
Qed.

Lemma length_map_chars (f : ascii -> ascii) (s : string) :
  String.length (map_chars f s) = String.length s.
Proof. induction s as [|c s IH]; simpl; [reflexivity|]. now rewrite IH. Qed.

(** The three chained [replace] calls amount to one pass that turns each
    separator into an underscore. *)
Lemma safe_keyword_underscored (kw : string) : safe_keyword kw = underscored kw.
Proof.
  unfold safe_keyword, underscored. rewrite !replace_map, !map_chars_compose.
  apply map_chars_ext. intros c. unfold is_separator.
  destruct (Ascii.eqb_spec c " ") as [->|H1]; [reflexivity|].
  destruct (Ascii.eqb_spec c "/") as [->|H2]; [reflexivity|].
  destruct (Ascii.eqb_spec c "\") as [->|H3]; reflexivity.
Qed.

Lemma length_fixed_digits (n : nat) (z : Z) :
  String.length (PyStr.fixed_digits n z) = n.
Proof.
  revert z. induction n as [|n IH]; intros z; simpl; [reflexivity|].
  rewrite length_append, IH. simpl. lia.
Qed.

Lemma length_zero_padded (n : nat) (z : Z) :
  z < 10 ^ Z.of_nat n -> String.length (PyStr.zero_padded n z) = n.
Proof.
  intros H. unfold PyStr.zero_padded.
  destruct (Z.ltb_spec z (10 ^ Z.of_nat n)); [apply length_fixed_digits|lia].
Qed.

Lemma all_chars_append (p : ascii -> bool) (a b : string) :
  PyStr.all_chars p (a +:+ b) = PyStr.all_chars p a && PyStr.all_chars p b.
Proof.
  induction a as [|c a IH]; simpl; [reflexivity|].
  now rewrite IH, andb_assoc.
Qed.

Lemma is_digit_digit_char (z : Z) : PyStr.is_digit (PyStr.digit_char z) = true.
Proof.
  unfold PyStr.is_digit, PyStr.digit_char.
  assert (H : 0 <= z mod 10 < 10) by (apply Z.mod_pos_bound; lia).
  rewrite N_ascii_embedding by lia.
  apply andb_true_intro. split; apply N.leb_le; lia.
Qed.

Lemma digits_fixed_digits (n : nat) (z : Z) :
  PyStr.all_chars PyStr.is_digit (PyStr.fixed_digits n z) = true.
Proof.
  revert z. induction n as [|n IH]; intros z; simpl; [reflexivity|].
  rewrite all_chars_append, IH. simpl. now rewrite is_digit_digit_char.
Qed.

Lemma digits_zero_padded (n : nat) (z : Z) :
  z < 10 ^ Z.of_nat n ->
  PyStr.all_chars PyStr.is_digit (PyStr.zero_padded n z) = true.
Proof.
  intros H. unfold PyStr.zero_padded.
  destruct (Z.ltb_spec z (10 ^ Z.of_nat n)); [apply digits_fixed_digits|lia].
Qed.

(** The fields of a valid date fit the widths they are printed on. *)
Lemma valid_fields (d : datetime) :
  Datetime.valid d = true ->
  year d < 10 ^ Z.of_nat 4 /\ month d < 10 ^ Z.of_nat 2
  /\ day d < 10 ^ Z.of_nat 2 /\ hour d < 10 ^ Z.of_nat 2
  /\ minute d < 10 ^ Z.of_nat 2 /\ second d < 10 ^ Z.of_nat 2.
Proof.
  unfold Datetime.valid. rewrite !andb_true_iff.
  rewrite !Z.leb_le, !Z.ltb_lt. intros H.
  assert (Hdays : Datetime.days_in_month (year d) (month d) <= 31).
  { unfold Datetime.days_in_month. repeat case_match; lia. }
  change (10 ^ Z.of_nat 4) with 10000. change (10 ^ Z.of_nat 2) with 100. lia.
Qed.

Lemma strftime_compact_token (d : datetime) :
  Datetime.valid d = true ->
  timestamp_token (Datetime.strftime_compact d)
  /\ String.length (Datetime.strftime_compact d) = 15%nat.
Proof.
  intros Hv. destruct (valid_fields d Hv) as (Hy & Hm & Hd & Hh & Hmi & Hs).
  unfold Datetime.strftime_compact. split.
  - exists (PyStr.zero_padded 4 (year d) +:+ PyStr.zero_padded 2 (month d)
            +:+ PyStr.zero_padded 2 (day d)),
           (PyStr.zero_padded 2 (hour d) +:+ PyStr.zero_padded 2 (minute d)
            +:+ PyStr.zero_padded 2 (second d)).
    rewrite !append_assoc, !length_append, !all_chars_append.
    rewrite !length_zero_padded, !digits_zero_padded by assumption. auto.
  - rewrite !length_append, !length_zero_padded by assumption. reflexivity.
Qed.

Lemma decimal_from_append (acc : Z) (a b : string) :
  decimal_from acc (a +:+ b) = decimal_from (decimal_from acc a) b.
Proof. revert acc. induction a as [|c a IH]; intros acc; [reflexivity|apply IH]. Qed.

Lemma digit_char_value (z : Z) :
  Z.of_N (N_of_ascii (PyStr.digit_char z)) - 48 = z mod 10.
Proof.
  unfold PyStr.digit_char.
  assert (H : 0 <= z mod 10 < 10) by (apply Z.mod_pos_bound; lia).
  rewrite N_ascii_embedding by lia. lia.
Qed.

Lemma decimal_fixed_digits (n : nat) (z acc : Z) :
  decimal_from acc (PyStr.fixed_digits n z)
  = acc * 10 ^ Z.of_nat n + z mod 10 ^ Z.of_nat n.
Proof.
  revert z acc. induction n as [|n IH]; intros z acc.
  - cbn [PyStr.fixed_digits decimal_from]. change (10 ^ Z.of_nat 0) with 1.
    rewrite Z.mod_1_r. lia.
  - cbn [PyStr.fixed_digits]. rewrite decimal_from_append, IH.
    cbn [decimal_from]. rewrite digit_char_value.
    rewrite Nat2Z.inj_succ, Z.pow_succ_r by lia.
    assert (Hp : 0 < 10 ^ Z.of_nat n) by (apply Z.pow_pos_nonneg; lia).
    rewrite (Z.rem_mul_r z 10 (10 ^ Z.of_nat n)) by lia. lia.
Qed.

Lemma decimal_zero_padded (n : nat) (z acc : Z) :
  0 <= z < 10 ^ Z.of_nat n ->
  decimal_from acc (PyStr.zero_padded n z) = acc * 10 ^ Z.of_nat n + z.
Proof.
  intros H. unfold PyStr.zero_padded.
  destruct (Z.ltb_spec z (10 ^ Z.of_nat n)); [|lia].
  rewrite decimal_fixed_digits, Z.mod_small by lia. reflexivity.
Qed.

(** The fields of a valid date are not negative. *)
Lemma valid_fields_lower (d : datetime) :
  Datetime.valid d = true ->
  0 <= year d /\ 0 <= month d /\ 0 <= day d /\ 0 <= hour d
  /\ 0 <= minute d /\ 0 <= second d.
Proof.
  unfold Datetime.valid. rewrite !andb_true_iff.
  rewrite !Z.leb_le, !Z.ltb_lt. lia.
Qed.

(** The token printed for a valid date writes the fields of that date. *)
Lemma strftime_compact_token_of (d : datetime) :
  Datetime.valid d = true -> token_of d (Datetime.strftime_compact d).
Proof.
  intros Hv. destruct (valid_fields d Hv) as (Hy & Hm & Hd & Hh & Hmi & Hs).
  destruct (valid_fields_lower d Hv) as (Ly & Lm & Ld & Lh & Lmi & Ls).
  unfold Datetime.strftime_compact.
  exists (PyStr.zero_padded 4 (year d) +:+ PyStr.zero_padded 2 (month d)
          +:+ PyStr.zero_padded 2 (day d)),
         (PyStr.zero_padded 2 (hour d) +:+ PyStr.zero_padded 2 (minute d)
          +:+ PyStr.zero_padded 2 (second d)).
  split; [now rewrite !append_assoc|].
  rewrite !length_append, !all_chars_append.
  rewrite !length_zero_padded, !digits_zero_padded by assumption.
  split; [reflexivity|]. split; [reflexivity|].
  split; [reflexivity|]. split; [reflexivity|].
  unfold decimal_value. rewrite !decimal_from_append.
  rewrite !decimal_zero_padded by lia.
  change (10 ^ Z.of_nat 4) with 10000. change (10 ^ Z.of_nat 2) with 100.
  split; lia.
Qed.

(** ** The single-keyword variant *)

Lemma simple_save_result_run e kw out lang blog r t w :
  let path := simple_output_path e kw out w in
  let derived := match out with Some (String _ _) => 0%nat | _ => 1%nat end in
  let text :=
    if wants_transform blog lang
    then llm_content e (length (llm_prompts w))
           (blog_prompt margin12 (PyStr.lower lang) t)
    else t in
  extract_text r = Return t ->
  (wants_transform blog lang = true ->
   exists c, llm_invoke e (length (llm_prompts w))
               (blog_prompt margin12 (PyStr.lower lang) t) = Return c) ->
  open_for_writing e path = Return tt ->
  exists w',
    simple_save_result e kw out lang blog r w = (Return path, w')
    /\ files w'
       = <[ path := simple_header kw blog (now e (derived + clock_reads w)) +:+ text ]>
           (files w)
    /\ llm_prompts w'
       = (if wants_transform blog lang
          then llm_prompts w ++ [blog_prompt margin12 (PyStr.lower lang) t]
          else llm_prompts w)
    /\ agent_tasks w' = agent_tasks w.
Proof.
  cbv zeta. intros Ht Hllm Hop. unfold simple_save_result, llm_content, simple_header.
  rewrite Ht. unfold seq at 1, lift at 1. unfold transform.
  unfold simple_output_path in *.
  destruct (wants_transform blog lang).
  - destruct (Hllm eq_refl) as [c Hc].
    unfold seq at 1. unfold seq at 1. unfold print at 1, invoke_llm at 1.
    world_fields. rewrite Hc.
    destruct out as [[|c0 f]|]; unfold seq, ret, datetime_now, file_open,
      file_write, print; world_fields; rewrite Hop; destruct blog; cbn [negb];
      world_fields; eexists; (split; [reflexivity|]); world_fields;
      repeat (rewrite lookup_insert_eq, insert_insert_eq; cbn [default id]);
      rewrite ?append_assoc; auto.
  - unfold seq at 1, ret at 1.
    destruct out as [[|c0 f]|]; unfold seq, ret, datetime_now, file_open,
      file_write, print; world_fields; rewrite Hop; destruct blog; cbn [negb];
      world_fields; eexists; (split; [reflexivity|]); world_fields;
      repeat (rewrite lookup_insert_eq, insert_insert_eq; cbn [default id]);
      rewrite ?append_assoc; auto.
Qed.

Lemma simple_run_with e kw depth out lang blog w r t :
  let path := simple_output_path e kw out w in
  let derived := match out with Some (String _ _) => 0%nat | _ => 1%nat end in
  let task := simple_build_task kw depth in
  agent_run e (length (agent_tasks w)) task = Return r ->
  extract_text r = Return t ->
  (wants_transform blog lang = true ->
   exists c, llm_invoke e (length (llm_prompts w))
               (blog_prompt margin12 (PyStr.lower lang) t) = Return c) ->
  open_for_writing e path = Return tt ->
  exists w',
    simple_search_and_summarize e kw depth out lang blog w = (Return path, w')
    /\ files w'
       = <[ path := simple_header kw blog (now e (derived + clock_reads w))
                    +:+ simple_working_text e kw depth lang blog w ]>
           (files w)
    /\ llm_prompts w'
       = (if wants_transform blog lang
          then llm_prompts w ++ [blog_prompt margin12 (PyStr.lower lang) t]
          else llm_prompts w)
    /\ agent_tasks w' = agent_tasks w ++ [task].
Proof.
  cbv zeta. intros Hr Ht Hllm Hop.
  unfold simple_search_and_summarize, simple_working_text, extracted_text.
  rewrite Hr, Ht.
  unfold seq at 1, print at 1. unfold seq at 1, print at 1.
  unfold seq at 1, run_agent at 1. world_fields. rewrite Hr.
  match goal with
  | |- context [simple_save_result _ _ _ _ _ _ ?w1] =>
      destruct (simple_save_result_run e kw out lang blog r t w1 Ht Hllm Hop)
        as (w' & Hrun & Hf & Hp & Ha)
  end.
  rewrite Hrun. exists w'. split; [reflexivity|]. split; [exact Hf|].
  split; [exact Hp|exact Ha].
Qed.

Lemma quiet_env_cooperative : cooperative Samples.quiet_env.
Proof.
  split; simpl; intros.
  - eexists _, _. split; reflexivity.
  - eexists. reflexivity.
  - reflexivity.
  - reflexivity.
Qed.

Lemma autumn_env_cooperative : cooperative Samples.autumn_env.
Proof.
  split; simpl; intros.
  - eexists _, _. split; reflexivity.
  - eexists. reflexivity.
  - reflexivity.
  - reflexivity.
Qed.

Lemma quiet_env_valid_clock : valid_clock Samples.quiet_env.
Proof.
  intros n. unfold Datetime.valid. simpl.
  rewrite !andb_true_iff. repeat split; try reflexivity.
  - apply Z.leb_le. lia.
  - apply Z.ltb_lt. lia.
Qed.

Lemma quiet_env_monotone_clock : monotone_clock Samples.quiet_env.
Proof.
  intros n. unfold Datetime.to_microseconds, Datetime.to_ordinal. simpl. lia.
Qed.

Lemma extension_cases (fmt : string) :
  (fmt = "markdown" -> extension fmt = "md")
  /\ (fmt = "json" -> extension fmt = "json")
  /\ (fmt <> "markdown" -> fmt <> "json" -> extension fmt = "txt").
Proof.
  unfold extension. split; [|split].
  - intros ->. reflexivity.
  - intros ->. reflexivity.
  - intros Hm Hj. apply String.eqb_neq in Hm, Hj. now rewrite Hj, Hm.
Qed.

(** C6: the derived file name is the keyword with each space, slash and
    backslash turned into an underscore, then an underscore, a token
    [YYYYMMDD_HHMMSS] of 15 characters, a dot and the extension of the
    format: md for markdown, json for json, txt for txt, text and every
    other format.  The token is that of a reading of the clock: its
    eight digits write the year, the month and the day of the reading,
    its six digits the hour, the minute and the second.  The
    multi-keyword variant stamps the name with the third reading of the
    run of the keyword, taken once the directory exists, and puts the
    file in the output directory; the single-keyword variant, which
    writes markdown only, stamps it with its first reading, and uses the
    name when it is given no file name. *)
Theorem derived_file_name (e : env) (kw : string) :
  cooperative e -> valid_clock e ->
  (forall o w, exists ts entry w',
      process_keyword e o kw w = (Return entry, w')
      /\ entry_output_file entry
         = path_join (output_dir o)
             (underscored kw +:+ "_" +:+ ts +:+ "." +:+ extension (output_format o))
      /\ token_of (now e (2 + clock_reads w)) ts
      /\ timestamp_token ts /\ String.length ts = 15%nat)
  /\ (forall depth out lang blog w,
        out = None \/ out = Some "" ->
        exists ts w',
          simple_search_and_summarize e kw depth out lang blog w
          = (Return (underscored kw +:+ "_" +:+ ts +:+ ".md"), w')
          /\ token_of (now e (clock_reads w)) ts
          /\ timestamp_token ts /\ String.length ts = 15%nat)
  /\ String.length (underscored kw) = String.length kw
  /\ (forall fmt,
        (fmt = "markdown" -> extension fmt = "md")
        /\ (fmt = "json" -> extension fmt = "json")
        /\ (fmt <> "markdown" -> fmt <> "json" -> extension fmt = "txt"))
  /\ extension "txt" = "txt" /\ extension "text" = "txt".
Proof.
  intros He Hclock. split; [|split; [|split]].
  - intros o w.
    exists (Datetime.strftime_compact (now e (S (S (clock_reads w))))),
           (entry_after e o kw w), (world_after e o kw w).
    split; [now apply process_keyword_run|].
    split; [|split; [apply strftime_compact_token_of, Hclock
                    |apply strftime_compact_token, Hclock]].
    simpl. unfold output_path, file_name. now rewrite safe_keyword_underscored.
  - intros depth out lang blog w Hout.
    destruct (agent_returns e He (length (agent_tasks w)) (simple_build_task kw depth))
      as (r & t & Hr & Ht).
    destruct (simple_run_with e kw depth out lang blog w r t Hr Ht)
      as (w' & Hrun & _).
    { intros _. apply (llm_returns e He). }
    { apply (open_succeeds e He). }
    exists (Datetime.strftime_compact (now e (clock_reads w))), w'.
    split; [|split; [apply strftime_compact_token_of, Hclock
                    |apply strftime_compact_token, Hclock]].
    rewrite Hrun. f_equal. f_equal.
    unfold simple_output_path, file_name. rewrite safe_keyword_underscored.
    destruct Hout as [-> | ->]; reflexivity.
  - apply length_map_chars.
  - split; [apply extension_cases|]. split; reflexivity.
Qed.

Lemma derived_file_name_witness :
  cooperative Samples.quiet_env /\ valid_clock Samples.quiet_env
  /\ exists ts entry w',
       process_keyword Samples.quiet_env Samples.plain_text "deep learning/AI"
         initial_world = (Return entry, w')
       /\ entry_output_file entry
          = path_join "out"
              (underscored "deep learning/AI" +:+ "_" +:+ ts +:+ "." +:+ "txt")
       /\ token_of (now Samples.quiet_env (2 + clock_reads initial_world)) ts
       /\ timestamp_token ts /\ String.length ts = 15%nat.
Proof.
  split; [exact quiet_env_cooperative|split; [exact quiet_env_valid_clock|]].
  exact (proj1 (derived_file_name Samples.quiet_env "deep learning/AI"
                  quiet_env_cooperative quiet_env_valid_clock)
           Samples.plain_text initial_world).
Defined.

(** * The optional transformation *)

Lemma transform_prompts e margin blog lang t w :
  llm_prompts (transform e margin blog lang t w).2
  = (if wants_transform blog lang
     then llm_prompts w ++ [blog_prompt margin (PyStr.lower lang) t]
     else llm_prompts w).
Proof.
  unfold transform. destruct (wants_transform blog lang); [|reflexivity].
  unfold seq, print, invoke_llm. world_fields.
  now destruct (llm_invoke e (length (llm_prompts w))
                  (blog_prompt margin (PyStr.lower lang) t)).
Qed.

Lemma save_result_prompts e o kw r t d w :
  extract_text r = Return t ->
  llm_prompts (save_result e o kw r d w).2
  = (if wants_transform (blog_style o) (language o)
     then llm_prompts w ++ [blog_prompt margin16 (PyStr.lower (language o)) t]
     else llm_prompts w).
Proof.
  intros Ht. unfold save_result. rewrite Ht. unfold seq at 1, lift at 1.
  rewrite <- (transform_prompts e). unfold seq at 1.
  destruct (transform e margin16 (blog_style o) (language o) t w) as [[c|x] w1];
    [|reflexivity].
  match goal with
  | |- llm_prompts (?k ?w).2 = _ =>
      assert (H : keeps llm_prompts k) by frame; apply H
  end.
Qed.

Lemma process_keyword_prompts e o kw w r t :
  agent_run e (length (agent_tasks w)) (task_of kw o) = Return r ->
  extract_text r = Return t ->
  llm_prompts (process_keyword e o kw w).2
  = (if wants_transform (blog_style o) (language o)
     then llm_prompts w ++ [blog_prompt margin16 (PyStr.lower (language o)) t]
     else llm_prompts w).
Proof.
  intros Hr Ht. unfold process_keyword. rewrite task_of_built.
  unfold seq at 1, lift at 1. unfold seq at 1, print at 1.
  unfold seq at 1, print at 1. unfold seq at 1, datetime_now at 1.
  unfold seq at 1, run_agent at 1. world_fields. rewrite Hr.
  unfold seq at 1, datetime_now at 1. world_fields.
  now rewrite (save_result_prompts e o kw r t) by exact Ht.
Qed.

Lemma simple_save_result_prompts e kw out lang blog r t w :
  extract_text r = Return t ->
  llm_prompts (simple_save_result e kw out lang blog r w).2
  = (if wants_transform blog lang
     then llm_prompts w ++ [blog_prompt margin12 (PyStr.lower lang) t]
     else llm_prompts w).
Proof.
  intros Ht. unfold simple_save_result. rewrite Ht. unfold seq at 1, lift at 1.
  rewrite <- (transform_prompts e). unfold seq at 1.
  destruct (transform e margin12 blog lang t w) as [[c|x] w1]; [|reflexivity].
  match goal with
  | |- llm_prompts (?k ?w).2 = _ =>
      assert (H : keeps llm_prompts k) by frame; apply H
  end.
Qed.

Lemma simple_prompts e kw depth out lang blog w r t :
  agent_run e (length (agent_tasks w)) (simple_build_task kw depth) = Return r ->
  extract_text r = Return t ->
  llm_prompts (simple_search_and_summarize e kw depth out lang blog w).2
  = (if wants_transform blog lang
     then llm_prompts w ++ [blog_prompt margin12 (PyStr.lower lang) t]
     else llm_prompts w).
Proof.
  intros Hr Ht. unfold simple_search_and_summarize.
  unfold seq at 1, print at 1. unfold seq at 1, print at 1.
  unfold seq at 1, run_agent at 1. world_fields. rewrite Hr.
  now rewrite (simple_save_result_prompts e kw out lang blog r t) by exact Ht.
Qed.

Lemma wants_transform_requested (blog : bool) (lang : string) :
  wants_transform blog lang = true <-> transformation_requested blog lang.
Proof.
  unfold wants_transform, transformation_requested.
  rewrite orb_true_iff, negb_true_iff, String.eqb_neq. reflexivity.
Qed.

Lemma wants_transform_not_requested (blog : bool) (lang : string) :
  wants_transform blog lang = false <-> ~ transformation_requested blog lang.
Proof.
  rewrite <- wants_transform_requested. destruct (wants_transform blog lang);
    split; congruence.
Qed.

Lemma snoc_neq {A} (l : list A) (x : A) : l ++ [x] <> l.
Proof.
  intros H. apply (f_equal (@length A)) in H. rewrite length_app in H.
  simpl in H. lia.
Qed.

(** The log of prompts grows by one prompt exactly when the
    transformation was requested. *)
Lemma prompts_iff_requested (blog : bool) (lang : string)
    (before after : list string) (p : string) :
  after = (if wants_transform blog lang then before ++ [p] else before) ->
  (transformation_requested blog lang <-> after = before ++ [p])
  /\ (~ transformation_requested blog lang <-> after = before).
Proof.
  intros ->. destruct (wants_transform blog lang) eqn:Hw.
  - pose proof (proj1 (wants_transform_requested blog lang) Hw) as Hreq.
    split; split; try tauto.
    intros H. exfalso. exact (snoc_neq _ _ H).
  - pose proof (proj1 (wants_transform_not_requested blog lang) Hw) as Hreq.
    split; split; try tauto.
    intros H. exfalso. symmetry in H. exact (snoc_neq _ _ H).
Qed.

(** C5: once the agent has returned and its text has been extracted, the
    LLM is called, once, if and only if the blog style was asked for or
    the language, in lower case, is not "english"; when neither holds the
    file receives the extracted text itself, after the header lines or as
    the summary of the JSON record.  This holds for both variants. *)
Theorem transformation_iff_requested
    (e : env) (kw : string) (w : world) (r : agent_result) (t : string) :
  extract_text r = Return t ->
  (forall o,
      agent_run e (length (agent_tasks w)) (task_of kw o) = Return r ->
      let w' := (process_keyword e o kw w).2 in
      (transformation_requested (blog_style o) (language o)
       <-> llm_prompts w'
           = llm_prompts w ++ [blog_prompt margin16 (PyStr.lower (language o)) t])
      /\ (~ transformation_requested (blog_style o) (language o)
          <-> llm_prompts w' = llm_prompts w)
      /\ (~ transformation_requested (blog_style o) (language o) ->
          makedirs e (output_dir o) = Return tt ->
          open_for_writing e (output_path e o kw w) = Return tt ->
          files w' !! output_path e o kw w
          = Some (if is_json o
                  then Json.dumps
                         (json_data kw
                            (Datetime.isoformat (now e (S (S (S (clock_reads w))))))
                            t o (duration e w))
                  else header e o kw w +:+ t)))
  /\ (forall depth out lang blog,
        agent_run e (length (agent_tasks w)) (simple_build_task kw depth) = Return r ->
        let w' := (simple_search_and_summarize e kw depth out lang blog w).2 in
        (transformation_requested blog lang
         <-> llm_prompts w'
             = llm_prompts w ++ [blog_prompt margin12 (PyStr.lower lang) t])
        /\ (~ transformation_requested blog lang <-> llm_prompts w' = llm_prompts w)
        /\ (~ transformation_requested blog lang ->
            open_for_writing e (simple_output_path e kw out w) = Return tt ->
            exists stamp,
              files w' !! simple_output_path e kw out w
              = Some ("# Summary: " +:+ kw +:+ PyStr.nl +:+ PyStr.nl
                      +:+ "*Generated on: " +:+ stamp +:+ "*"
                      +:+ PyStr.nl +:+ PyStr.nl +:+ t))).
Proof.
  intros Ht. split.
  - intros o Hr w'.
    pose proof (process_keyword_prompts e o kw w r t Hr Ht) as Hp.
    fold w' in Hp.
    destruct (prompts_iff_requested _ _ _ _ _ Hp) as [H1 H2].
    split; [exact H1|]. split; [exact H2|].
    intros Hno Hmk Hop.
    apply wants_transform_not_requested in Hno.
    destruct (process_keyword_run_with e o kw w r t Hr Ht) as [Hx Hrun];
      [rewrite Hno; discriminate|exact Hmk|exact Hop|].
    subst w'. rewrite Hrun. cbn [snd]. unfold world_after. cbn [files].
    rewrite lookup_insert_eq.
    unfold file_text, record_written, working_text. now rewrite Hno, Hx.
  - intros depth out lang blog Hr w'.
    pose proof (simple_prompts e kw depth out lang blog w r t Hr Ht) as Hp.
    fold w' in Hp.
    destruct (prompts_iff_requested _ _ _ _ _ Hp) as [H1 H2].
    split; [exact H1|]. split; [exact H2|].
    intros Hno Hop.
    apply wants_transform_not_requested in Hno.
    destruct (simple_run_with e kw depth out lang blog w r t Hr Ht)
      as (w1 & Hrun & Hf & _); [rewrite Hno; discriminate|exact Hop|].
    subst w'. rewrite Hrun. cbn [snd]. rewrite Hf, lookup_insert_eq.
    unfold simple_working_text, extracted_text. rewrite Hr, Ht, Hno.
    unfold wants_transform in Hno. apply orb_false_elim in Hno as [-> _].
    unfold simple_header.
    exists (Datetime.strftime_human
              (now e (match out with Some (String _ _) => 0 | _ => 1 end
                      + clock_reads w)%nat)).
    rewrite !append_assoc. reflexivity.
Qed.

Lemma transformation_iff_requested_witness :
  extract_text (Samples.with_text "Three findings.") = Return "Three findings."
  /\ llm_prompts
       (process_keyword Samples.quiet_env Samples.french_blog "rust" initial_world).2
     = [blog_prompt margin16 "french" "Three findings."]
  /\ llm_prompts
       (process_keyword Samples.quiet_env Samples.plain_text "rust" initial_world).2
     = [].
Proof.
  split; [reflexivity|].
  pose proof (transformation_iff_requested Samples.quiet_env "rust" initial_world
                (Samples.with_text "Three findings.") "Three findings." eq_refl)
    as [Hadv _].
  split.
  - apply (proj1 (Hadv Samples.french_blog eq_refl)). left. reflexivity.
  - apply (proj1 (proj2 (Hadv Samples.plain_text eq_refl))).
    intros [H|H]; [discriminate H|apply H; reflexivity].
Defined.

(** * Several keywords *)

Lemma two_keywords_run e opts w (a b : string) :
  cooperative e ->
  let o := resolve_options opts in
  let w1 := world_after e o a w in
  search_and_summarize e (KeywordList [a; b]) opts w
  = (Return (<[ b := entry_after e o b w1 ]> (<[ a := entry_after e o a w ]> ∅)),
     world_after e o b w1).
Proof.
  intros He. cbv zeta. unfold search_and_summarize, process_keywords.
  unfold seq at 1. rewrite process_keyword_run by exact He.
  unfold seq at 1. rewrite process_keyword_run by exact He.
  reflexivity.
Qed.

Lemma path_join_relative_inj (d : string) (c1 c2 : ascii) (n1 n2 : string) :
  c1 <> "/"%char -> c2 <> "/"%char ->
  path_join d (String c1 n1) = path_join d (String c2 n2) ->
  String c1 n1 = String c2 n2.
Proof.
  intros H1 H2. unfold path_join.
  destruct (Ascii.eqb_spec c1 "/"); [contradiction|].
  destruct (Ascii.eqb_spec c2 "/"); [contradiction|].
  assert (E1 : forall c n, c <> "/"%char ->
            match String c n with String "/" _ => String c n | _ =>
              if (d =? "")%string then String c n
              else if (substring (String.length d - 1) 1 d =? "/")%string
                   then d +:+ String c n else d +:+ "/" +:+ String c n end
            = if (d =? "")%string then String c n
              else if (substring (String.length d - 1) 1 d =? "/")%string
                   then d +:+ String c n else d +:+ "/" +:+ String c n).
  { intros c m Hc. destruct c as [[] [] [] [] [] [] [] []]; try reflexivity.
    exfalso. now apply Hc. }
  rewrite !E1 by assumption.
  destruct (d =? "")%string; [auto|].
  destruct (substring (String.length d - 1) 1 d =? "/")%string.
  - apply (inj (String.app d)).
  - intros H. apply (inj (String.app d)) in H. cbn in H. congruence.
Qed.

Lemma output_paths_differ e o w w' :
  output_path e o "A" w <> output_path e o "B" w'.
Proof.
  unfold output_path, file_name. intros H.
  change (safe_keyword "A") with "A" in H. change (safe_keyword "B") with "B" in H.
  apply path_join_relative_inj in H; [discriminate H|discriminate|discriminate].
Qed.

Lemma duration_non_negative e w :
  monotone_clock e -> 0 <= duration e w.
Proof.
  intros Hm. unfold duration, Datetime.sub_microseconds.
  specialize (Hm (clock_reads w)). lia.
Qed.

(** C8, as stated, fails: when the wall clock steps back while the agent
    runs, as local time does on the night daylight saving time ends, the
    duration stored for the keyword is negative. *)
Lemma two_keywords_counterexample :
  cooperative Samples.autumn_env
  /\ duration Samples.autumn_env initial_world = -3585000000
  /\ ~ two_keywords_scenario Samples.autumn_env None initial_world.
Proof.
  split; [exact autumn_env_cooperative|]. split; [reflexivity|].
  intros (results & w' & ea & eb & Hrun & _ & Ha & _ & _ & _ & _ & Hneg & _).
  rewrite two_keywords_run in Hrun by exact autumn_env_cooperative.
  injection Hrun as <- _.
  rewrite lookup_insert_ne in Ha by discriminate.
  rewrite lookup_insert_eq in Ha. injection Ha as <-.
  unfold non_negative_duration in Hneg. vm_compute in Hneg. apply Hneg. reflexivity.
Qed.

Lemma duration_sign e w :
  0 <= duration e w <-> steady_at e (clock_reads w).
Proof. unfold duration, Datetime.sub_microseconds, steady_at. lia. Qed.

(** C8, amended: with collaborators that answer, the run over the
    keywords A and B returns a dict of exactly two entries, one for each
    keyword, and has written a file for each, the two files being
    different, whatever the clock does.  The duration of an entry is not
    negative exactly when the wall clock did not step back between the
    two readings taken round the agent call of that keyword, the first
    two readings of its run; what the clock does at any other reading
    plays no role.  So with a clock that never steps back both durations
    are not negative. *)
Theorem two_keywords (e : env) (opts : option partial_options) (w : world) :
  cooperative e ->
  exists results w1 w' ea eb,
    search_and_summarize e (KeywordList ["A"; "B"]) opts w = (Return results, w')
    /\ size results = 2%nat
    /\ results !! "A" = Some ea /\ results !! "B" = Some eb
    /\ entry_output_file ea <> entry_output_file eb
    /\ is_Some (files w' !! entry_output_file ea)
    /\ is_Some (files w' !! entry_output_file eb)
    /\ process_keyword e (resolve_options opts) "A" w = (Return ea, w1)
    /\ process_keyword e (resolve_options opts) "B" w1 = (Return eb, w')
    /\ (non_negative_duration ea <-> steady_at e (clock_reads w))
    /\ (non_negative_duration eb <-> steady_at e (clock_reads w1))
    /\ (monotone_clock e -> two_keywords_scenario e opts w).
Proof.
  intros He. set (o := resolve_options opts). set (w1 := world_after e o "A" w).
  set (results := <[ "B" := entry_after e o "B" w1 ]>
                    (<[ "A" := entry_after e o "A" w ]>
                       (∅ : gmap string result_entry))).
  assert (Hrun : search_and_summarize e (KeywordList ["A"; "B"]) opts w
                 = (Return results, world_after e o "B" w1))
    by now apply two_keywords_run.
  assert (Hsize : size results = 2%nat).
  { unfold results. rewrite map_size_insert_None.
    - now rewrite map_size_insert_None, map_size_empty by apply lookup_empty.
    - rewrite lookup_insert_ne by discriminate. apply lookup_empty. }
  assert (Ha : results !! "A" = Some (entry_after e o "A" w)).
  { unfold results. rewrite lookup_insert_ne by discriminate. apply lookup_insert_eq. }
  assert (Hb : results !! "B" = Some (entry_after e o "B" w1))
    by apply lookup_insert_eq.
  assert (Hfa : is_Some (files (world_after e o "B" w1)
                           !! entry_output_file (entry_after e o "A" w))).
  { unfold world_after at 1. cbn [files entry_after entry_output_file].
    rewrite lookup_insert_ne by (apply not_eq_sym, output_paths_differ).
    subst w1. unfold world_after. cbn [files]. rewrite lookup_insert_eq. eauto. }
  assert (Hfb : is_Some (files (world_after e o "B" w1)
                           !! entry_output_file (entry_after e o "B" w1))).
  { unfold world_after at 1. cbn [files entry_after entry_output_file].
    rewrite lookup_insert_eq. eauto. }
  exists results, w1, (world_after e o "B" w1), (entry_after e o "A" w),
    (entry_after e o "B" w1).
  split; [exact Hrun|]. split; [exact Hsize|]. split; [exact Ha|].
  split; [exact Hb|]. split; [apply output_paths_differ|].
  split; [exact Hfa|]. split; [exact Hfb|].
  split; [now apply process_keyword_run|].
  split; [now apply process_keyword_run|].
  split; [apply duration_sign|]. split; [apply duration_sign|].
  intros Hm.
  exists results, (world_after e o "B" w1), (entry_after e o "A" w),
    (entry_after e o "B" w1).
  split; [exact Hrun|]. split; [exact Hsize|]. split; [exact Ha|].
  split; [exact Hb|]. split; [apply output_paths_differ|].
  split; [exact Hfa|]. split; [exact Hfb|].
  split; apply duration_non_negative; exact Hm.
Qed.

Lemma stepping_back_env_cooperative : cooperative Terminal.stepping_back_env.
Proof.
  split.
  - intros n task. exists (Samples.with_text "Three findings."), "Three findings.".
    split; reflexivity.
  - intros n p. now exists "Rewritten as an article.".
  - reflexivity.
  - reflexivity.
Qed.

(** The clock steps back at the reading the first file name is stamped
    with, and at no reading round an agent call: the two durations are
    not negative. *)
Lemma two_keywords_witness :
  ~ monotone_clock Terminal.stepping_back_env
  /\ exists results w' ea eb,
       search_and_summarize Terminal.stepping_back_env (KeywordList ["A"; "B"])
         None initial_world = (Return results, w')
       /\ size results = 2%nat
       /\ results !! "A" = Some ea /\ results !! "B" = Some eb
       /\ entry_output_file ea <> entry_output_file eb
       /\ is_Some (files w' !! entry_output_file ea)
       /\ is_Some (files w' !! entry_output_file eb)
       /\ non_negative_duration ea /\ non_negative_duration eb.
Proof.
  split.
  { intros H. specialize (H 1%nat). vm_compute in H. apply H. reflexivity. }
  destruct (two_keywords Terminal.stepping_back_env None initial_world
              stepping_back_env_cooperative)
    as (results & w1 & w' & ea & eb & Hrun & Hsize & Ha & Hb & Hne & Hfa & Hfb
        & Hpa & _ & Hda & Hdb & _).
  exists results, w', ea, eb.
  split; [exact Hrun|]. split; [exact Hsize|]. split; [exact Ha|].
  split; [exact Hb|]. split; [exact Hne|]. split; [exact Hfa|].
  split; [exact Hfb|].
  rewrite process_keyword_run in Hpa by exact stepping_back_env_cooperative.
  injection Hpa as _ <-.
  split.
  - apply Hda. vm_compute. discriminate.
  - apply Hdb. vm_compute. discriminate.
Defined.

(** * JSON: reading back what was written *)

Lemma scan_string_escape_char (c : ascii) (tail : string) :
  Json.scan_string (Json.escape_char c +:+ tail)
  = match Json.scan_string tail with
    | Some (t, rest) => Some (String c t, rest)
    | None => None
    end.
Proof.
  destruct c as [[] [] [] [] [] [] [] []]; simpl;
    destruct (Json.scan_string tail) as [[t rest]|]; reflexivity.
Qed.

Lemma scan_string_escape (s rest : string) :
  Json.scan_string (Json.escape s +:+ String Json.dquote rest) = Some (s, rest).
Proof.
  induction s as [|c s IH]; [reflexivity|].
  cbn [Json.escape]. rewrite append_assoc, scan_string_escape_char.
  now rewrite IH.
Qed.

Lemma skip_ws_token (c : ascii) (s : string) :
  Json.is_ws c = false -> Json.skip_ws (String c s) = String c s.
Proof. intros H. simpl. now rewrite H. Qed.

Lemma skip_ws_spaces (n : nat) (s : string) :
  Json.skip_ws (Json.spaces n +:+ s) = Json.skip_ws s.
Proof. induction n as [|n IH]; [reflexivity|exact IH]. Qed.

Lemma skip_ws_newline_indent (level : nat) (s : string) :
  Json.skip_ws (Json.newline_indent level +:+ s) = Json.skip_ws s.
Proof.
  unfold Json.newline_indent. rewrite append_assoc. cbn.
  apply skip_ws_spaces.
Qed.

(** ** Integers *)

Lemma string_of_uint_head (u : Decimal.uint) :
  u <> Decimal.Nil ->
  exists c tail,
    NilEmpty.string_of_uint u = String c tail /\ PyStr.is_digit c = true.
Proof.
  destruct u; [congruence|..]; intros _; eexists _, _; split; reflexivity.
Qed.

Lemma of_int_head (z : Z) :
  exists c tail,
    PyStr.of_int z = String c tail /\ (PyStr.is_digit c = true \/ c = "-"%char).
Proof.
  unfold PyStr.of_int. destruct z as [|p|p]; simpl.
  - eexists _, _. split; [reflexivity|]. left. reflexivity.
  - unfold NilZero.string_of_uint.
    pose proof (DecimalPos.Unsigned.to_uint_nonnil p) as Hn.
    destruct (Pos.to_uint p) eqn:E; [congruence|..];
      eexists _, _; (split; [reflexivity|]); left; reflexivity.
  - eexists _, _. split; [reflexivity|]. right. reflexivity.
Qed.

Lemma span_digits_no_digit (rest : string) :
  starts_without_digit rest = true -> Json.span_digits rest = ("", rest).
Proof.
  destruct rest as [|c rest]; [reflexivity|]. simpl.
  now destruct (PyStr.is_digit c).
Qed.

Lemma span_digits_uint (u : Decimal.uint) (rest : string) :
  starts_without_digit rest = true ->
  Json.span_digits (NilEmpty.string_of_uint u +:+ rest)
  = (NilEmpty.string_of_uint u, rest).
Proof.
  intros H. induction u; simpl;
    [now apply span_digits_no_digit|now rewrite IHu..].
Qed.

Lemma ends_value_no_digit (rest : string) :
  ends_value rest = true -> starts_without_digit rest = true.
Proof.
  destruct rest as [|c rest]; [reflexivity|]. simpl.
  destruct (PyStr.is_digit c); [discriminate|reflexivity].
Qed.

Lemma scan_frac_end (rest : string) :
  ends_value rest = true -> Json.scan_frac rest = ("", rest).
Proof.
  destruct rest as [|c rest]; [reflexivity|].
  destruct c as [[] [] [] [] [] [] [] []]; simpl; solve [discriminate|reflexivity].
Qed.

Lemma scan_exp_end (rest : string) :
  ends_value rest = true -> Json.scan_exp rest = ("", rest).
Proof.
  destruct rest as [|c rest]; [reflexivity|].
  destruct c as [[] [] [] [] [] [] [] []]; simpl; solve [discriminate|reflexivity].
Qed.

(** The decimal digits of a positive number start with a digit that is
    not zero. *)
Lemma pos_to_uint_head (p : positive) :
  match Pos.to_uint p with
  | Decimal.Nil | Decimal.D0 _ => False
  | _ => True
  end.
Proof.
  pose proof (DecimalPos.Unsigned.to_uint_nonzero p) as Hz.
  pose proof (DecimalPos.Unsigned.to_uint_nonnil p) as Hn.
  assert (Hnorm : Pos.to_uint p = Decimal.unorm (Pos.to_uint p)).
  { rewrite <- (DecimalPos.Unsigned.to_of (Pos.to_uint p)).
    now rewrite DecimalPos.Unsigned.of_to. }
  destruct (Pos.to_uint p) as [|u|u|u|u|u|u|u|u|u|u] eqn:E; try exact I.
  - congruence.
  - rewrite DecimalFacts.unorm_D0 in Hnorm.
    destruct (Decimal.uint_eq_dec (Decimal.nzhead u) Decimal.Nil) as [En|En].
    + apply DecimalFacts.unorm_0 in En. rewrite En in Hnorm.
      apply Hz. exact Hnorm.
    + rewrite (DecimalFacts.unorm_nzhead u En) in Hnorm. symmetry in Hnorm.
      now apply DecimalFacts.nzhead_nonzero in Hnorm.
Qed.

Lemma scan_integer_uint (u : Decimal.uint) (rest : string) :
  match u with Decimal.Nil | Decimal.D0 _ => False | _ => True end ->
  starts_without_digit rest = true ->
  Json.scan_integer (NilEmpty.string_of_uint u +:+ rest)
  = Some (NilEmpty.string_of_uint u, rest)
  /\ Json.scan_integer (String "-" (NilEmpty.string_of_uint u +:+ rest))
     = Some (String "-" (NilEmpty.string_of_uint u), rest)
  /\ Json.int_of_literal (NilEmpty.string_of_uint u) = Some (Z.of_uint u)
  /\ Json.int_of_literal (String "-" (NilEmpty.string_of_uint u))
     = Some (- Z.of_uint u).
Proof.
  intros Hu Hr.
  pose proof (NilEmpty.usu u) as Husu.
  destruct u as [|u|u|u|u|u|u|u|u|u|u]; try contradiction;
    cbn [NilEmpty.string_of_uint String.append Json.scan_integer
         Json.int_of_literal PyStr.is_digit] in *;
    rewrite (span_digits_uint u rest Hr), Husu; repeat split; reflexivity.
Qed.

Lemma scan_number_of_int (z : Z) (rest : string) :
  ends_value rest = true ->
  Json.scan_number (PyStr.of_int z +:+ rest) = Some (JInt z, rest).
Proof.
  intros He. pose proof (ends_value_no_digit rest He) as Hd.
  unfold Json.scan_number, PyStr.of_int.
  destruct z as [|p|p]; cbn [Z.to_int NilZero.string_of_int].
  - cbn. now rewrite scan_frac_end, scan_exp_end.
  - pose proof (pos_to_uint_head p) as Hh.
    destruct (scan_integer_uint (Pos.to_uint p) rest Hh Hd) as (H1 & _ & H3 & _).
    assert (E : NilZero.string_of_uint (Pos.to_uint p)
                = NilEmpty.string_of_uint (Pos.to_uint p)).
    { unfold NilZero.string_of_uint. now destruct (Pos.to_uint p). }
    rewrite E, H1. cbn [mbind option_bind].
    rewrite scan_frac_end, scan_exp_end by exact He. rewrite H3.
    cbn [mbind option_bind]. do 3 f_equal.
    unfold Z.of_uint. now rewrite DecimalPos.Unsigned.of_to.
  - pose proof (pos_to_uint_head p) as Hh.
    destruct (scan_integer_uint (Pos.to_uint p) rest Hh Hd) as (_ & H2 & _ & H4).
    assert (E : NilZero.string_of_uint (Pos.to_uint p)
                = NilEmpty.string_of_uint (Pos.to_uint p)).
    { unfold NilZero.string_of_uint. now destruct (Pos.to_uint p). }
    rewrite E. cbn [String.append]. rewrite H2. cbn [mbind option_bind].
    rewrite scan_frac_end, scan_exp_end by exact He. rewrite H4.
    cbn [mbind option_bind]. do 3 f_equal.
    unfold Z.of_uint. now rewrite DecimalPos.Unsigned.of_to.
Qed.

(** ** Values *)

Lemma number_start_not_blank (c : ascii) :
  PyStr.is_digit c = true \/ c = "-"%char -> token_start c = true.
Proof.
  intros [H| ->]; [|reflexivity].
  destruct c as [[] [] [] [] [] [] [] []]; simpl in H; try discriminate H;
    reflexivity.
Qed.

Lemma scan_once_number (fuel : nat) (c : ascii) (tail : string)
    (r : json * string) :
  PyStr.is_digit c = true \/ c = "-"%char ->
  Json.scan_number (String c tail) = Some r ->
  Json.scan_once (S fuel) (String c tail) = Some r.
Proof.
  intros Hc Hs. cbn [Json.scan_once].
  destruct Hc as [H| ->].
  - destruct c as [[] [] [] [] [] [] [] []]; simpl in H; try discriminate H;
      cbn [Ascii.eqb Bool.eqb andb Json.dquote]; now rewrite Hs.
  - cbn [Ascii.eqb Bool.eqb andb Json.dquote]. now rewrite Hs.
Qed.

Lemma starts_with_token_append (s rest : string) :
  starts_with_token s -> starts_with_token (s +:+ rest).
Proof. intros (c & tail & -> & Hc). now exists c, (tail +:+ rest). Qed.

Lemma skip_ws_starts_with_token (s : string) :
  starts_with_token s -> Json.skip_ws s = s.
Proof.
  intros (c & tail & -> & Hc). apply skip_ws_token.
  unfold token_start in Hc. now destruct (Json.is_ws c).
Qed.

Lemma dumps_starts_with_token (level : nat) (j : json) :
  well_formed j -> starts_with_token (Json.dumps_at level j).
Proof.
  intros Hwf. destruct Hwf as [|b|z|lit Hlit|s|items _|pairs _].
  - now eexists _, _.
  - destruct b; now eexists _, _.
  - destruct (of_int_head z) as (c & tail & E & Hc).
    exists c, tail. split; [exact E|now apply number_start_not_blank].
  - destruct Hlit as [(c & tail & E & Hc) _].
    exists c, tail. split; [exact E|now apply number_start_not_blank].
  - now eexists _, _.
  - destruct items; now eexists _, _.
  - destruct pairs; now eexists _, _.
Qed.

Lemma join_two (sep x y : string) (l : list string) :
  PyStr.join sep (x :: y :: l) = x +:+ sep +:+ PyStr.join sep (y :: l).
Proof. reflexivity. Qed.

Lemma join_starts_with_token (sep x : string) (l : list string) :
  starts_with_token x -> starts_with_token (PyStr.join sep (x :: l)).
Proof.
  intros H. destruct l as [|y l]; [exact H|].
  rewrite join_two. now apply starts_with_token_append.
Qed.

Lemma newline_indent_ends_value (level : nat) (s : string) :
  ends_value (Json.newline_indent level +:+ s) = true.
Proof. reflexivity. Qed.

Lemma scan_items_join (items : list json) :
  items <> [] -> Forall reads_back items -> Forall well_formed items ->
  forall level closing rest fuel,
    (fold_right (fun x acc => S (Nat.max (fuel_needed x) acc)) 0 items <= fuel)%nat ->
    Json.scan_items fuel
      (PyStr.join ("," +:+ Json.newline_indent level)
         (List.map (Json.dumps_at level) items)
       +:+ Json.newline_indent closing +:+ String "]" rest)
    = Some (items, rest).
Proof.
  induction items as [|x l IH]; [congruence|].
  intros _ Hrb Hwf level closing rest fuel Hfuel.
  apply Forall_cons_1 in Hrb as [Hx Hl]. apply Forall_cons_1 in Hwf as [Wx Wl].
  cbn [fold_right] in Hfuel. destruct fuel as [|f]; [lia|].
  cbn [Json.scan_items].
  destruct l as [|y l'].
  - change (PyStr.join ("," +:+ Json.newline_indent level)
              (List.map (Json.dumps_at level) [x]))
      with (Json.dumps_at level x).
    rewrite (Hx level _ f Wx (newline_indent_ends_value _ _)) by (cbn in Hfuel; lia).
    cbn [mbind option_bind]. rewrite skip_ws_newline_indent. reflexivity.
  - change (List.map (Json.dumps_at level) (x :: y :: l'))
      with (Json.dumps_at level x :: Json.dumps_at level y
            :: List.map (Json.dumps_at level) l').
    rewrite join_two, !append_assoc.
    change ("," +:+ ?a) with (String "," a).
    rewrite (Hx level (String "," _) f Wx eq_refl) by lia.
    cbn [mbind option_bind Json.skip_ws Json.is_ws].
    rewrite skip_ws_newline_indent.
    rewrite skip_ws_starts_with_token.
    2:{ apply starts_with_token_append, join_starts_with_token.
        apply dumps_starts_with_token. now apply Forall_cons_1 in Wl as [Wy _]. }
    change (Json.dumps_at level y :: List.map (Json.dumps_at level) l')
      with (List.map (Json.dumps_at level) (y :: l')).
    rewrite (IH ltac:(discriminate) Hl Wl level closing rest f) by lia.
    reflexivity.
Qed.

Lemma render_pair_append (level : nat) (k : string) (v : json) (rest : string) :
  render_pair level (k, v) +:+ rest
  = String Json.dquote
      (Json.escape k
       +:+ String Json.dquote (String ":" (String " " (Json.dumps_at level v +:+ rest)))).
Proof.
  unfold render_pair, Json.encode_basestring. cbn [fst snd String.append].
  now rewrite !append_assoc.
Qed.

Lemma render_pair_starts_with_token (level : nat) (kv : string * json) :
  starts_with_token (render_pair level kv).
Proof. now eexists _, _. Qed.

Lemma scan_members_join (pairs : list (string * json)) :
  pairs <> [] ->
  Forall (fun kv => reads_back kv.2) pairs ->
  Forall (fun kv => well_formed kv.2) pairs ->
  forall level closing rest fuel,
    (fold_right (fun kv acc => S (Nat.max (fuel_needed kv.2) acc)) 0 pairs <= fuel)%nat ->
    Json.scan_members fuel
      (PyStr.join ("," +:+ Json.newline_indent level)
         (List.map (render_pair level) pairs)
       +:+ Json.newline_indent closing +:+ String "}" rest)
    = Some (pairs, rest).
Proof.
  induction pairs as [|[k v] l IH]; [congruence|].
  intros _ Hrb Hwf level closing rest fuel Hfuel.
  apply Forall_cons_1 in Hrb as [Hx Hl]. apply Forall_cons_1 in Hwf as [Wx Wl].
  cbn [fold_right snd] in Hfuel, Hx, Wx. destruct fuel as [|f]; [lia|].
  destruct l as [|y l'].
  - change (PyStr.join ("," +:+ Json.newline_indent level)
              (List.map (render_pair level) [(k, v)]))
      with (render_pair level (k, v)).
    rewrite render_pair_append. cbn [Json.scan_members].
    rewrite scan_string_escape.
    cbn [mbind option_bind Json.skip_ws Json.is_ws].
    rewrite skip_ws_starts_with_token
      by (apply starts_with_token_append, dumps_starts_with_token, Wx).
    rewrite (Hx level _ f Wx (newline_indent_ends_value _ _)) by (cbn in Hfuel; lia).
    cbn [mbind option_bind]. rewrite skip_ws_newline_indent. reflexivity.
  - change (List.map (render_pair level) ((k, v) :: y :: l'))
      with (render_pair level (k, v) :: render_pair level y
            :: List.map (render_pair level) l').
    rewrite join_two, !append_assoc, render_pair_append.
    change ("," +:+ ?a) with (String "," a).
    cbn [Json.scan_members].
    rewrite scan_string_escape.
    cbn [mbind option_bind Json.skip_ws Json.is_ws].
    rewrite skip_ws_starts_with_token
      by (apply starts_with_token_append, dumps_starts_with_token, Wx).
    rewrite (Hx level (String "," _) f Wx eq_refl) by lia.
    cbn [mbind option_bind Json.skip_ws Json.is_ws].
    rewrite skip_ws_newline_indent.
    rewrite skip_ws_starts_with_token
      by (apply starts_with_token_append, join_starts_with_token,
            render_pair_starts_with_token).
    change (render_pair level y :: List.map (render_pair level) l')
      with (List.map (render_pair level) (y :: l')).
    rewrite (IH ltac:(discriminate) Hl Wl level closing rest f) by lia.
    reflexivity.
Qed.

Lemma dumps_object (level : nat) (kv : string * json) (l : list (string * json)) :
  Json.dumps_at level (JObject (kv :: l))
  = "{" +:+ Json.newline_indent (S level)
    +:+ PyStr.join ("," +:+ Json.newline_indent (S level))
          (List.map (render_pair (S level)) (kv :: l))
    +:+ Json.newline_indent level +:+ "}".
Proof. reflexivity. Qed.

Lemma dumps_array (level : nat) (x : json) (l : list json) :
  Json.dumps_at level (JArray (x :: l))
  = "[" +:+ Json.newline_indent (S level)
    +:+ PyStr.join ("," +:+ Json.newline_indent (S level))
          (List.map (Json.dumps_at (S level)) (x :: l))
    +:+ Json.newline_indent level +:+ "]".
Proof. reflexivity. Qed.

Lemma strip_prefix_token (c : ascii) (tail : string) :
  token_start c = true ->
  Json.strip_prefix "]" (String c tail) = None
  /\ Json.strip_prefix "}" (String c tail) = None.
Proof.
  intros Hc. destruct c as [[] [] [] [] [] [] [] []]; try (split; reflexivity);
    discriminate Hc.
Qed.

(** Every well-formed value is read back from its text. *)
Lemma scan_once_dumps (j : json) : reads_back j.
Proof.
  induction j as [|b|z|lit|s|items IH|pairs IH] using json_induction;
    intros level rest fuel Hwf Hrest Hfuel;
    (destruct fuel as [|f]; [cbn in Hfuel; lia|]).
  - reflexivity.
  - destruct b; reflexivity.
  - destruct (of_int_head z) as (c & tail & E & Hc).
    cbn [Json.dumps_at]. pose proof (scan_number_of_int z rest Hrest) as Hn.
    rewrite E in *. now apply scan_once_number.
  - inversion Hwf as [| | |lit' [(c & tail & E & Hc) Hscan]| | |]; subst.
    cbn [Json.dumps_at]. pose proof (Hscan rest Hrest) as Hn.
    cbn [String.append] in *. now apply scan_once_number.
  - cbn [Json.dumps_at]. unfold Json.encode_basestring.
    cbn [String.append Json.scan_once]. rewrite append_assoc.
    cbn [String.append].
    change (Ascii.eqb Json.dquote Json.dquote) with true. cbn iota.
    now rewrite scan_string_escape.
  - inversion Hwf as [| | | | |items' Hitems|]; subst.
    destruct items as [|x l]; [reflexivity|].
    assert (Wx : well_formed x) by now apply Forall_cons_1 in Hitems as [? _].
    rewrite dumps_array, !append_assoc.
    cbn [String.append Json.scan_once].
    change (Ascii.eqb "[" Json.dquote) with false.
    change (Ascii.eqb "[" "{") with false.
    change (Ascii.eqb "[" "[") with true. cbn iota.
    rewrite skip_ws_newline_indent.
    pose proof (scan_items_join (x :: l) ltac:(discriminate) IH Hitems (S level)
                  level rest f ltac:(cbn in Hfuel |- *; lia)) as Hm.
    destruct (starts_with_token_append _
                (Json.newline_indent level +:+ String "]" rest)
                (join_starts_with_token ("," +:+ Json.newline_indent (S level)) _
                   (List.map (Json.dumps_at (S level)) l)
                   (dumps_starts_with_token (S level) x Wx)))
      as (c & tail & E & Hc).
    cbn [List.map] in *. change ("," +:+ ?a) with (String "," a) in *.
    rewrite E in *.
    rewrite skip_ws_starts_with_token by now exists c, tail.
    rewrite (proj1 (strip_prefix_token c tail Hc)). now rewrite Hm.
  - inversion Hwf as [| | | | | |pairs' Hpairs]; subst.
    destruct pairs as [|kv l]; [reflexivity|].
    rewrite dumps_object, !append_assoc.
    cbn [String.append Json.scan_once].
    change (Ascii.eqb "{" Json.dquote) with false.
    change (Ascii.eqb "{" "{") with true. cbn iota.
    rewrite skip_ws_newline_indent.
    pose proof (scan_members_join (kv :: l) ltac:(discriminate) IH Hpairs (S level)
                  level rest f ltac:(cbn in Hfuel |- *; lia)) as Hm.
    destruct (starts_with_token_append _
                (Json.newline_indent level +:+ String "}" rest)
                (join_starts_with_token ("," +:+ Json.newline_indent (S level)) _
                   (List.map (render_pair (S level)) l)
                   (render_pair_starts_with_token (S level) kv)))
      as (c & tail & E & Hc).
    cbn [List.map] in *. change ("," +:+ ?a) with (String "," a) in *.
    rewrite E in *.
    rewrite skip_ws_starts_with_token by now exists c, tail.
    rewrite (proj2 (strip_prefix_token c tail Hc)). now rewrite Hm.
Qed.

(** ** Enough fuel *)

Lemma join_fuel_length {A} (need : A -> nat) (render : A -> string)
    (sep : string) (l : list A) :
  (2 <= String.length sep)%nat ->
  Forall (fun x => (need x <= String.length (render x))%nat) l ->
  (fold_right (fun x acc => S (Nat.max (need x) acc)) 0 l
   <= String.length (PyStr.join sep (List.map render l)) + 1)%nat.
Proof.
  intros Hsep Hl. induction Hl as [|x l Hx Hl IH]; [cbn; lia|].
  destruct l as [|y l'].
  - cbn. lia.
  - change (List.map render (x :: y :: l'))
      with (render x :: render y :: List.map render l').
    rewrite join_two, !length_append.
    change (render y :: List.map render l') with (List.map render (y :: l')).
    cbn [fold_right] in *. lia.
Qed.

Lemma length_newline_indent (level : nat) :
  (1 <= String.length (Json.newline_indent level))%nat.
Proof. unfold Json.newline_indent. rewrite length_append. cbn. lia. Qed.

Lemma fuel_needed_length (j : json) :
  forall level, well_formed j ->
    (fuel_needed j <= String.length (Json.dumps_at level j))%nat.
Proof.
  induction j as [|b|z|lit|s|items IH|pairs IH] using json_induction;
    intros level Hwf.
  - cbn. lia.
  - destruct b; cbn; lia.
  - destruct (of_int_head z) as (c & tail & E & _). cbn [Json.dumps_at fuel_needed].
    rewrite E. cbn. lia.
  - inversion Hwf as [| | |lit' [(c & tail & E & _) _]| | |]; subst. cbn. lia.
  - cbn. lia.
  - inversion Hwf as [| | | | |items' Hitems|]; subst.
    destruct items as [|x l]; [cbn; lia|].
    rewrite dumps_array, !length_append. cbn [fuel_needed].
    pose proof (length_newline_indent level).
    pose proof (length_newline_indent (S level)).
    assert (Hall : Forall (fun x => (fuel_needed x
                     <= String.length (Json.dumps_at (S level) x))%nat) (x :: l)).
    { apply Forall_forall. intros y Hy.
      rewrite Forall_forall in IH, Hitems. now apply IH; [|apply Hitems]. }
    pose proof (join_fuel_length fuel_needed (Json.dumps_at (S level))
                  ("," +:+ Json.newline_indent (S level)) (x :: l)
                  ltac:(rewrite length_append; cbn; lia) Hall).
    cbn [String.length]. lia.
  - inversion Hwf as [| | | | | |pairs' Hpairs]; subst.
    destruct pairs as [|kv l]; [cbn; lia|].
    rewrite dumps_object, !length_append. cbn [fuel_needed].
    pose proof (length_newline_indent level).
    pose proof (length_newline_indent (S level)).
    assert (Hall : Forall (fun kv : string * json => (fuel_needed kv.2
                     <= String.length (render_pair (S level) kv))%nat) (kv :: l)).
    { apply Forall_forall. intros y Hy.
      rewrite Forall_forall in IH, Hpairs.
      unfold render_pair. rewrite !length_append.
      specialize (IH y Hy (S level) (Hpairs y Hy)). lia. }
    pose proof (join_fuel_length (fun kv : string * json => fuel_needed kv.2)
                  (render_pair (S level))
                  ("," +:+ Json.newline_indent (S level)) (kv :: l)
                  ltac:(rewrite length_append; cbn; lia) Hall).
    cbn [String.length]. lia.
Qed.

(** Reading back the text of a well-formed value gives the value. *)
Lemma loads_dumps (j : json) :
  well_formed j -> Json.loads (Json.dumps j) = Some j.
Proof.
  intros Hwf. unfold Json.loads, Json.dumps.
  rewrite skip_ws_starts_with_token by now apply dumps_starts_with_token.
  pose proof (scan_once_dumps j 0%nat "" (S (String.length (Json.dumps_at 0 j)))
                Hwf eq_refl) as H.
  rewrite append_nil_r in H. rewrite H; [reflexivity|].
  pose proof (fuel_needed_length j 0%nat Hwf). lia.
Qed.

(** ** The literal of a duration *)

Lemma span_digits_all (ds rest : string) :
  PyStr.all_chars PyStr.is_digit ds = true ->
  starts_without_digit rest = true ->
  Json.span_digits (ds +:+ rest) = (ds, rest).
Proof.
  intros Hds Hr. induction ds as [|c ds IH]; [now apply span_digits_no_digit|].
  cbn in Hds. apply andb_prop in Hds as [Hc Hds].
  cbn [String.append Json.span_digits]. now rewrite Hc, IH.
Qed.

Lemma strip_trailing_zeros_digits (s : string) :
  PyStr.all_chars PyStr.is_digit s = true ->
  PyStr.all_chars PyStr.is_digit (Duration.strip_trailing_zeros s) = true.
Proof.
  induction s as [|c s IH]; [reflexivity|]. cbn. intros H.
  apply andb_prop in H as [Hc Hs]. specialize (IH Hs).
  destruct (Duration.strip_trailing_zeros s) as [|c' t].
  - destruct (Ascii.eqb c "0"); [reflexivity|]. cbn. now rewrite Hc.
  - cbn [PyStr.all_chars] in *. now rewrite Hc.
Qed.

Lemma fraction_digits (x : Z) :
  x < 1000000 ->
  exists c t,
    Duration.fraction x = String c t
    /\ PyStr.all_chars PyStr.is_digit (String c t) = true.
Proof.
  intros Hx. unfold Duration.fraction.
  pose proof (strip_trailing_zeros_digits _ (digits_zero_padded 6 x Hx)) as H.
  destruct (Duration.strip_trailing_zeros (PyStr.zero_padded 6 x)) as [|c t].
  - now eexists _, _.
  - now exists c, t.
Qed.

Lemma scan_integer_of_int (z : Z) (rest : string) :
  starts_without_digit rest = true ->
  Json.scan_integer (PyStr.of_int z +:+ rest) = Some (PyStr.of_int z, rest).
Proof.
  intros Hd. unfold PyStr.of_int.
  destruct z as [|p|p]; cbn [Z.to_int NilZero.string_of_int].
  - reflexivity.
  - pose proof (pos_to_uint_head p) as Hh.
    destruct (scan_integer_uint (Pos.to_uint p) rest Hh Hd) as (H1 & _).
    assert (E : NilZero.string_of_uint (Pos.to_uint p)
                = NilEmpty.string_of_uint (Pos.to_uint p)).
    { unfold NilZero.string_of_uint. now destruct (Pos.to_uint p). }
    now rewrite E.
  - pose proof (pos_to_uint_head p) as Hh.
    destruct (scan_integer_uint (Pos.to_uint p) rest Hh Hd) as (_ & H2 & _).
    assert (E : NilZero.string_of_uint (Pos.to_uint p)
                = NilEmpty.string_of_uint (Pos.to_uint p)).
    { unfold NilZero.string_of_uint. now destruct (Pos.to_uint p). }
    now rewrite E.
Qed.

Lemma scan_integer_digit (c : ascii) (rest : string) :
  PyStr.is_digit c = true -> starts_without_digit rest = true ->
  Json.scan_integer (String c rest) = Some (String c "", rest).
Proof.
  intros Hc Hr.
  destruct c as [[] [] [] [] [] [] [] []]; cbn in Hc; try discriminate Hc;
    cbn [Json.scan_integer String.append PyStr.is_digit];
    try rewrite (span_digits_no_digit rest Hr); reflexivity.
Qed.

Lemma scan_exp_two_digits (sign d1 d2 : ascii) (rest : string) :
  sign = "-"%char -> PyStr.is_digit d1 = true -> PyStr.is_digit d2 = true ->
  starts_without_digit rest = true ->
  Json.scan_exp (String "e" (String sign (String d1 (String d2 rest))))
  = (String "e" (String sign (String d1 (String d2 ""))), rest).
Proof.
  intros -> H1 H2 Hr. cbn [Json.scan_exp Ascii.eqb Bool.eqb andb orb Json.span_digits].
  rewrite H1, H2, (span_digits_no_digit rest Hr). reflexivity.
Qed.

Lemma scan_frac_no_point (c : ascii) (s : string) :
  c = "e"%char -> Json.scan_frac (String c s) = ("", String c s).
Proof. now intros ->. Qed.

(** A digit, an optional point and digit, and an exponent of two digits. *)
Lemma scan_number_exponent (c d1 d2 : ascii) (rest : string) :
  PyStr.is_digit c = true -> PyStr.is_digit d1 = true -> PyStr.is_digit d2 = true ->
  ends_value rest = true ->
  Json.scan_number (String c (String "e" (String "-" (String d1 (String d2 rest)))))
  = Some (JFloat (String c (String "e" (String "-" (String d1 (String d2 ""))))), rest).
Proof.
  intros Hc H1 H2 Hr. unfold Json.scan_number.
  rewrite scan_integer_digit by (exact Hc || reflexivity).
  cbn [mbind option_bind]. rewrite scan_frac_no_point by reflexivity.
  rewrite (scan_exp_two_digits "-" d1 d2 rest eq_refl H1 H2
             (ends_value_no_digit rest Hr)).
  reflexivity.
Qed.

Lemma scan_number_point_exponent (c c' d1 d2 : ascii) (rest : string) :
  PyStr.is_digit c = true -> PyStr.is_digit c' = true ->
  PyStr.is_digit d1 = true -> PyStr.is_digit d2 = true ->
  ends_value rest = true ->
  Json.scan_number
    (String c (String "." (String c' (String "e" (String "-" (String d1 (String d2 rest)))))))
  = Some (JFloat
            (String c (String "." (String c' (String "e" (String "-" (String d1 (String d2 ""))))))),
          rest).
Proof.
  intros Hc Hc' H1 H2 Hr. unfold Json.scan_number.
  rewrite scan_integer_digit by (exact Hc || reflexivity).
  cbn [mbind option_bind Json.scan_frac Json.span_digits].
  rewrite Hc'. cbn [PyStr.is_digit N_of_ascii N_of_digits].
  change (PyStr.is_digit "e") with false. cbn iota.
  rewrite (scan_exp_two_digits "-" d1 d2 rest eq_refl H1 H2
             (ends_value_no_digit rest Hr)).
  reflexivity.
Qed.

Lemma scan_number_fixed (q : Z) (c : ascii) (t rest : string) :
  PyStr.all_chars PyStr.is_digit (String c t) = true ->
  ends_value rest = true ->
  Json.scan_number (PyStr.of_int q +:+ "." +:+ String c t +:+ rest)
  = Some (JFloat (PyStr.of_int q +:+ "." +:+ String c t), rest).
Proof.
  intros Hd Hr. unfold Json.scan_number.
  rewrite scan_integer_of_int by reflexivity.
  cbn [mbind option_bind String.append Json.scan_frac].
  change (String c (t +:+ rest)) with (String c t +:+ rest).
  rewrite (span_digits_all _ rest Hd (ends_value_no_digit rest Hr)).
  rewrite scan_exp_end by exact Hr. cbn iota.
  now rewrite append_nil_r.
Qed.

Lemma scan_number_minus (c : ascii) (body lit rest : string) :
  PyStr.is_digit c = true ->
  Json.scan_number (String c body) = Some (JFloat lit, rest) ->
  Json.scan_number (String "-" (String c body)) = Some (JFloat (String "-" lit), rest).
Proof.
  intros Hc H. unfold Json.scan_number in *.
  destruct c as [[] [] [] [] [] [] [] []]; try solve [cbn in Hc; discriminate Hc];
    cbn [Json.scan_integer String.append mbind option_bind] in *;
    rewrite ?Hc in *;
    try destruct (Json.span_digits body) as [ds r];
    cbn [mbind option_bind] in *;
    match goal with
    | H : context [Json.scan_frac ?r] |- _ =>
        destruct (Json.scan_frac r) as [frac s2];
        destruct (Json.scan_exp s2) as [exp s3]
    end;
    destruct frac, exp; cbn in *;
    solve [ congruence
          | match goal with
            | H : context [NilEmpty.uint_of_string ?d] |- _ =>
                destruct (NilEmpty.uint_of_string d); cbn in H; discriminate H
            end ].
Qed.

Lemma repr_magnitude_literal (a : Z) :
  0 <= a ->
  exists c tail,
    Duration.repr_magnitude a = String c tail /\ PyStr.is_digit c = true
    /\ forall rest, ends_value rest = true ->
         Json.scan_number (Duration.repr_magnitude a +:+ rest)
         = Some (JFloat (Duration.repr_magnitude a), rest).
Proof.
  intros Ha. unfold Duration.repr_magnitude.
  destruct (a =? 0).
  { eexists _, _. split; [reflexivity|]. split; [reflexivity|].
    intros rest Hr. cbn [String.append]. unfold Json.scan_number.
    cbn [Json.scan_integer mbind option_bind String.append Json.scan_frac
         Json.span_digits].
    change (PyStr.is_digit "0") with true. cbn iota.
    rewrite (span_digits_no_digit rest (ends_value_no_digit rest Hr)).
    now rewrite scan_exp_end. }
  destruct (a <? 10).
  { eexists _, _. split; [reflexivity|]. split; [apply is_digit_digit_char|].
    intros rest Hr. cbn [String.append].
    now apply scan_number_exponent; try apply is_digit_digit_char. }
  destruct (a <? 100).
  { destruct (a mod 10 =? 0).
    - eexists _, _. split; [reflexivity|]. split; [apply is_digit_digit_char|].
      intros rest Hr. cbn [String.append].
      now apply scan_number_exponent; try apply is_digit_digit_char.
    - eexists _, _. split; [reflexivity|]. split; [apply is_digit_digit_char|].
      intros rest Hr. cbn [String.append].
      now apply scan_number_point_exponent; try apply is_digit_digit_char. }
  destruct (fraction_digits (a mod 1000000)) as (c & t & E & Hd);
    [apply Z.mod_pos_bound; lia|].
  rewrite E.
  destruct (of_int_head (a / 1000000)) as (c0 & tail0 & E0 & [Hc0|Hc0]).
  - exists c0, (tail0 +:+ "." +:+ String c t). split; [now rewrite E0|].
    split; [exact Hc0|]. intros rest Hr.
    rewrite !append_assoc. now apply scan_number_fixed.
  - exfalso. assert (Hq : 0 <= a / 1000000) by (apply Z.div_pos; lia).
    unfold PyStr.of_int in E0. destruct (a / 1000000) as [|p|p]; [|..|lia].
    + subst c0. discriminate E0.
    + pose proof (pos_to_uint_head p) as Hh. subst c0.
      cbn in E0. unfold NilZero.string_of_uint in E0.
      destruct (Pos.to_uint p); try contradiction; discriminate E0.
Qed.

(** The literal written for a duration is that of a number. *)
Lemma float_repr_literal (us : Z) : number_literal (Duration.float_repr us).
Proof.
  unfold Duration.float_repr.
  destruct (repr_magnitude_literal (Z.abs us) (Z.abs_nonneg us))
    as (c & tail & E & Hc & Hscan).
  destruct (us <? 0).
  - split.
    + eexists _, _. split; [reflexivity|]. now right.
    + intros rest Hr. cbn [String.append]. specialize (Hscan rest Hr).
      rewrite E in *. now apply scan_number_minus.
  - split.
    + exists c, tail. split; [exact E|]. now left.
    + intros rest Hr. now apply Hscan.
Qed.

Lemma strings_well_formed (l : list string) :
  well_formed (JArray (List.map JString l)).
Proof.
  apply wf_array, Forall_forall. intros j Hj.
  apply list_elem_of_In, in_map_iff in Hj as (s & <- & _). apply wf_string.
Qed.

Lemma json_data_well_formed (kw iso text : string) (o : options) (d : Z) :
  well_formed (json_data kw iso text o d).
Proof.
  unfold json_data.
  repeat first
    [ apply Forall_nil_2 | apply Forall_cons_2 | apply wf_object
    | apply wf_string | apply wf_int | apply wf_bool
    | apply strings_well_formed
    | apply wf_float, float_repr_literal ].
Qed.

Lemma json_data_fields (kw iso text : string) (o : options) (d : Z) :
  Json.get "keyword" (json_data kw iso text o d) = Some (JString kw)
  /\ Json.get "summary" (json_data kw iso text o d) = Some (JString text)
  /\ (Json.get "metadata" (json_data kw iso text o d) ≫= Json.get "depth")
     = Some (JInt (depth o)).
Proof. repeat split. Qed.

(** The run of one keyword with JSON output: the file holds the text of
    the record, and that text reads back as the record. *)
Lemma json_file_reads_back (e : env) (o : options) (kw : string) (w : world) :
  cooperative e -> output_format o = "json" ->
  process_keyword e o kw w = (Return (entry_after e o kw w), world_after e o kw w)
  /\ files (world_after e o kw w) !! output_path e o kw w
     = Some (Json.dumps (record_written e o kw w))
  /\ Json.loads (Json.dumps (record_written e o kw w))
     = Some (record_written e o kw w).
Proof.
  intros He Hj. split; [now apply process_keyword_run|]. split.
  - unfold world_after. cbn [files]. rewrite lookup_insert_eq.
    unfold file_text, is_json. now rewrite Hj.
  - apply loads_dumps, json_data_well_formed.
Qed.

(** C7: with JSON output, the file written for a keyword reads back as a
    record whose keyword is the keyword, whose summary is the working
    text as it stood after the optional transformation, and whose
    metadata give the depth of the options, as it was passed. *)
Theorem json_round_trip (e : env) (o : options) (kw : string) (w : world) :
  cooperative e -> output_format o = "json" ->
  exists entry w' content j,
    process_keyword e o kw w = (Return entry, w')
    /\ files w' !! entry_output_file entry = Some content
    /\ Json.loads content = Some j
    /\ Json.get "keyword" j = Some (JString kw)
    /\ Json.get "summary" j = Some (JString (working_text e o kw w))
    /\ (Json.get "metadata" j ≫= Json.get "depth") = Some (JInt (depth o)).
Proof.
  intros He Hj.
  destruct (json_file_reads_back e o kw w He Hj) as (Hrun & Hfile & Hload).
  exists (entry_after e o kw w), (world_after e o kw w),
         (Json.dumps (record_written e o kw w)), (record_written e o kw w).
  split; [exact Hrun|]. split; [exact Hfile|]. split; [exact Hload|].
  apply json_data_fields.
Qed.

Lemma json_round_trip_witness :
  cooperative Samples.quiet_env
  /\ output_format (resolve_options (Some Samples.deep_options)) = "json"
  /\ exists entry w' content j,
       process_keyword Samples.quiet_env (resolve_options (Some Samples.deep_options))
         "rust" initial_world = (Return entry, w')
       /\ files w' !! entry_output_file entry = Some content
       /\ Json.loads content = Some j
       /\ Json.get "keyword" j = Some (JString "rust")
       /\ Json.get "summary" j
          = Some (JString (working_text Samples.quiet_env
                             (resolve_options (Some Samples.deep_options))
                             "rust" initial_world))
       /\ (Json.get "metadata" j ≫= Json.get "depth") = Some (JInt 7).
Proof.
  split; [exact quiet_env_cooperative|]. split; [reflexivity|].
  exact (json_round_trip Samples.quiet_env (resolve_options (Some Samples.deep_options))
           "rust" initial_world quiet_env_cooperative eq_refl).
Defined.

Lemma one_keyword_run e opts w (kw : string) :
  cooperative e ->
  let o := resolve_options opts in
  search_and_summarize e (OneKeyword kw) opts w
  = (Return (<[ kw := entry_after e o kw w ]> ∅), world_after e o kw w).
Proof.
  intros He. cbv zeta. unfold search_and_summarize, process_keywords.
  unfold seq at 1. rewrite process_keyword_run by exact He. reflexivity.
Qed.

(** C10: in the multi-keyword variant with JSON output, the depth in the
    metadata of the file is the depth of the merged options as the caller
    gave it, while the instruction handed to the agent was built from the
    clamped depth: a depth of 7 is written as 7 and searched
    "exhaustively". *)
Theorem json_depth_is_not_clamped
    (e : env) (opts : partial_options) (kw : string) (w : world) (d : Z) :
  cooperative e ->
  p_depth opts = Some d -> p_output_format opts = Some "json" ->
  exists results w' entry content j adverb task,
    search_and_summarize e (OneKeyword kw) (Some opts) w = (Return results, w')
    /\ results !! kw = Some entry
    /\ files w' !! entry_output_file entry = Some content
    /\ Json.loads content = Some j
    /\ (Json.get "metadata" j ≫= Json.get "depth") = Some (JInt d)
    /\ agent_tasks w' = agent_tasks w ++ [task]
    /\ opens_with adverb kw task
    /\ adverb_of_depth (Z.min (Z.max d 1) 3) = Some adverb.
Proof.
  intros He Hd Hf. set (o := resolve_options (Some opts)).
  assert (Hdepth : depth o = d) by (unfold o; cbn; now rewrite Hd).
  assert (Hfmt : output_format o = "json") by (unfold o; cbn; now rewrite Hf).
  destruct (json_file_reads_back e o kw w He Hfmt) as (Hrun & Hfile & Hload).
  destruct (build_task_opens kw o) as (adv & task & Hadv & Htask & Hopen).
  exists (<[ kw := entry_after e o kw w ]> ∅), (world_after e o kw w),
         (entry_after e o kw w), (Json.dumps (record_written e o kw w)),
         (record_written e o kw w), adv, task.
  split; [now apply one_keyword_run|].
  split; [apply lookup_insert_eq|].
  split; [exact Hfile|]. split; [exact Hload|].
  split; [rewrite <- Hdepth; apply json_data_fields|].
  split.
  { unfold world_after. cbn [agent_tasks]. unfold task_of. now rewrite Htask. }
  split; [exact Hopen|].
  unfold depth_level in Hadv. now rewrite Hdepth in Hadv.
Qed.

Lemma json_depth_is_not_clamped_witness :
  cooperative Samples.quiet_env
  /\ exists results w' entry content j adverb task,
       search_and_summarize Samples.quiet_env (OneKeyword "rust")
         (Some Samples.deep_options) initial_world = (Return results, w')
       /\ results !! "rust" = Some entry
       /\ files w' !! entry_output_file entry = Some content
       /\ Json.loads content = Some j
       /\ (Json.get "metadata" j ≫= Json.get "depth") = Some (JInt 7)
       /\ agent_tasks w' = agent_tasks initial_world ++ [task]
       /\ opens_with adverb "rust" task
       /\ adverb_of_depth (Z.min (Z.max 7 1) 3) = Some adverb.
Proof.
  split; [exact quiet_env_cooperative|].
  exact (json_depth_is_not_clamped Samples.quiet_env Samples.deep_options "rust"
           initial_world 7 quiet_env_cooperative eq_refl eq_refl).
Defined.

(** * Concrete runs *)

Example margins :
  String.length margin16 = 16%nat /\ String.length margin12 = 12%nat.
Proof. split; reflexivity. Qed.

(** The scenario of the specification: one keyword, depth 1, text
    format, no blog style. *)
Example quantum_computing_txt :
  let o := {| depth := 1; output_format := "txt"; output_dir := ".";
              max_results := 10; focus_areas := []; language := "english";
              blog_style := false |} in
  let '(_, w) := process_keyword Samples.quiet_env o "quantum computing"
                   initial_world in
  agent_tasks w
  = ["Search briefly for information about 'quantum computing'. Find detailed facts, comparisons, and recent developments. Create a comprehensive summary with key points organized by subtopics. Include up to 10 most relevant findings."]
  /\ files w !! "./quantum_computing_20251103_120200.txt"
     = Some ("SUMMARY: quantum computing" +:+ PyStr.nl
             +:+ "Generated on: 2025-11-03 12:03:00" +:+ PyStr.nl
             +:+ "Three findings.")
  /\ llm_prompts w = [].
Proof. vm_compute. repeat split. Qed.

(** The text of a JSON file, and what it reads back as. *)
Example rust_json :
  let o := resolve_options (Some Samples.deep_options) in
  let record := record_written Samples.autumn_env o "rust" initial_world in
  Json.get "summary" record = Some (JString "Three findings.")
  /\ (Json.get "metadata" record ≫= Json.get "duration_seconds")
     = Some (JFloat "-3585.0")
  /\ (Json.get "metadata" record ≫= Json.get "depth") = Some (JInt 7)
  /\ Json.get "timestamp" record = Some (JString "2025-11-02T01:00:07")
  /\ Json.loads (Json.dumps record) = Some record.
Proof. vm_compute. repeat split. Qed.

Example float_reprs :
  List.map Duration.float_repr [0; 5; 50; 15; 100; 120; 1500000; 12345678]
  = ["0.0"; "5e-06"; "5e-05"; "1.5e-05"; "0.0001"; "0.00012"; "1.5"; "12.345678"].
Proof. reflexivity. Qed.

Example loads_rejects :
  Json.loads "[012]" = None /\ Json.loads "[1,]" = None
  /\ Json.loads "{ }" = Some (JObject [])
  /\ Json.loads " [1.5e3, -0, null] " = Some (JArray [JFloat "1.5e3"; JInt 0; JNull]).
Proof. repeat split. Qed.

(** * Runs over any list of keywords *)

Lemma process_keywords_run e o ks r w :
  cooperative e ->
  process_keywords e o ks r w
  = (Return (results_after e o ks r w), world_after_all e o ks w).
Proof.
  intros He. revert r w. induction ks as [|k ks IH]; intros r w; [reflexivity|].
  cbn [process_keywords results_after world_after_all]. unfold seq at 1.
  rewrite process_keyword_run by exact He. apply IH.
Qed.

Lemma process_keywords_app e o pre post r w :
  process_keywords e o (pre ++ post) r w
  = match process_keywords e o pre r w with
    | (Return r1, w1) => process_keywords e o post r1 w1
    | (Raise x, w1) => (Raise x, w1)
    end.
Proof.
  revert r w. induction pre as [|k pre IH]; intros r w; [reflexivity|].
  cbn [app process_keywords]. unfold seq.
  destruct (process_keyword e o k w) as [[entry|x] w1]; [apply IH|reflexivity].
Qed.

Lemma tasks_after_all e o ks w :
  agent_tasks (world_after_all e o ks w)
  = agent_tasks w ++ List.map (fun k => task_of k o) ks.
Proof.
  revert w. induction ks as [|k ks IH]; intros w; cbn [world_after_all List.map].
  - now rewrite app_nil_r.
  - rewrite IH. unfold world_after. cbn [agent_tasks]. now rewrite <- app_assoc.
Qed.

Lemma prompts_after_all e o ks w :
  length (llm_prompts (world_after_all e o ks w))
  = (length (llm_prompts w)
     + if wants_transform (blog_style o) (language o) then length ks else 0)%nat.
Proof.
  revert w. induction ks as [|k ks IH]; intros w; cbn [world_after_all].
  - destruct (wants_transform _ _); cbn; lia.
  - rewrite IH. unfold world_after. cbn [llm_prompts].
    destruct (wants_transform _ _); rewrite ?length_app; cbn; lia.
Qed.

Lemma files_grow e o ks w p :
  is_Some (files w !! p) -> is_Some (files (world_after_all e o ks w) !! p).
Proof.
  revert w. induction ks as [|k ks IH]; intros w H; cbn [world_after_all]; [exact H|].
  apply IH. unfold world_after. cbn [files].
  destruct (decide (output_path e o k w = p)) as [->|Hne].
  - rewrite lookup_insert_eq. eauto.
  - now rewrite lookup_insert_ne.
Qed.

Lemma results_after_lookup e o ks r w k :
  is_Some (results_after e o ks r w !! k) <-> k ∈ ks \/ is_Some (r !! k).
Proof.
  revert r w. induction ks as [|k' ks IH]; intros r w; cbn [results_after].
  - split; [auto|]. intros [H|H]; [|exact H]. now apply elem_of_nil in H.
  - rewrite IH, elem_of_cons.
    destruct (decide (k' = k)) as [->|Hne].
    + rewrite lookup_insert_eq. split; [auto|]. intros _. right. eauto.
    + rewrite lookup_insert_ne by exact Hne. split.
      * intros [H|H]; auto.
      * intros [[H|H]|H]; auto. congruence.
Qed.

Lemma results_after_files e o ks r w k entry :
  results_after e o ks r w !! k = Some entry ->
  r !! k = Some entry
  \/ is_Some (files (world_after_all e o ks w) !! entry_output_file entry).
Proof.
  revert r w. induction ks as [|k' ks IH]; intros r w; cbn [results_after world_after_all].
  - auto.
  - intros H. apply IH in H. destruct H as [H|H]; [|auto].
    destruct (decide (k' = k)) as [->|Hne].
    + rewrite lookup_insert_eq in H. injection H as <-. right.
      apply files_grow. unfold world_after, entry_after.
      cbn [files entry_output_file]. rewrite lookup_insert_eq. eauto.
    + rewrite lookup_insert_ne in H by exact Hne. auto.
Qed.

Lemma tasks_built (o : options) (ks : list string) :
  Forall2 (fun k task => build_task k o = Return task) ks
    (List.map (fun k => task_of k o) ks).
Proof.
  induction ks as [|k ks IH]; constructor; [|exact IH].
  apply task_of_built.
Qed.

(** X1: with collaborators that answer, a run over any list of keywords
    returns.  The agent is run once for each keyword of the list, in
    order, on the task built for it; the dict returned has an entry for
    exactly the keywords of the list; the file named by each entry
    exists when the run ends; and the LLM is called once for each keyword
    when a transformation is asked for, and not at all otherwise. *)
Theorem every_keyword_is_searched (e : env) (opts : option partial_options)
    (ks : list string) (w : world) :
  cooperative e ->
  exists results w' tasks,
    search_and_summarize e (KeywordList ks) opts w = (Return results, w')
    /\ agent_tasks w' = agent_tasks w ++ tasks
    /\ Forall2 (fun k task => build_task k (resolve_options opts) = Return task)
         ks tasks
    /\ (forall k, is_Some (results !! k) <-> k ∈ ks)
    /\ (forall k entry,
          results !! k = Some entry ->
          is_Some (files w' !! entry_output_file entry))
    /\ length (llm_prompts w')
       = (length (llm_prompts w)
          + if wants_transform (blog_style (resolve_options opts))
                 (language (resolve_options opts))
            then length ks else 0)%nat.
Proof.
  intros He. set (o := resolve_options opts).
  exists (results_after e o ks ∅ w), (world_after_all e o ks w),
    (List.map (fun k => task_of k o) ks).
  split; [apply (process_keywords_run e o ks ∅ w He)|].
  split; [apply tasks_after_all|].
  split; [apply tasks_built|].
  split; [|split].
  - intros k. rewrite results_after_lookup, lookup_empty. split.
    + intros [H|H]; [exact H|]. now destruct H.
    + auto.
  - intros k entry H. apply results_after_files in H.
    destruct H as [H|H]; [|exact H]. now rewrite lookup_empty in H.
  - apply prompts_after_all.
Qed.

Lemma every_keyword_is_searched_witness :
  exists results w' tasks,
    search_and_summarize Samples.quiet_env (KeywordList ["A"; "B"; "A"])
      (Some Samples.deep_options) initial_world = (Return results, w')
    /\ agent_tasks w' = agent_tasks initial_world ++ tasks
    /\ Forall2 (fun k task =>
                  build_task k (resolve_options (Some Samples.deep_options))
                  = Return task)
         ["A"; "B"; "A"] tasks
    /\ (forall k, is_Some (results !! k) <-> k ∈ ["A"; "B"; "A"])
    /\ (forall k entry,
          results !! k = Some entry ->
          is_Some (files w' !! entry_output_file entry))
    /\ length (llm_prompts w') = 0%nat.
Proof.
  exact (every_keyword_is_searched Samples.quiet_env (Some Samples.deep_options)
           ["A"; "B"; "A"] initial_world quiet_env_cooperative).
Defined.

Lemma results_after_dom e o ks r w :
  dom (results_after e o ks r w) = list_to_set ks ∪ dom r.
Proof.
  revert r w. induction ks as [|k ks IH]; intros r w; cbn [results_after].
  - now rewrite list_to_set_nil, (left_id_L ∅ (∪)).
  - rewrite IH, dom_insert_L, list_to_set_cons, (assoc_L (∪)).
    now rewrite (comm_L (∪) (list_to_set ks) {[ k ]}).
Qed.

Lemma results_after_last e o ks r w k entry :
  k ∉ ks -> r !! k = Some entry -> results_after e o ks r w !! k = Some entry.
Proof.
  revert r w. induction ks as [|k' ks IH]; intros r w Hk Hr; cbn [results_after].
  - exact Hr.
  - apply not_elem_of_cons in Hk as [Hne Hk].
    apply IH; [exact Hk|]. now rewrite lookup_insert_ne by congruence.
Qed.

(** X2: a keyword that occurs several times in the list is searched and
    written at each occurrence, but the dict returned keeps one entry for
    it, that of its last occurrence: the dict has as many entries as the
    list has distinct keywords, while the agent runs as many times as the
    list is long. *)
Theorem repeated_keyword_keeps_last_entry (e : env)
    (opts : option partial_options) (pre post : list string) (k : string)
    (w : world) :
  cooperative e ->
  k ∉ post ->
  exists results w' earlier w1 entry w2,
    search_and_summarize e (KeywordList (pre ++ k :: post)) opts w
    = (Return results, w')
    /\ process_keywords e (resolve_options opts) pre ∅ w = (Return earlier, w1)
    /\ process_keyword e (resolve_options opts) k w1 = (Return entry, w2)
    /\ results !! k = Some entry
    /\ size results = length (remove_dups (pre ++ k :: post))
    /\ length (agent_tasks w')
       = (length (agent_tasks w) + length (pre ++ k :: post))%nat.
Proof.
  intros He Hk. set (o := resolve_options opts).
  set (w1 := world_after_all e o pre w).
  set (earlier := results_after e o pre ∅ w).
  exists (results_after e o (pre ++ k :: post) ∅ w),
    (world_after_all e o (pre ++ k :: post) w),
    earlier, w1, (entry_after e o k w1), (world_after e o k w1).
  split; [apply (process_keywords_run e o _ ∅ w He)|].
  split; [apply (process_keywords_run e o _ ∅ w He)|].
  split; [apply (process_keyword_run e o k w1 He)|].
  split; [|split].
  - pose proof (process_keywords_app e o pre (k :: post) ∅ w) as Happ.
    rewrite !process_keywords_run in Happ by exact He.
    injection Happ as -> _. cbn [results_after].
    apply results_after_last; [exact Hk|]. apply lookup_insert_eq.
  - rewrite <- size_dom, results_after_dom, dom_empty_L, (right_id_L ∅ (∪)).
    rewrite <- (size_list_to_set (C := gset string) (remove_dups (pre ++ k :: post)))
      by apply NoDup_remove_dups.
    f_equal. apply set_eq. intros y.
    now rewrite !elem_of_list_to_set, elem_of_remove_dups.
  - rewrite tasks_after_all, length_app, length_map. reflexivity.
Qed.

Lemma repeated_keyword_keeps_last_entry_witness :
  exists results w' earlier w1 entry w2,
    search_and_summarize Samples.quiet_env (KeywordList (["A"; "B"] ++ "A" :: ["C"]))
      None initial_world
    = (Return results, w')
    /\ process_keywords Samples.quiet_env (resolve_options None) ["A"; "B"] ∅
         initial_world = (Return earlier, w1)
    /\ process_keyword Samples.quiet_env (resolve_options None) "A" w1
       = (Return entry, w2)
    /\ results !! "A" = Some entry
    /\ size results = length (remove_dups (["A"; "B"] ++ "A" :: ["C"]))
    /\ length (agent_tasks w')
       = (length (agent_tasks initial_world)
          + length (["A"; "B"] ++ "A" :: ["C"]))%nat.
Proof.
  apply (repeated_keyword_keeps_last_entry Samples.quiet_env None ["A"; "B"]
           ["C"] "A" initial_world quiet_env_cooperative).
  apply not_elem_of_cons. split; [discriminate|apply not_elem_of_nil].
Defined.

(** * Failures *)

Lemma save_result_failure e o kw r d w x w' :
  save_result e o kw r d w = (Raise x, w') ->
  files w' = files w /\ agent_tasks w' = agent_tasks w.
Proof.
  intros H.
  destruct (extract_text r) as [t|x0] eqn:Ht.
  2:{ unfold save_result in H. rewrite Ht in H. unfold seq at 1, lift at 1 in H.
      injection H as _ <-. auto. }
  destruct (wants_transform (blog_style o) (language o)) eqn:Hw.
  - destruct (llm_invoke e (length (llm_prompts w))
                (blog_prompt margin16 (PyStr.lower (language o)) t)) as [c|x1] eqn:Hc.
    + destruct (makedirs e (output_dir o)) as [[]|x2] eqn:Hmk.
      * destruct (open_for_writing e
                    (path_join (output_dir o)
                       (file_name kw (now e (clock_reads w))
                          (extension (output_format o))))) as [[]|x3] eqn:Hop.
        -- rewrite save_result_run with (t := t) in H;
             [discriminate H|exact Ht|eauto|exact Hmk|exact Hop].
        -- unfold save_result, transform in H. rewrite Ht, Hw in H.
           unfold seq at 1, lift at 1 in H. unfold seq at 1 in H.
           unfold seq at 1, print at 1, invoke_llm at 1 in H.
           cbn [llm_prompts] in H. rewrite Hc in H.
           unfold seq at 1, os_makedirs at 1 in H. rewrite Hmk in H.
           unfold seq at 1, datetime_now at 1 in H. cbn [clock_reads] in H.
           unfold seq at 1 in H.
           destruct (output_format o =? "json")%string.
           ++ unfold write_json, seq at 1, file_open at 1 in H.
              rewrite Hop in H. injection H as _ <-. auto.
           ++ unfold write_text, seq at 1, file_open at 1 in H.
              rewrite Hop in H. injection H as _ <-. auto.
      * unfold save_result, transform in H. rewrite Ht, Hw in H.
        unfold seq at 1, lift at 1 in H. unfold seq at 1 in H.
        unfold seq at 1, print at 1, invoke_llm at 1 in H.
        cbn [llm_prompts] in H. rewrite Hc in H.
        unfold seq at 1, os_makedirs at 1 in H. rewrite Hmk in H.
        injection H as _ <-. auto.
    + unfold save_result, transform in H. rewrite Ht, Hw in H.
      unfold seq at 1, lift at 1 in H. unfold seq at 1 in H.
      unfold seq at 1, print at 1, invoke_llm at 1 in H.
      cbn [llm_prompts] in H. rewrite Hc in H.
      injection H as _ <-. auto.
  - destruct (makedirs e (output_dir o)) as [[]|x2] eqn:Hmk.
    + destruct (open_for_writing e
                  (path_join (output_dir o)
                     (file_name kw (now e (clock_reads w))
                        (extension (output_format o))))) as [[]|x3] eqn:Hop.
      * rewrite save_result_run with (t := t) in H;
          [discriminate H|exact Ht|congruence|exact Hmk|exact Hop].
      * unfold save_result, transform in H. rewrite Ht, Hw in H.
        unfold seq at 1, lift at 1 in H. unfold seq at 1, ret at 1 in H.
        unfold seq at 1, os_makedirs at 1 in H. rewrite Hmk in H.
        unfold seq at 1, datetime_now at 1 in H. cbn [clock_reads] in H.
        unfold seq at 1 in H.
        destruct (output_format o =? "json")%string.
        -- unfold write_json, seq at 1, file_open at 1 in H.
           rewrite Hop in H. injection H as _ <-. auto.
        -- unfold write_text, seq at 1, file_open at 1 in H.
           rewrite Hop in H. injection H as _ <-. auto.
    + unfold save_result, transform in H. rewrite Ht, Hw in H.
      unfold seq at 1, lift at 1 in H. unfold seq at 1, ret at 1 in H.
      unfold seq at 1, os_makedirs at 1 in H. rewrite Hmk in H.
      injection H as _ <-. auto.
Qed.

Lemma process_keyword_failure e o kw w x w' :
  process_keyword e o kw w = (Raise x, w') ->
  files w' = files w /\ agent_tasks w' = agent_tasks w ++ [task_of kw o].
Proof.
  intros H. pose proof (process_keyword_tasks e o kw w) as Ht.
  rewrite H in Ht. split; [|exact Ht].
  unfold process_keyword in H. rewrite task_of_built in H.
  unfold seq at 1, lift at 1 in H. unfold seq at 1, print at 1 in H.
  unfold seq at 1, print at 1 in H. unfold seq at 1, datetime_now at 1 in H.
  unfold seq at 1, run_agent at 1 in H. cbn [agent_tasks clock_reads] in H.
  destruct (agent_run e (length (agent_tasks w)) (task_of kw o)) as [r|x0].
  - unfold seq at 1, datetime_now at 1 in H. cbn [clock_reads] in H.
    apply save_result_failure in H. destruct H as [H _]. exact H.
  - injection H as _ <-. reflexivity.
Qed.

(** X3: a run of one keyword that raises has written nothing: the files
    are as they were before it, whichever collaborator failed (the agent,
    the extraction, the LLM, the creation of the directory or the opening
    of the file), writing to an open file being taken not to fail.  The
    agent has been handed the task of the keyword all the same. *)
Theorem failed_keyword_writes_nothing (e : env) (o : options) (kw : string)
    (w w' : world) (x : exn) :
  process_keyword e o kw w = (Raise x, w') ->
  files w' = files w
  /\ exists task, build_task kw o = Return task
                  /\ agent_tasks w' = agent_tasks w ++ [task].
Proof.
  intros H. apply process_keyword_failure in H. destruct H as [Hf Ht].
  split; [exact Hf|]. exists (task_of kw o). split; [apply task_of_built|exact Ht].
Qed.

Lemma failed_keyword_writes_nothing_witness :
  exists x w',
    process_keyword Terminal.read_only_env default_options "rust async"
      initial_world = (Raise x, w')
    /\ files w' = files initial_world
    /\ exists task, build_task "rust async" default_options = Return task
                    /\ agent_tasks w' = agent_tasks initial_world ++ [task].
Proof.
  assert (H : exists x w',
             process_keyword Terminal.read_only_env default_options "rust async"
               initial_world = (Raise x, w')).
  { vm_compute. eauto. }
  destruct H as (x & w' & H). exists x, w'. split; [exact H|].
  exact (failed_keyword_writes_nothing _ _ _ _ _ _ H).
Defined.

(** X4: nothing in the loop catches an exception.  When the run of a
    keyword raises, the run of the whole list raises the same exception:
    the dict of the keywords already processed is not returned, their
    files stay as they were written, and no keyword after the failing one
    is handed to the agent. *)
Theorem failure_ends_the_run (e : env) (opts : option partial_options)
    (pre post : list string) (k : string) (w w1 w2 : world)
    (earlier : gmap string result_entry) (x : exn) :
  process_keywords e (resolve_options opts) pre ∅ w = (Return earlier, w1) ->
  process_keyword e (resolve_options opts) k w1 = (Raise x, w2) ->
  search_and_summarize e (KeywordList (pre ++ k :: post)) opts w = (Raise x, w2)
  /\ files w2 = files w1
  /\ exists task, build_task k (resolve_options opts) = Return task
                  /\ agent_tasks w2 = agent_tasks w1 ++ [task].
Proof.
  intros Hpre Hk. split.
  - unfold search_and_summarize. rewrite process_keywords_app, Hpre.
    cbn [process_keywords]. unfold seq. now rewrite Hk.
  - apply process_keyword_failure in Hk. destruct Hk as [Hf Ht].
    split; [exact Hf|]. exists (task_of k (resolve_options opts)).
    split; [apply task_of_built|exact Ht].
Qed.

Lemma failure_ends_the_run_witness :
  exists x w1 w2,
    search_and_summarize Terminal.failing_env (KeywordList (["A"] ++ "B" :: ["C"]))
      None initial_world = (Raise x, w2)
    /\ files w2 = files w1
    /\ exists task, build_task "B" (resolve_options None) = Return task
                    /\ agent_tasks w2 = agent_tasks w1 ++ [task].
Proof.
  assert (H1 : exists earlier w1,
             process_keywords Terminal.failing_env (resolve_options None) ["A"] ∅
               initial_world = (Return earlier, w1)).
  { vm_compute. eauto. }
  destruct H1 as (earlier & w1 & H1).
  assert (H2 : exists x w2,
             process_keyword Terminal.failing_env (resolve_options None) "B" w1
             = (Raise x, w2)).
  { destruct (process_keyword Terminal.failing_env (resolve_options None) "B" w1)
      as [[entry|x] w2] eqn:H; [|eauto].
    exfalso.
    pose proof (process_keyword_tasks Terminal.failing_env (resolve_options None)
                  "A" initial_world) as Ht.
    cbn [process_keywords] in H1. unfold seq in H1.
    destruct (process_keyword Terminal.failing_env (resolve_options None) "A"
                initial_world) as [[ea|xa] wa]; [|discriminate H1].
    injection H1 as _ <-. cbn [snd] in Ht.
    unfold process_keyword in H. rewrite task_of_built in H.
    unfold seq at 1, lift at 1 in H. unfold seq at 1, print at 1 in H.
    unfold seq at 1, print at 1 in H. unfold seq at 1, datetime_now at 1 in H.
    unfold seq at 1, run_agent at 1 in H. cbn [agent_tasks clock_reads] in H.
    rewrite Ht in H. discriminate H. }
  destruct H2 as (x & w2 & H2). exists x, w1, w2.
  exact (failure_ends_the_run Terminal.failing_env None ["A"] ["C"] "B"
           initial_world w1 w2 earlier x H1 H2).
Defined.

(** * The single-keyword variant *)

Lemma simple_save_result_keeps_directories e kw out lang blog r :
  keeps directories (simple_save_result e kw out lang blog r).
Proof. unfold simple_save_result. frame; destruct out as [[|? ?]|]; frame. Qed.

Lemma simple_keeps_directories e kw depth out lang blog :
  keeps directories (simple_search_and_summarize e kw depth out lang blog).
Proof.
  unfold simple_search_and_summarize. frame.
Qed.

Lemma simple_save_result_keeps_tasks e kw out lang blog r :
  keeps agent_tasks (simple_save_result e kw out lang blog r).
Proof. unfold simple_save_result. frame; destruct out as [[|? ?]|]; frame. Qed.

Lemma simple_save_result_inversion e kw out lang blog r w p w' :
  simple_save_result e kw out lang blog r w = (Return p, w') ->
  exists t,
    extract_text r = Return t
    /\ (wants_transform blog lang = true ->
        exists c, llm_invoke e (length (llm_prompts w))
                    (blog_prompt margin12 (PyStr.lower lang) t) = Return c)
    /\ open_for_writing e (simple_output_path e kw out w) = Return tt.
Proof.
  intros H. unfold simple_save_result in H.
  destruct (extract_text r) as [t|x] eqn:Ht; [|discriminate H].
  exists t. split; [reflexivity|].
  unfold seq at 1, lift at 1 in H. unfold transform in H.
  destruct (wants_transform blog lang).
  - unfold seq at 1 in H. unfold seq at 1 in H.
    unfold print at 1, invoke_llm at 1 in H. cbn [llm_prompts] in H.
    destruct (llm_invoke e (length (llm_prompts w))
                (blog_prompt margin12 (PyStr.lower lang) t)) as [c|x] eqn:Hc;
      [|discriminate H].
    split; [eauto|].
    unfold simple_output_path.
    destruct out as [[|c0 f]|]; unfold seq at 1, ret at 1, datetime_now at 1 in H;
      try unfold seq at 1 in H; cbn [clock_reads] in H;
      unfold seq at 1, file_open at 1 in H;
      match type of H with
      | context [open_for_writing e ?q] =>
          destruct (open_for_writing e q) as [[]|x]; [reflexivity|discriminate H]
      end.
  - split; [discriminate|].
    unfold seq at 1, ret at 1 in H. unfold simple_output_path.
    destruct out as [[|c0 f]|]; unfold seq at 1, ret at 1, datetime_now at 1 in H;
      try unfold seq at 1 in H; cbn [clock_reads] in H;
      unfold seq at 1, file_open at 1 in H;
      match type of H with
      | context [open_for_writing e ?q] =>
          destruct (open_for_writing e q) as [[]|x]; [reflexivity|discriminate H]
      end.
Qed.

Lemma simple_save_result_failure e kw out lang blog r w x w' :
  simple_save_result e kw out lang blog r w = (Raise x, w') ->
  files w' = files w.
Proof.
  intros H.
  destruct (extract_text r) as [t|x0] eqn:Ht.
  2:{ unfold simple_save_result in H. rewrite Ht in H.
      unfold seq at 1, lift at 1 in H. now injection H as _ <-. }
  destruct (wants_transform blog lang) eqn:Hw.
  - destruct (llm_invoke e (length (llm_prompts w))
                (blog_prompt margin12 (PyStr.lower lang) t)) as [c|x1] eqn:Hc.
    + destruct (open_for_writing e (simple_output_path e kw out w))
        as [[]|x3] eqn:Hop.
      * destruct (simple_save_result_run e kw out lang blog r t w Ht) as (w2 & H2 & _);
          [eauto|exact Hop|]. rewrite H2 in H. discriminate H.
      * unfold simple_save_result, transform in H. rewrite Ht, Hw in H.
        unfold seq at 1, lift at 1 in H. unfold seq at 1 in H.
        unfold seq at 1, print at 1, invoke_llm at 1 in H.
        cbn [llm_prompts] in H. rewrite Hc in H.
        unfold simple_output_path in Hop.
        destruct out as [[|c0 f]|];
          unfold seq at 1, ret at 1, datetime_now at 1 in H;
          try unfold seq at 1 in H; cbn [clock_reads] in H;
          unfold seq at 1, file_open at 1 in H; rewrite Hop in H;
          now injection H as _ <-.
    + unfold simple_save_result, transform in H. rewrite Ht, Hw in H.
      unfold seq at 1, lift at 1 in H. unfold seq at 1 in H.
      unfold seq at 1, print at 1, invoke_llm at 1 in H.
      cbn [llm_prompts] in H. rewrite Hc in H. now injection H as _ <-.
  - destruct (open_for_writing e (simple_output_path e kw out w))
      as [[]|x3] eqn:Hop.
    + destruct (simple_save_result_run e kw out lang blog r t w Ht) as (w2 & H2 & _);
        [congruence|exact Hop|]. rewrite H2 in H. discriminate H.
    + unfold simple_save_result, transform in H. rewrite Ht, Hw in H.
      unfold seq at 1, lift at 1 in H. unfold seq at 1, ret at 1 in H.
      unfold simple_output_path in Hop.
      destruct out as [[|c0 f]|];
        unfold seq at 1, ret at 1, datetime_now at 1 in H;
        try unfold seq at 1 in H; cbn [clock_reads] in H;
        unfold seq at 1, file_open at 1 in H; rewrite Hop in H;
        now injection H as _ <-.
Qed.

(** X5: the single-keyword variant never creates a directory, whatever
    the outcome of the run: the directories are the same after a run
    that returns and after a run that raises.  Whatever the outcome, the
    agent has been run once, on the task of the keywords.  And a run
    that raises has written nothing. *)
Theorem simple_failure_writes_nothing (e : env) (kw : string) (depth : Z)
    (out : option string) (lang : string) (blog : bool) (w : world) :
  directories (simple_search_and_summarize e kw depth out lang blog w).2
  = directories w
  /\ agent_tasks (simple_search_and_summarize e kw depth out lang blog w).2
     = agent_tasks w ++ [simple_build_task kw depth]
  /\ forall x w',
       simple_search_and_summarize e kw depth out lang blog w = (Raise x, w') ->
       files w' = files w.
Proof.
  split; [apply simple_keeps_directories|]. split.
  - unfold simple_search_and_summarize.
    unfold seq at 1, print at 1. unfold seq at 1, print at 1.
    unfold seq at 1, run_agent at 1. cbn [agent_tasks].
    destruct (agent_run e (length (agent_tasks w)) (simple_build_task kw depth))
      as [r|x0]; [|reflexivity].
    now rewrite simple_save_result_keeps_tasks.
  - intros x w' H. unfold simple_search_and_summarize in H.
    unfold seq at 1, print at 1 in H. unfold seq at 1, print at 1 in H.
    unfold seq at 1, run_agent at 1 in H. cbn [agent_tasks] in H.
    destruct (agent_run e (length (agent_tasks w)) (simple_build_task kw depth))
      as [r|x0].
    + now apply simple_save_result_failure in H.
    + now injection H as _ <-.
Qed.

(** A run that raises, the file system refusing the file, and a run that
    returns. *)
Lemma simple_failure_writes_nothing_witness :
  (exists x w',
     simple_search_and_summarize Terminal.read_only_env "rust async" 2
       (Some "notes/rust.md") "english" false initial_world = (Raise x, w')
     /\ files w' = files initial_world
     /\ directories w' = directories initial_world
     /\ agent_tasks w'
        = agent_tasks initial_world ++ [simple_build_task "rust async" 2])
  /\ (exists p w',
        simple_search_and_summarize Samples.quiet_env "rust async" 2
          None "english" false initial_world = (Return p, w')
        /\ directories w' = directories initial_world
        /\ agent_tasks w'
           = agent_tasks initial_world ++ [simple_build_task "rust async" 2]).
Proof.
  split.
  - assert (H : exists x w',
               simple_search_and_summarize Terminal.read_only_env "rust async" 2
                 (Some "notes/rust.md") "english" false initial_world
               = (Raise x, w')).
    { vm_compute. eauto. }
    destruct H as (x & w' & H). exists x, w'. split; [exact H|].
    destruct (simple_failure_writes_nothing Terminal.read_only_env "rust async" 2
                (Some "notes/rust.md") "english" false initial_world)
      as (Hd & Ht & Hf).
    rewrite H in Hd, Ht. split; [exact (Hf x w' H)|]. split; [exact Hd|exact Ht].
  - assert (H : exists p w',
               simple_search_and_summarize Samples.quiet_env "rust async" 2
                 None "english" false initial_world = (Return p, w')).
    { vm_compute. eauto. }
    destruct H as (p & w' & H). exists p, w'. split; [exact H|].
    destruct (simple_failure_writes_nothing Samples.quiet_env "rust async" 2
                None "english" false initial_world) as (Hd & Ht & _).
    rewrite H in Hd, Ht. split; [exact Hd|exact Ht].
Defined.

Lemma simple_inversion e kw depth out lang blog w p w' :
  simple_search_and_summarize e kw depth out lang blog w = (Return p, w') ->
  exists r t,
    agent_run e (length (agent_tasks w)) (simple_build_task kw depth) = Return r
    /\ extract_text r = Return t
    /\ (wants_transform blog lang = true ->
        exists c, llm_invoke e (length (llm_prompts w))
                    (blog_prompt margin12 (PyStr.lower lang) t) = Return c)
    /\ open_for_writing e (simple_output_path e kw out w) = Return tt.
Proof.
  intros H. unfold simple_search_and_summarize in H.
  unfold seq at 1, print at 1 in H. unfold seq at 1, print at 1 in H.
  unfold seq at 1, run_agent at 1 in H. cbn [agent_tasks] in H.
  destruct (agent_run e (length (agent_tasks w)) (simple_build_task kw depth))
    as [r|x0] eqn:Hr; [|discriminate H].
  apply simple_save_result_inversion in H. destruct H as (t & Ht & Hllm & Hop).
  exists r, t. auto.
Qed.

(** X6: when the single-keyword variant is given a non-empty
    [output_file] and returns, it returns that very path, whatever the
    keywords and the clock.  It has created no directory on the way, and
    the file at that path holds what this run wrote and nothing of what it
    held before: the two header lines unless a blog article was asked for,
    then the working text. *)
Theorem simple_explicit_output_file (e : env) (kw : string) (depth : Z)
    (c : ascii) (f : string) (lang : string) (blog : bool) (w w' : world)
    (p : string) :
  simple_search_and_summarize e kw depth (Some (String c f)) lang blog w
  = (Return p, w') ->
  p = String c f
  /\ directories w' = directories w
  /\ files w'
     = <[ String c f :=
            simple_header kw blog (now e (clock_reads w))
            +:+ simple_working_text e kw depth lang blog w ]> (files w).
Proof.
  intros H.
  pose proof (simple_keeps_directories e kw depth (Some (String c f)) lang blog w)
    as Hd.
  rewrite H in Hd. cbn [snd] in Hd.
  destruct (simple_inversion _ _ _ _ _ _ _ _ _ H) as (r & t & Hr & Ht & Hllm & Hop).
  destruct (simple_run_with e kw depth (Some (String c f)) lang blog w r t
              Hr Ht Hllm Hop) as (w2 & Hrun & Hf & _).
  rewrite Hrun in H. injection H as <- <-.
  split; [reflexivity|]. split; [exact Hd|exact Hf].
Qed.

Lemma simple_explicit_output_file_witness :
  exists p w',
    simple_search_and_summarize Samples.quiet_env "rust async" 2
      (Some "notes/rust.md") "english" false initial_world = (Return p, w')
    /\ p = "notes/rust.md"
    /\ directories w' = directories initial_world
    /\ files w'
       = <[ "notes/rust.md" :=
              simple_header "rust async" false (now Samples.quiet_env 0)
              +:+ simple_working_text Samples.quiet_env "rust async" 2 "english"
                    false initial_world ]> (files initial_world).
Proof.
  assert (H : exists p w',
             simple_search_and_summarize Samples.quiet_env "rust async" 2
               (Some "notes/rust.md") "english" false initial_world
             = (Return p, w')).
  { vm_compute. eauto. }
  destruct H as (p & w' & H). exists p, w'. split; [exact H|].
  exact (simple_explicit_output_file _ _ _ _ _ _ _ _ _ _ H).
Defined.

(** * Where the files go *)

(** X7: two different keywords that differ only by spaces and
    separators, processed within the same second, are given the same file
    name.  The dict returned has an entry for each, both naming the same
    file; the run leaves that one file, holding what was written for the
    second keyword, and the summary of the first is lost. *)
Theorem same_second_collision (e : env) (opts : option partial_options)
    (a b : string) (w : world) :
  cooperative e -> frozen_clock e ->
  a <> b -> safe_keyword a = safe_keyword b ->
  exists results w1 w' ea eb,
    search_and_summarize e (KeywordList [a; b]) opts w = (Return results, w')
    /\ process_keyword e (resolve_options opts) a w = (Return ea, w1)
    /\ process_keyword e (resolve_options opts) b w1 = (Return eb, w')
    /\ results !! a = Some ea /\ results !! b = Some eb
    /\ entry_output_file ea = entry_output_file eb
    /\ files w'
       = <[ entry_output_file eb := file_text e (resolve_options opts) b w1 ]>
           (files w).
Proof.
  intros He Hfrozen Hab Hsafe. set (o := resolve_options opts).
  exists (<[ b := entry_after e o b (world_after e o a w) ]>
            (<[ a := entry_after e o a w ]> ∅)),
    (world_after e o a w), (world_after e o b (world_after e o a w)),
    (entry_after e o a w), (entry_after e o b (world_after e o a w)).
  assert (Hpath : output_path e o a w = output_path e o b (world_after e o a w)).
  { unfold output_path, file_name. rewrite Hsafe.
    now rewrite (Hfrozen (S (S (clock_reads w)))
                   (S (S (clock_reads (world_after e o a w))))). }
  split; [apply (two_keywords_run e opts w a b He)|].
  split; [apply (process_keyword_run e o a w He)|].
  split; [apply (process_keyword_run e o b _ He)|].
  split; [|split; [|split]].
  - rewrite lookup_insert_ne by congruence. apply lookup_insert_eq.
  - apply lookup_insert_eq.
  - exact Hpath.
  - unfold entry_after. cbn [entry_output_file].
    unfold world_after at 1. cbn [files].
    unfold world_after at 2. cbn [files].
    rewrite <- Hpath. apply insert_insert_eq.
Qed.

Lemma frozen_env_cooperative : cooperative Terminal.frozen_env.
Proof.
  split.
  - intros n task. exists (Samples.with_text "Three findings."), "Three findings.".
    split; reflexivity.
  - intros n p. now exists "Rewritten as an article.".
  - reflexivity.
  - reflexivity.
Qed.

Lemma same_second_collision_witness :
  exists results w1 w' ea eb,
    search_and_summarize Terminal.frozen_env (KeywordList ["a b"; "a/b"]) None
      initial_world = (Return results, w')
    /\ process_keyword Terminal.frozen_env (resolve_options None) "a b"
         initial_world = (Return ea, w1)
    /\ process_keyword Terminal.frozen_env (resolve_options None) "a/b" w1
       = (Return eb, w')
    /\ results !! "a b" = Some ea /\ results !! "a/b" = Some eb
    /\ entry_output_file ea = entry_output_file eb
    /\ files w'
       = <[ entry_output_file eb :=
              file_text Terminal.frozen_env (resolve_options None) "a/b" w1 ]>
           (files initial_world).
Proof.
  apply (same_second_collision Terminal.frozen_env None "a b" "a/b" initial_world
           frozen_env_cooperative).
  - intros n m. reflexivity.
  - discriminate.
  - reflexivity.
Defined.

Lemma all_chars_weaken (p q : ascii -> bool) (s : string) :
  (forall c, p c = true -> q c = true) ->
  PyStr.all_chars p s = true -> PyStr.all_chars q s = true.
Proof.
  intros Hpq. induction s as [|c s IH]; simpl; [auto|].
  intros H. apply andb_prop in H as [Hc Hs]. now rewrite (Hpq c Hc), IH.
Qed.

Lemma digit_not_separator (c : ascii) :
  PyStr.is_digit c = true -> negb (is_separator c) = true.
Proof.
  intros H. unfold is_separator.
  destruct (Ascii.eqb_spec c " ") as [->|_]; [discriminate H|].
  destruct (Ascii.eqb_spec c "/") as [->|_]; [discriminate H|].
  destruct (Ascii.eqb_spec c "\") as [->|_]; [discriminate H|reflexivity].
Qed.

Lemma underscored_plain (kw : string) : plain_name (underscored kw).
Proof.
  unfold plain_name, underscored.
  induction kw as [|c kw IH]; [reflexivity|].
  cbn [map_chars PyStr.all_chars]. rewrite IH, andb_true_r.
  destruct (is_separator c) eqn:Hc; [reflexivity|now rewrite Hc].
Qed.

Lemma file_name_plain (kw : string) (stamp : datetime) (fmt : string) :
  Datetime.valid stamp = true ->
  plain_name (file_name kw stamp (extension fmt)).
Proof.
  intros Hv. destruct (strftime_compact_token stamp Hv) as [Htok _].
  destruct Htok as (date & time & Heq & _ & _ & Hd & Ht).
  unfold plain_name, file_name. rewrite Heq, safe_keyword_underscored.
  rewrite !all_chars_append.
  rewrite (underscored_plain kw).
  rewrite (all_chars_weaken _ _ date digit_not_separator Hd).
  rewrite (all_chars_weaken _ _ time digit_not_separator Ht).
  unfold extension.
  destruct (fmt =? "json")%string; [reflexivity|].
  destruct (fmt =? "markdown")%string; reflexivity.
Qed.

Lemma files_changed e o ks w p :
  files (world_after_all e o ks w) !! p <> files w !! p ->
  exists k w0, k ∈ ks /\ p = output_path e o k w0.
Proof.
  revert w. induction ks as [|k ks IH]; intros w H; cbn [world_after_all] in H.
  - now contradiction H.
  - destruct (decide (files (world_after_all e o ks (world_after e o k w)) !! p
                      = files (world_after e o k w) !! p)) as [Heq|Hne].
    + exists k, w. split; [apply elem_of_cons; auto|].
      destruct (decide (output_path e o k w = p)) as [<-|Hp]; [reflexivity|].
      exfalso. apply H. rewrite Heq. unfold world_after. cbn [files].
      now rewrite lookup_insert_ne.
    + destruct (IH _ Hne) as (k' & w0 & Hk & Hp).
      exists k', w0. split; [apply elem_of_cons; auto|exact Hp].
Qed.

(** X8: with collaborators that answer and a clock that gives dates, a
    run over any list of keywords touches no file but the ones it names:
    a path whose content differs after the run is [output_dir] joined with
    the file name derived from a keyword of the list, and that name holds
    no space, slash or backslash, whatever the keyword holds, so that the
    file lies in [output_dir] itself. *)
Theorem files_land_in_output_dir (e : env) (opts : option partial_options)
    (ks : list string) (w : world) :
  cooperative e -> valid_clock e ->
  exists results w',
    search_and_summarize e (KeywordList ks) opts w = (Return results, w')
    /\ forall p,
         files w' !! p <> files w !! p ->
         exists k stamp name,
           k ∈ ks
           /\ name = file_name k stamp
                       (extension (output_format (resolve_options opts)))
           /\ plain_name name
           /\ p = path_join (output_dir (resolve_options opts)) name.
Proof.
  intros He Hv. set (o := resolve_options opts).
  exists (results_after e o ks ∅ w), (world_after_all e o ks w).
  split; [apply (process_keywords_run e o ks ∅ w He)|].
  intros p Hp. apply files_changed in Hp. destruct Hp as (k & w0 & Hk & ->).
  exists k, (now e (S (S (clock_reads w0)))), (file_name k (now e (S (S (clock_reads w0))))
                 (extension (output_format o))).
  split; [exact Hk|]. split; [reflexivity|].
  split; [apply file_name_plain, Hv|reflexivity].
Qed.

Lemma files_land_in_output_dir_witness :
  exists results w',
    search_and_summarize Samples.quiet_env (KeywordList ["a/b c"; "../etc"])
      None initial_world = (Return results, w')
    /\ forall p,
         files w' !! p <> files initial_world !! p ->
         exists k stamp name,
           k ∈ ["a/b c"; "../etc"]
           /\ name = file_name k stamp
                       (extension (output_format (resolve_options None)))
           /\ plain_name name
           /\ p = path_join (output_dir (resolve_options None)) name.
Proof.
  exact (files_land_in_output_dir Samples.quiet_env None ["a/b c"; "../etc"]
           initial_world quiet_env_cooperative quiet_env_valid_clock).
Defined.

(** * What the file holds *)

(** X9: when a transformation is asked for and the format is not JSON,
    the file holds the header lines followed by the answer of the LLM:
    the text extracted from the agent's result goes into the prompt and
    nowhere else.  With [blog_style] set there is no header, and the file
    is the answer of the LLM, byte for byte.  A keyword passed as a string
    is one keyword, and the dict has that one entry. *)
Theorem transformed_file_is_llm_answer (e : env) (opts : option partial_options)
    (kw : string) (w : world) :
  cooperative e ->
  transformation_requested (blog_style (resolve_options opts))
    (language (resolve_options opts)) ->
  output_format (resolve_options opts) <> "json" ->
  exists results w' entry task r t c,
    search_and_summarize e (OneKeyword kw) opts w = (Return results, w')
    /\ results = {[ kw := entry ]}
    /\ build_task kw (resolve_options opts) = Return task
    /\ agent_run e (length (agent_tasks w)) task = Return r
    /\ extract_text r = Return t
    /\ llm_invoke e (length (llm_prompts w))
         (blog_prompt margin16 (PyStr.lower (language (resolve_options opts))) t)
       = Return c
    /\ files w' !! entry_output_file entry
       = Some (header_text (resolve_options opts) kw (now e (3 + clock_reads w))
               +:+ c)
    /\ (blog_style (resolve_options opts) = true ->
        files w' !! entry_output_file entry = Some c).
Proof.
  intros He Hreq Hfmt. set (o := resolve_options opts) in *.
  apply wants_transform_requested in Hreq.
  destruct (agent_returns e He (length (agent_tasks w)) (task_of kw o))
    as (r & t & Hr & Ht).
  destruct (llm_returns e He (length (llm_prompts w))
              (blog_prompt margin16 (PyStr.lower (language o)) t)) as [c Hc].
  destruct (process_keyword_run_with e o kw w r t Hr Ht) as [Hx _].
  { intros _. now exists c. }
  { apply (makedirs_succeeds e He). }
  { apply (open_succeeds e He). }
  exists (<[ kw := entry_after e o kw w ]> ∅), (world_after e o kw w),
    (entry_after e o kw w), (task_of kw o), r, t, c.
  split; [apply (one_keyword_run e opts w kw He)|].
  split; [reflexivity|]. split; [apply task_of_built|].
  split; [exact Hr|]. split; [exact Ht|]. split; [exact Hc|].
  assert (Hfile : files (world_after e o kw w) !! output_path e o kw w
                  = Some (header_text o kw (now e (3 + clock_reads w)) +:+ c)).
  { unfold world_after. cbn [files]. rewrite lookup_insert_eq.
    unfold file_text, is_json. apply String.eqb_neq in Hfmt. rewrite Hfmt.
    unfold header, working_text, prompt. rewrite Hreq, Hx.
    unfold llm_content. now rewrite Hc. }
  split; [exact Hfile|].
  intros Hb. unfold entry_after. cbn [entry_output_file]. rewrite Hfile.
  unfold header_text. now rewrite Hb.
Qed.

Lemma transformed_file_is_llm_answer_witness :
  exists results w' entry task r t c,
    search_and_summarize Samples.quiet_env (OneKeyword "rust, go")
      (Some Terminal.french_article) initial_world = (Return results, w')
    /\ results = {[ "rust, go" := entry ]}
    /\ build_task "rust, go" (resolve_options (Some Terminal.french_article))
       = Return task
    /\ agent_run Samples.quiet_env (length (agent_tasks initial_world)) task
       = Return r
    /\ extract_text r = Return t
    /\ llm_invoke Samples.quiet_env (length (llm_prompts initial_world))
         (blog_prompt margin16
            (PyStr.lower (language (resolve_options (Some Terminal.french_article))))
            t)
       = Return c
    /\ files w' !! entry_output_file entry
       = Some (header_text (resolve_options (Some Terminal.french_article))
                 "rust, go" (now Samples.quiet_env (3 + clock_reads initial_world))
               +:+ c)
    /\ (blog_style (resolve_options (Some Terminal.french_article)) = true ->
        files w' !! entry_output_file entry = Some c).
Proof.
  apply (transformed_file_is_llm_answer Samples.quiet_env
           (Some Terminal.french_article) "rust, go" initial_world
           quiet_env_cooperative).
  - left. reflexivity.
  - discriminate.
Defined.

(** X10: with JSON output, the file of a keyword is named after the
    third reading of the clock in the run of that keyword, and reads back
    as a record whose timestamp is the fourth reading in ISO format and
    whose metadata give the focus areas, the language and the blog-style
    flag of the options as they were passed, and as duration the one the
    entry of the dict carries. *)
Theorem json_metadata_reads_back (e : env) (o : options) (kw : string)
    (w : world) :
  cooperative e -> output_format o = "json" ->
  exists entry w' content j meta,
    process_keyword e o kw w = (Return entry, w')
    /\ entry_output_file entry
       = path_join (output_dir o)
           (file_name kw (now e (2 + clock_reads w)) "json")
    /\ files w' !! entry_output_file entry = Some content
    /\ Json.loads content = Some j
    /\ Json.get "timestamp" j
       = Some (JString (Datetime.isoformat (now e (3 + clock_reads w))))
    /\ Json.get "metadata" j = Some meta
    /\ Json.get "focus_areas" meta
       = Some (JArray (List.map JString (focus_areas o)))
    /\ Json.get "duration_seconds" meta
       = Some (JFloat (Duration.float_repr (duration_microseconds entry)))
    /\ Json.get "language" meta = Some (JString (language o))
    /\ Json.get "blog_style" meta = Some (JBool (blog_style o)).
Proof.
  intros He Hj.
  destruct (json_file_reads_back e o kw w He Hj) as (Hrun & Hfile & Hload).
  exists (entry_after e o kw w), (world_after e o kw w),
    (Json.dumps (record_written e o kw w)), (record_written e o kw w),
    (JObject [
       ("depth", JInt (depth o));
       ("focus_areas", JArray (List.map JString (focus_areas o)));
       ("duration_seconds", JFloat (Duration.float_repr (duration e w)));
       ("language", JString (language o));
       ("blog_style", JBool (blog_style o)) ]).
  split; [exact Hrun|].
  split; [unfold entry_after, output_path; cbn [entry_output_file]; now rewrite Hj|].
  split; [exact Hfile|]. split; [exact Hload|].
  repeat (split; [reflexivity|]). reflexivity.
Qed.

Lemma json_metadata_reads_back_witness :
  exists entry w' content j meta,
    process_keyword Samples.quiet_env (resolve_options (Some Samples.deep_options))
      "rust" initial_world = (Return entry, w')
    /\ entry_output_file entry
       = path_join (output_dir (resolve_options (Some Samples.deep_options)))
           (file_name "rust" (now Samples.quiet_env 2) "json")
    /\ files w' !! entry_output_file entry = Some content
    /\ Json.loads content = Some j
    /\ Json.get "timestamp" j
       = Some (JString (Datetime.isoformat (now Samples.quiet_env 3)))
    /\ Json.get "metadata" j = Some meta
    /\ Json.get "focus_areas" meta = Some (JArray [])
    /\ Json.get "duration_seconds" meta
       = Some (JFloat (Duration.float_repr (duration_microseconds entry)))
    /\ Json.get "language" meta = Some (JString "english")
    /\ Json.get "blog_style" meta = Some (JBool false).
Proof.
  exact (json_metadata_reads_back Samples.quiet_env
           (resolve_options (Some Samples.deep_options)) "rust" initial_world
           quiet_env_cooperative eq_refl).
Defined.

(** * Construction *)

Lemma has_nul_holds (s : string) : has_nul s = true <-> holds_nul s.
Proof.
  unfold holds_nul. induction s as [|c s IH]; cbn [has_nul list_ascii_of_string].
  - split; [discriminate|]. intros H. now apply elem_of_nil in H.
  - rewrite orb_true_iff, IH, elem_of_cons, Ascii.eqb_eq. split.
    + intros [->|H]; auto.
    + intros [<-|H]; auto.
Qed.

Lemma set_api_key_refused (key : string) (environ : gmap string string) :
  holds_nul key ->
  set_api_key (Some key) environ = (Raise (OtherError "ValueError"), environ).
Proof.
  intros H. apply has_nul_holds in H. destruct key as [|c s]; [discriminate H|].
  cbn [set_api_key]. now rewrite H.
Qed.

Lemma set_api_key_written (key : string) (environ : gmap string string) :
  key <> "" -> ~ holds_nul key ->
  set_api_key (Some key) environ
  = (Return tt, <[ "OPENAI_API_KEY" := key ]> environ).
Proof.
  intros Hne Hnul. destruct key as [|c s]; [now contradiction Hne|].
  cbn [set_api_key].
  destruct (has_nul (String c s)) eqn:H; [|reflexivity].
  apply has_nul_holds in H. contradiction.
Qed.

Lemma attempt_environ {handle : Type}
    (chat_openai : string -> gmap string string -> outcome handle)
    (c : construction) (environ : gmap string string) :
  (attempt chat_openai c environ).2 = (set_api_key (key_given c) environ).2.
Proof.
  destruct c as [key model|key]; cbn [attempt key_given];
    unfold advanced_init, simple_init;
    destruct (set_api_key key environ) as [[[]|x] environ']; reflexivity.
Qed.

Lemma attempt_outcome {handle : Type}
    (chat_openai : string -> gmap string string -> outcome handle)
    (c : construction) (environ : gmap string string) :
  attempt chat_openai c environ
  = match set_api_key (key_given c) environ with
    | (Raise x, environ') => (Raise x, environ')
    | (Return _, environ') => (chat_openai (model_asked c) environ', environ')
    end.
Proof. destruct c as [key model|key]; reflexivity. Qed.

Lemma set_api_key_environ (key : option string) (environ : gmap string string) :
  (set_api_key key environ).2
  = match key_written_of key with
    | Some k => <[ "OPENAI_API_KEY" := k ]> environ
    | None => environ
    end.
Proof.
  unfold key_written_of. destruct key as [key|]; [|reflexivity].
  destruct (decide (key <> "" /\ ~ holds_nul key)) as [[Hne Hnul]|Hno].
  - now rewrite set_api_key_written.
  - destruct key as [|c s]; [reflexivity|].
    destruct (has_nul (String c s)) eqn:H.
    + apply has_nul_holds in H. now rewrite set_api_key_refused.
    + exfalso. apply Hno. split; [discriminate|].
      intros Hh. apply has_nul_holds in Hh. congruence.
Qed.

(** X11: building an agent of either class writes the key it is given
    into the variable OPENAI_API_KEY of the environment of the process
    before it builds the LLM handle, which so sees the key.  A key that
    is [None] or empty leaves the environment as it is, and a key that
    holds a NUL makes the construction raise [ValueError], the
    environment again left as it is and no handle built.  So after any
    number of attempts to build agents, the variable holds the last key
    given that was neither empty nor holding a NUL, or what it held at
    first when there was none; every other variable is untouched. *)
Theorem api_key_is_process_wide {handle : Type}
    (chat_openai : string -> gmap string string -> outcome handle)
    (cs : list construction) (environ : gmap string string) :
  after_constructions chat_openai cs environ !! "OPENAI_API_KEY"
  = match last_key cs with
    | Some key => Some key
    | None => environ !! "OPENAI_API_KEY"
    end
  /\ (forall name,
        name <> "OPENAI_API_KEY" ->
        after_constructions chat_openai cs environ !! name = environ !! name)
  /\ (forall c key env0,
        key_given c = Some key -> holds_nul key ->
        attempt chat_openai c env0 = (Raise (OtherError "ValueError"), env0))
  /\ (forall c key env0,
        key_given c = Some key -> key <> "" -> ~ holds_nul key ->
        attempt chat_openai c env0
        = (chat_openai (model_asked c) (<[ "OPENAI_API_KEY" := key ]> env0),
           <[ "OPENAI_API_KEY" := key ]> env0))
  /\ (forall c env0,
        key_given c = None \/ key_given c = Some "" ->
        attempt chat_openai c env0 = (chat_openai (model_asked c) env0, env0)).
Proof.
  split; [|split; [|split; [|split]]].
  - unfold after_constructions. revert environ.
    induction cs as [|c cs IH]; intros environ; cbn [foldl last_key];
      [reflexivity|].
    rewrite IH. destruct (last_key cs) as [k|]; [reflexivity|].
    rewrite attempt_environ, set_api_key_environ.
    unfold key_written. destruct (key_written_of (key_given c)) as [k|];
      [apply lookup_insert_eq|reflexivity].
  - unfold after_constructions. revert environ.
    induction cs as [|c cs IH]; intros environ name Hn; cbn [foldl];
      [reflexivity|].
    rewrite (IH _ name Hn), attempt_environ, set_api_key_environ.
    destruct (key_written_of (key_given c)) as [k|]; [|reflexivity].
    now rewrite lookup_insert_ne by congruence.
  - intros c key env0 Hk Hnul.
    now rewrite attempt_outcome, Hk, set_api_key_refused.
  - intros c key env0 Hk Hne Hnul.
    now rewrite attempt_outcome, Hk, set_api_key_written.
  - intros c env0 [Hk|Hk]; now rewrite attempt_outcome, Hk.
Qed.

(** * The interactive entry points *)

Lemma length_split (sep : ascii) (s : string) :
  length (split sep s) = S (occurrences sep s).
Proof.
  induction s as [|c s IH]; [reflexivity|].
  cbn [split occurrences]. destruct (Ascii.eqb c sep).
  - cbn [length]. now rewrite IH.
  - destruct (split sep s) as [|x xs]; [discriminate IH|].
    cbn [length] in *. cbn. exact IH.
Qed.

Lemma read_answers_run strip int c k d f fmt lang blog rest depth :
  pending c = k :: d :: f :: fmt :: lang :: blog :: rest ->
  int d = Return depth ->
  read_answers strip int c
  = (Return (List.map strip (split "," k),
             answers_options strip depth f fmt lang blog),
     answered six_prompts rest c).
Proof.
  intros Hp Hd. destruct c as [pend sh]. cbn [pending] in Hp. subst pend.
  unfold read_answers, then_ask, input, answer, answered.
  cbn [pending shown]. rewrite Hd. cbn [pending shown].
  rewrite <- !app_assoc. reflexivity.
Qed.

Lemma read_answers_inversion strip int c ks po c' :
  read_answers strip int c = (Return (ks, po), c') ->
  exists k d f fmt lang blog rest depth,
    pending c = k :: d :: f :: fmt :: lang :: blog :: rest
    /\ int d = Return depth
    /\ ks = List.map strip (split "," k)
    /\ po = answers_options strip depth f fmt lang blog
    /\ c' = answered six_prompts rest c.
Proof.
  intros H. destruct c as [pend sh].
  destruct pend as [|k [|d [|f [|fmt [|lang [|blog rest]]]]]];
    try (unfold read_answers, then_ask, input in H; cbn [pending shown] in H;
         repeat match type of H with
                | context [int ?s] => destruct (int s)
                end; discriminate H).
  destruct (int d) as [depth|x] eqn:Hd.
  - rewrite (read_answers_run strip int
               {| pending := k :: d :: f :: fmt :: lang :: blog :: rest;
                  shown := sh |} k d f fmt lang blog rest depth eq_refl Hd) in H.
    injection H as <- <- <-. exists k, d, f, fmt, lang, blog, rest, depth. auto 10.
  - unfold read_answers, then_ask, input in H; cbn [pending shown] in H.
    rewrite Hd in H. discriminate H.
Qed.

Lemma read_answers_failure strip int c x c' :
  read_answers strip int c = (Raise x, c') ->
  x = OtherError "EOFError"
  \/ exists k d rest, pending c = k :: d :: rest /\ int d = Raise x.
Proof.
  intros H. destruct c as [pend sh].
  destruct pend as [|k [|d rest]].
  - left. unfold read_answers, then_ask, input in H. cbn [pending shown] in H.
    now injection H as <- _.
  - left. unfold read_answers, then_ask, input in H. cbn [pending shown] in H.
    now injection H as <- _.
  - destruct (int d) as [depth|x0] eqn:Hd.
    + left. destruct rest as [|f [|fmt [|lang [|blog rest]]]];
        unfold read_answers, then_ask, input in H; cbn [pending shown] in H;
        rewrite Hd in H; cbn [pending shown] in H;
        try (now injection H as <- _).
      discriminate H.
    + right. exists k, d, rest. split; [reflexivity|].
      unfold read_answers, then_ask, input in H. cbn [pending shown] in H.
      rewrite Hd in H. now injection H as <- _.
Qed.

Lemma printed_nil (w : world) : printed [] w = w.
Proof. destruct w. unfold printed. cbn. now rewrite app_nil_r. Qed.

Lemma printed_cons (line : string) (lines : list string) (w : world) :
  printed (line :: lines) w = printed lines (printed [line] w).
Proof. unfold printed. cbn. now rewrite <- app_assoc. Qed.

Lemma banner_run (a b : string) (w : world) :
  (exec print a; print b) w = (Return tt, printed [a; b] w).
Proof. unfold seq, print, printed. cbn. now rewrite <- app_assoc. Qed.

Lemma insertion_order_elem (seen ks : list string) (k : string) :
  k ∈ insertion_order seen ks -> k ∈ ks.
Proof.
  revert seen. induction ks as [|k' ks IH]; intros seen; cbn [insertion_order].
  - auto.
  - destruct (member k' seen).
    + intros H. apply elem_of_cons. right. exact (IH _ H).
    + intros H. apply elem_of_cons in H as [->|H]; apply elem_of_cons;
        [now left|right; exact (IH _ H)].
Qed.

Lemma print_entries_run od results keys w :
  (forall k, k ∈ keys -> is_Some (results !! k)) ->
  print_entries od results keys w
  = (Return tt, printed (List.map (summary_line od results) keys) w).
Proof.
  revert w. induction keys as [|k keys IH]; intros w Hin;
    cbn [print_entries List.map].
  - now rewrite printed_nil.
  - destruct (Hin k) as [data Hk]; [apply elem_of_cons; auto|].
    assert (Hline : summary_line od results k
                    = "- '" +:+ k +:+ "': Saved to " +:+ entry_output_file data
                      +:+ " (took " +:+ od (duration_microseconds data)
                      +:+ " seconds)").
    { unfold summary_line. now rewrite Hk. }
    rewrite printed_cons, Hline. unfold seq at 1. rewrite Hk.
    unfold print at 1. apply IH.
    intros k' Hk'. apply Hin, elem_of_cons. auto.
Qed.

Lemma main_run strip int od e c w k d f fmt lang blog rest depth :
  pending c = k :: d :: f :: fmt :: lang :: blog :: rest ->
  int d = Return depth ->
  cooperative e ->
  let ks := List.map strip (split "," k) in
  let o := resolve_options (Some (answers_options strip depth f fmt lang blog)) in
  let w0 := printed ["Advanced Search Agent"; "===================="] w in
  main strip int od e c w
  = (Return tt, answered six_prompts rest c,
     printed ((PyStr.nl +:+ "Search completed!")
              :: List.map (summary_line od (results_after e o ks ∅ w0))
                   (insertion_order [] ks))
       (world_after_all e o ks w0)).
Proof.
  intros Hp Hd He. cbv zeta. unfold main. rewrite banner_run.
  rewrite (read_answers_run strip int c k d f fmt lang blog rest depth Hp Hd).
  unfold seq at 1. unfold search_and_summarize.
  rewrite process_keywords_run by exact He.
  unfold print_summary. unfold seq at 1, print at 1.
  rewrite print_entries_run.
  - rewrite (printed_cons (PyStr.nl +:+ "Search completed!")). reflexivity.
  - intros k' Hk'. apply results_after_lookup. left.
    exact (insertion_order_elem _ _ _ Hk').
Qed.

Lemma tasks_printed lines w : agent_tasks (printed lines w) = agent_tasks w.
Proof. reflexivity. Qed.

(** X12: when the six questions are answered with an integer for the
    depth, and the collaborators answer, [main] returns after having read
    exactly those six lines.  It searches one keyword for each piece of
    the first answer between commas, stripped, blank pieces included: as
    many as the answer has commas, plus one, so that an empty answer
    still runs one search.  The tasks are built for the depth read, ten
    results and the focus areas of the third answer. *)
Theorem main_searches_each_piece (strip : string -> string)
    (int : string -> outcome Z) (one_decimal : Z -> string) (e : env)
    (c : console) (w : world) (k d f fmt lang blog : string)
    (rest : list string) (n : Z) :
  pending c = k :: d :: f :: fmt :: lang :: blog :: rest ->
  int d = Return n ->
  cooperative e ->
  exists c' w' o tasks,
    main strip int one_decimal e c w = (Return tt, c', w')
    /\ pending c' = rest
    /\ shown c' = shown c ++ six_prompts
    /\ agent_tasks w' = agent_tasks w ++ tasks
    /\ length tasks = S (occurrences "," k)
    /\ Forall2 (fun piece task => build_task (strip piece) o = Return task)
         (split "," k) tasks
    /\ depth o = n /\ max_results o = 10
    /\ focus_areas o
       = if truthy (strip f) then List.map strip (split "," f) else [].
Proof.
  intros Hp Hd He.
  set (o := resolve_options (Some (answers_options strip n f fmt lang blog))).
  set (ks := List.map strip (split "," k)).
  eexists _, _, o, (List.map (fun kw => task_of kw o) ks).
  split; [apply (main_run strip int one_decimal e c w k d f fmt lang blog rest n
                   Hp Hd He)|].
  split; [reflexivity|]. split; [reflexivity|].
  split; [rewrite tasks_printed, tasks_after_all; reflexivity|].
  split; [unfold ks; now rewrite !length_map, length_split|].
  split; [|auto].
  unfold ks. rewrite List.map_map.
  induction (split "," k) as [|piece pieces IH]; constructor; [|exact IH].
  apply task_of_built.
Qed.

Lemma main_searches_each_piece_witness :
  exists c' w' o tasks,
    main Terminal.strip Terminal.int Terminal.one_decimal Samples.quiet_env
      Terminal.six_answers initial_world = (Return tt, c', w')
    /\ pending c' = []
    /\ shown c' = shown Terminal.six_answers ++ six_prompts
    /\ agent_tasks w' = agent_tasks initial_world ++ tasks
    /\ length tasks = S (occurrences "," "rust async, tokio")
    /\ Forall2 (fun piece task =>
                  build_task (Terminal.strip piece) o = Return task)
         (split "," "rust async, tokio") tasks
    /\ depth o = 3 /\ max_results o = 10
    /\ focus_areas o
       = if truthy (Terminal.strip "")
         then List.map Terminal.strip (split "," "") else [].
Proof.
  exact (main_searches_each_piece Terminal.strip Terminal.int
           Terminal.one_decimal Samples.quiet_env Terminal.six_answers
           initial_world "rust async, tokio" "3" "" "JSON" " " "n" [] 3
           eq_refl eq_refl quiet_env_cooperative).
Defined.

Lemma main_read_failure strip int od e c w x c' :
  read_answers strip int c = (Raise x, c') ->
  main strip int od e c w
  = (Raise x, c', printed ["Advanced Search Agent"; "===================="] w).
Proof. intros H. unfold main. now rewrite banner_run, H. Qed.

(** X13: when the second answer is not an integer, [main] raises what
    [int] raises, after two prompts and two lines read: the other four
    questions are not asked, the agent is not run, and nothing is created
    or written; the banner has been printed. *)
Theorem main_stops_at_worded_depth (strip : string -> string)
    (int : string -> outcome Z) (one_decimal : Z -> string) (e : env)
    (c : console) (w : world) (k d : string) (rest : list string) (x : exn) :
  pending c = k :: d :: rest ->
  int d = Raise x ->
  exists c' w',
    main strip int one_decimal e c w = (Raise x, c', w')
    /\ pending c' = rest
    /\ shown c'
       = shown c ++ ["Enter keywords or topics to search (comma-separated): ";
                     "Enter search depth (1-3, where 3 is deepest): "]
    /\ agent_tasks w' = agent_tasks w
    /\ files w' = files w
    /\ directories w' = directories w
    /\ stdout w' = stdout w ++ ["Advanced Search Agent"; "===================="].
Proof.
  intros Hp Hd.
  assert (H : read_answers strip int c
              = (Raise x,
                 answered ["Enter keywords or topics to search (comma-separated): ";
                           "Enter search depth (1-3, where 3 is deepest): "]
                   rest c)).
  { destruct c as [pend sh]. cbn [pending] in Hp. subst pend.
    unfold read_answers, then_ask, input, answered. cbn [pending shown].
    rewrite Hd. now rewrite <- app_assoc. }
  eexists _, _. split; [apply (main_read_failure _ _ _ _ _ _ _ _ H)|].
  repeat (split; [reflexivity|]). reflexivity.
Qed.

Lemma main_stops_at_worded_depth_witness :
  exists c' w',
    main Terminal.strip Terminal.int Terminal.one_decimal Samples.quiet_env
      Terminal.worded_depth initial_world
    = (Raise (OtherError "ValueError"), c', w')
    /\ pending c' = [""; "json"; ""; "n"]
    /\ shown c'
       = shown Terminal.worded_depth
         ++ ["Enter keywords or topics to search (comma-separated): ";
             "Enter search depth (1-3, where 3 is deepest): "]
    /\ agent_tasks w' = agent_tasks initial_world
    /\ files w' = files initial_world
    /\ directories w' = directories initial_world
    /\ stdout w'
       = stdout initial_world ++ ["Advanced Search Agent"; "===================="].
Proof.
  exact (main_stops_at_worded_depth Terminal.strip Terminal.int
           Terminal.one_decimal Samples.quiet_env Terminal.worded_depth
           initial_world "rust async" "deep" [""; "json"; ""; "n"]
           (OtherError "ValueError") eq_refl eq_refl).
Defined.

(** X14: [main] needs its six answers.  When standard input ends before
    the sixth, [main] raises, [EOFError] unless the depth read was not an
    integer, and the run has not started: the agent is not run and no
    file is written. *)
Theorem main_needs_six_answers (strip : string -> string)
    (int : string -> outcome Z) (one_decimal : Z -> string) (e : env)
    (c : console) (w : world) :
  (length (pending c) < 6)%nat ->
  exists x c' w',
    main strip int one_decimal e c w = (Raise x, c', w')
    /\ (x = OtherError "EOFError"
        \/ exists k d rest, pending c = k :: d :: rest /\ int d = Raise x)
    /\ agent_tasks w' = agent_tasks w
    /\ files w' = files w.
Proof.
  intros Hlen.
  destruct (read_answers strip int c) as [[[ks po]|x] c'] eqn:H.
  - apply read_answers_inversion in H.
    destruct H as (k & d & f & fmt & lang & blog & rest & depth & Hp & _).
    rewrite Hp in Hlen. cbn [length] in Hlen. lia.
  - exists x, c', (printed ["Advanced Search Agent"; "===================="] w).
    split; [now apply main_read_failure|].
    split; [exact (read_answers_failure _ _ _ _ _ H)|]. auto.
Qed.

Lemma main_needs_six_answers_witness :
  exists x c' w',
    main Terminal.strip Terminal.int Terminal.one_decimal Samples.quiet_env
      Terminal.early_leave initial_world = (Raise x, c', w')
    /\ (x = OtherError "EOFError"
        \/ exists k d rest,
             pending Terminal.early_leave = k :: d :: rest
             /\ Terminal.int d = Raise x)
    /\ agent_tasks w' = agent_tasks initial_world
    /\ files w' = files initial_world.
Proof.
  apply (main_needs_six_answers Terminal.strip Terminal.int Terminal.one_decimal
           Samples.quiet_env Terminal.early_leave initial_world).
  cbn. lia.
Defined.

Lemma directories_after_all e o ks w :
  directories (world_after_all e o ks w)
  = (match ks with [] => ∅ | _ :: _ => {[ output_dir o ]} end) ∪ directories w.
Proof.
  revert w. induction ks as [|k ks IH]; intros w; cbn [world_after_all].
  - now rewrite (left_id_L ∅ (∪)).
  - rewrite IH. unfold world_after. cbn [directories].
    destruct ks as [|k' ks'].
    + now rewrite (left_id_L ∅ (∪)).
    + now rewrite (assoc_L (∪)), (idemp_L (∪)).
Qed.

Lemma plain_name_join (name : string) :
  plain_name name -> name <> "" ->
  path_join "search_results" name = "search_results/" +:+ name.
Proof.
  intros Hplain Hne. destruct name as [|c s]; [now contradiction Hne|].
  unfold plain_name in Hplain. cbn [PyStr.all_chars] in Hplain.
  apply andb_prop in Hplain as [Hc _].
  destruct c as [[] [] [] [] [] [] [] []]; try reflexivity.
  discriminate Hc.
Qed.

Lemma file_name_not_empty (kw : string) (stamp : datetime) (ext : string) :
  file_name kw stamp ext <> "".
Proof.
  unfold file_name. intros H. apply (f_equal String.length) in H.
  rewrite !length_append in H. cbn in H. lia.
Qed.

Lemma file_name_extension (kw : string) (stamp : datetime) (fmt : string) :
  ends_with ".md" (file_name kw stamp (extension fmt))
  \/ ends_with ".json" (file_name kw stamp (extension fmt))
  \/ ends_with ".txt" (file_name kw stamp (extension fmt)).
Proof.
  unfold file_name, extension, ends_with.
  destruct (fmt =? "json")%string; [|destruct (fmt =? "markdown")%string].
  - right. left. exists (safe_keyword kw +:+ "_" +:+ Datetime.strftime_compact stamp).
    now rewrite !append_assoc.
  - left. exists (safe_keyword kw +:+ "_" +:+ Datetime.strftime_compact stamp).
    now rewrite !append_assoc.
  - right. right.
    exists (safe_keyword kw +:+ "_" +:+ Datetime.strftime_compact stamp).
    now rewrite !append_assoc.
Qed.

(** X15: whatever the six answers, when [main] runs with collaborators
    that answer it writes into the directory [search_results] and nowhere
    else: that is the one directory it has created, and every path whose
    content differs when [main] returns is [search_results/] followed by
    a name without space, slash or backslash that ends in [.md], [.json]
    or [.txt]. *)
Theorem main_writes_in_search_results (strip : string -> string)
    (int : string -> outcome Z) (one_decimal : Z -> string) (e : env)
    (c : console) (w : world) (k d f fmt lang blog : string)
    (rest : list string) (n : Z) :
  pending c = k :: d :: f :: fmt :: lang :: blog :: rest ->
  int d = Return n ->
  cooperative e -> valid_clock e ->
  exists c' w',
    main strip int one_decimal e c w = (Return tt, c', w')
    /\ directories w' = {[ "search_results" ]} ∪ directories w
    /\ forall p,
         files w' !! p <> files w !! p ->
         exists name,
           p = "search_results/" +:+ name
           /\ plain_name name
           /\ (ends_with ".md" name \/ ends_with ".json" name
               \/ ends_with ".txt" name).
Proof.
  intros Hp Hd He Hv. eexists _, _.
  split; [apply (main_run strip int one_decimal e c w k d f fmt lang blog rest n
                   Hp Hd He)|].
  split.
  - change (directories (printed ?l ?x)) with (directories x).
    rewrite directories_after_all.
    pose proof (length_split "," k) as Hlen.
    destruct (split "," k) as [|piece pieces]; [discriminate Hlen|]. reflexivity.
  - intros p Hdiff. change (files (printed ?l ?x)) with (files x) in Hdiff.
    apply (files_changed e _ _
             (printed ["Advanced Search Agent"; "===================="] w)) in Hdiff.
    destruct Hdiff as (kw & w0 & _ & ->).
    unfold output_path.
    match goal with
    | |- context [path_join _ ?nm] => exists nm
    end.
    assert (Hplain : forall fm, plain_name
              (file_name kw (now e (S (S (clock_reads w0)))) (extension fm))).
    { intros fm. apply file_name_plain, Hv. }
    split; [|split].
    + apply plain_name_join; [apply Hplain|apply file_name_not_empty].
    + apply Hplain.
    + apply file_name_extension.
Qed.

Lemma main_writes_in_search_results_witness :
  exists c' w',
    main Terminal.strip Terminal.int Terminal.one_decimal Samples.quiet_env
      Terminal.six_answers initial_world = (Return tt, c', w')
    /\ directories w' = {[ "search_results" ]} ∪ directories initial_world
    /\ forall p,
         files w' !! p <> files initial_world !! p ->
         exists name,
           p = "search_results/" +:+ name
           /\ plain_name name
           /\ (ends_with ".md" name \/ ends_with ".json" name
               \/ ends_with ".txt" name).
Proof.
  exact (main_writes_in_search_results Terminal.strip Terminal.int
           Terminal.one_decimal Samples.quiet_env Terminal.six_answers
           initial_world "rust async, tokio" "3" "" "JSON" " " "n" [] 3
           eq_refl eq_refl quiet_env_cooperative quiet_env_valid_clock).
Defined.

Lemma member_elem (x : string) (items : list string) :
  member x items = true <-> x ∈ items.
Proof.
  unfold member. induction items as [|y items IH]; cbn [existsb].
  - split; [discriminate|]. intros H. now apply elem_of_nil in H.
  - rewrite orb_true_iff, IH, elem_of_cons, String.eqb_eq. reflexivity.
Qed.

(** X16: whatever is typed, the answers [main] accepts are normalised
    before the search.  There is at least one keyword; the directory is
    [search_results] and the number of results ten; the format is the
    fourth answer in lower case when that is [markdown], [json] or
    [txt], and [markdown] for any other answer, so that it is always one
    of the three; the language is never empty, a blank answer giving
    [english]; and the blog style is set by [y], [yes] or [true] in any
    case of letters, and by nothing else. *)
Theorem answers_are_normalised (strip : string -> string)
    (int : string -> outcome Z) (c c' : console) (ks : list string)
    (po : partial_options) :
  read_answers strip int c = (Return (ks, po), c') ->
  exists k d f fmt lang blog rest,
    pending c = k :: d :: f :: fmt :: lang :: blog :: rest
    /\ pending c' = rest
    /\ ks = List.map strip (split "," k) /\ ks <> []
    /\ int d = Return (depth (resolve_options (Some po)))
    /\ output_dir (resolve_options (Some po)) = "search_results"
    /\ max_results (resolve_options (Some po)) = 10
    /\ output_format (resolve_options (Some po))
       = (if member (PyStr.lower fmt) format_options
          then PyStr.lower fmt else "markdown")
    /\ output_format (resolve_options (Some po)) ∈ format_options
    /\ language (resolve_options (Some po)) <> ""
    /\ (strip lang = "" -> language (resolve_options (Some po)) = "english")
    /\ (blog_style (resolve_options (Some po)) = true
        <-> PyStr.lower blog ∈ ["y"; "yes"; "true"]).
Proof.
  intros H. apply read_answers_inversion in H.
  destruct H as (k & d & f & fmt & lang & blog & rest & n & Hp & Hd & -> & -> & ->).
  exists k, d, f, fmt, lang, blog, rest.
  split; [exact Hp|]. split; [reflexivity|]. split; [reflexivity|].
  split.
  { pose proof (length_split "," k) as Hlen.
    destruct (split "," k); [discriminate Hlen|discriminate]. }
  split; [exact Hd|]. split; [reflexivity|]. split; [reflexivity|].
  split; [reflexivity|].
  set (o := resolve_options (Some (answers_options strip n f fmt lang blog))).
  assert (Hfmt : output_format o
                 = if member (PyStr.lower fmt) format_options
                   then PyStr.lower fmt else "markdown") by reflexivity.
  assert (Hlang : language o
                  = if truthy (strip lang) then strip lang else "english")
    by reflexivity.
  assert (Hblog : blog_style o = member (PyStr.lower blog) ["y"; "yes"; "true"])
    by reflexivity.
  rewrite Hfmt, Hlang, Hblog. clear Hfmt Hlang Hblog o.
  split; [|split; [|split]].
  - destruct (member (PyStr.lower fmt) format_options) eqn:Hm.
    + now apply member_elem.
    + apply elem_of_cons. now left.
  - destruct (strip lang) as [|a s]; cbn [truthy]; discriminate.
  - intros ->. reflexivity.
  - apply member_elem.
Qed.

Lemma answers_are_normalised_witness :
  exists ks po c' k d f fmt lang blog rest,
    read_answers Terminal.strip Terminal.int Terminal.six_answers
    = (Return (ks, po), c')
    /\ pending Terminal.six_answers = k :: d :: f :: fmt :: lang :: blog :: rest
    /\ pending c' = rest
    /\ ks = List.map Terminal.strip (split "," k) /\ ks <> []
    /\ Terminal.int d = Return (depth (resolve_options (Some po)))
    /\ output_dir (resolve_options (Some po)) = "search_results"
    /\ max_results (resolve_options (Some po)) = 10
    /\ output_format (resolve_options (Some po))
       = (if member (PyStr.lower fmt) format_options
          then PyStr.lower fmt else "markdown")
    /\ output_format (resolve_options (Some po)) ∈ format_options
    /\ language (resolve_options (Some po)) <> ""
    /\ (Terminal.strip lang = "" ->
        language (resolve_options (Some po)) = "english")
    /\ (blog_style (resolve_options (Some po)) = true
        <-> PyStr.lower blog ∈ ["y"; "yes"; "true"]).
Proof.
  assert (H : exists ks po c',
             read_answers Terminal.strip Terminal.int Terminal.six_answers
             = (Return (ks, po), c')).
  { vm_compute. eauto. }
  destruct H as (ks & po & c' & H). exists ks, po, c'.
  destruct (answers_are_normalised _ _ _ _ _ _ H)
    as (k & d & f & fmt & lang & blog & rest & Hrest).
  exists k, d, f, fmt, lang, blog, rest. split; [exact H|exact Hrest].
Defined.

Lemma insertion_order_spec (seen ks : list string) (k : string) :
  k ∈ insertion_order seen ks <-> k ∈ ks /\ k ∉ seen.
Proof.
  revert seen. induction ks as [|k' ks IH]; intros seen; cbn [insertion_order].
  - split; [intros H; now apply elem_of_nil in H|].
    intros [H _]. now apply elem_of_nil in H.
  - destruct (member k' seen) eqn:Hm.
    + apply member_elem in Hm. rewrite IH, elem_of_cons. split.
      * intros [H1 H2]. auto.
      * intros [[->|H1] H2]; [contradiction|auto].
    + assert (Hn : k' ∉ seen).
      { intros H. apply member_elem in H. congruence. }
      rewrite elem_of_cons, IH. split.
      * intros [->|[H1 H2]].
        -- split; [apply elem_of_cons; now left|exact Hn].
        -- apply not_elem_of_cons in H2 as [H2 H3].
           split; [apply elem_of_cons; now right|exact H3].
      * intros [H1 H2]. apply elem_of_cons in H1 as [->|H1]; [now left|].
        destruct (decide (k = k')) as [->|Hne]; [now left|right].
        split; [exact H1|]. apply not_elem_of_cons. auto.
Qed.

Lemma insertion_order_NoDup (seen ks : list string) :
  NoDup (insertion_order seen ks).
Proof.
  revert seen. induction ks as [|k ks IH]; intros seen; cbn [insertion_order].
  - apply NoDup_nil_2.
  - destruct (member k seen); [apply IH|].
    apply NoDup_cons. split; [|apply IH].
    rewrite insertion_order_spec, not_elem_of_cons. intros [_ [H _]]. now apply H.
Qed.

(** X17: when [main] returns, the last thing it has printed is the line
    [Search completed!] and, after it, one line for each distinct keyword
    in the order in which the keywords first occur in the first answer, a
    keyword given twice getting one line.  Each line shows the file and
    the duration the dict holds for the keyword, those of its last
    search. *)
Theorem main_summary_lines (strip : string -> string)
    (int : string -> outcome Z) (one_decimal : Z -> string) (e : env)
    (c c' : console) (w : world) (ks : list string) (po : partial_options) :
  read_answers strip int c = (Return (ks, po), c') ->
  cooperative e ->
  exists results w1 w' order,
    search_and_summarize e (KeywordList ks) (Some po)
      (printed ["Advanced Search Agent"; "===================="] w)
    = (Return results, w1)
    /\ main strip int one_decimal e c w = (Return tt, c', w')
    /\ stdout w'
       = stdout w1
         ++ (PyStr.nl +:+ "Search completed!")
            :: List.map (summary_line one_decimal results) order
    /\ order = insertion_order [] ks
    /\ NoDup order
    /\ (forall k, k ∈ order <-> k ∈ ks)
    /\ length order = size results.
Proof.
  intros H He. apply read_answers_inversion in H.
  destruct H as (k & d & f & fmt & lang & blog & rest & n & Hp & Hd & -> & -> & ->).
  set (ks := List.map strip (split "," k)).
  set (o := resolve_options (Some (answers_options strip n f fmt lang blog))).
  set (w0 := printed ["Advanced Search Agent"; "===================="] w).
  exists (results_after e o ks ∅ w0), (world_after_all e o ks w0).
  eexists _, (insertion_order [] ks).
  split; [apply (process_keywords_run e o ks ∅ w0 He)|].
  split; [apply (main_run strip int one_decimal e c w k d f fmt lang blog rest n
                   Hp Hd He)|].
  split; [reflexivity|]. split; [reflexivity|].
  split; [apply insertion_order_NoDup|].
  assert (Hel : forall k0, k0 ∈ insertion_order [] ks <-> k0 ∈ ks).
  { intros k0. rewrite insertion_order_spec. split; [now intros [H _]|].
    intros H. split; [exact H|apply not_elem_of_nil]. }
  split; [exact Hel|].
  rewrite <- size_dom, results_after_dom, dom_empty_L, (right_id_L ∅ (∪)).
  rewrite <- (size_list_to_set (C := gset string) (insertion_order [] ks))
    by apply insertion_order_NoDup.
  f_equal. apply set_eq. intros y. now rewrite !elem_of_list_to_set, Hel.
Qed.

Lemma main_summary_lines_witness :
  exists ks po c' results w1 w' order,
    read_answers Terminal.strip Terminal.int Terminal.six_answers
    = (Return (ks, po), c')
    /\ search_and_summarize Samples.quiet_env (KeywordList ks) (Some po)
         (printed ["Advanced Search Agent"; "===================="] initial_world)
       = (Return results, w1)
    /\ main Terminal.strip Terminal.int Terminal.one_decimal Samples.quiet_env
         Terminal.six_answers initial_world = (Return tt, c', w')
    /\ stdout w'
       = stdout w1
         ++ (PyStr.nl +:+ "Search completed!")
            :: List.map (summary_line Terminal.one_decimal results) order
    /\ order = insertion_order [] ks
    /\ NoDup order
    /\ (forall k, k ∈ order <-> k ∈ ks)
    /\ length order = size results.
Proof.
  assert (H : exists ks po c',
             read_answers Terminal.strip Terminal.int Terminal.six_answers
             = (Return (ks, po), c')).
  { vm_compute. eauto. }
  destruct H as (ks & po & c' & H). exists ks, po, c'.
  destruct (main_summary_lines Terminal.strip Terminal.int Terminal.one_decimal
              Samples.quiet_env _ _ initial_world _ _ H quiet_env_cooperative)
    as (results & w1 & w' & order & Hrest).
  exists results, w1, w', order. split; [exact H|exact Hrest].
Defined.

(** * The entry point of the single-keyword variant *)

Lemma simple_read_answers_run strip int c k d lang blog rest depth :
  pending c = k :: d :: lang :: blog :: rest ->
  int d = Return depth ->
  simple_read_answers strip int c
  = (Return (k, depth,
             if truthy (strip lang) then strip lang else "english",
             member (PyStr.lower blog) ["y"; "yes"; "true"]),
     answered four_prompts rest c).
Proof.
  intros Hp Hd. destruct c as [pend sh]. cbn [pending] in Hp. subst pend.
  unfold simple_read_answers, then_ask, input, answer, answered.
  cbn [pending shown]. rewrite Hd. cbn [pending shown].
  rewrite <- !app_assoc. reflexivity.
Qed.

(** X18: the entry point of the single-keyword variant asks four
    questions, not six: it reads four lines and shows four prompts, none
    about focus areas or the format.  The first answer is one keyword,
    commas and spaces included: the agent is run once, on the task built
    for the whole line and the depth read.  One file is written, in the
    working directory, under the name derived from the whole line with
    the extension [md], and no directory is created. *)
Theorem simple_main_asks_four_questions (strip : string -> string)
    (int : string -> outcome Z) (e : env) (c : console) (w : world)
    (k d lang blog : string) (rest : list string) (n : Z) :
  pending c = k :: d :: lang :: blog :: rest ->
  int d = Return n ->
  cooperative e ->
  exists c' w' path,
    simple_main strip int e c w = (Return tt, c', w')
    /\ pending c' = rest
    /\ shown c' = shown c ++ four_prompts
    /\ agent_tasks w' = agent_tasks w ++ [simple_build_task k n]
    /\ path = file_name k (now e (clock_reads w)) "md"
    /\ is_Some (files w' !! path)
    /\ (forall p, p <> path -> files w' !! p = files w !! p)
    /\ directories w' = directories w.
Proof.
  intros Hp Hd He.
  set (w0 := printed ["Deep Search Agent"; "================"] w).
  set (language := if truthy (strip lang) then strip lang else "english").
  set (blog_style := member (PyStr.lower blog) ["y"; "yes"; "true"]).
  destruct (agent_returns e He (length (agent_tasks w0)) (simple_build_task k n))
    as (r & t & Hr & Ht).
  destruct (simple_run_with e k n None language blog_style w0 r t Hr Ht)
    as (w2 & Hrun & Hf & _ & Ha).
  { intros _. apply (llm_returns e He). }
  { apply (open_succeeds e He). }
  pose proof (simple_keeps_directories e k n None language blog_style w0) as Hdir.
  rewrite Hrun in Hdir. cbn [snd] in Hdir.
  exists (answered four_prompts rest c), w2, (file_name k (now e (clock_reads w)) "md").
  split.
  { unfold simple_main. rewrite banner_run.
    rewrite (simple_read_answers_run strip int c k d lang blog rest n Hp Hd).
    unfold seq at 1. fold w0 language blog_style. rewrite Hrun. reflexivity. }
  split; [reflexivity|]. split; [reflexivity|].
  split; [exact Ha|]. split; [reflexivity|].
  unfold simple_output_path in Hf. change (clock_reads w0) with (clock_reads w) in Hf.
  change (files w0) with (files w) in Hf.
  split; [|split].
  - rewrite Hf, lookup_insert_eq. eauto.
  - intros p Hne. rewrite Hf. now rewrite lookup_insert_ne by congruence.
  - exact Hdir.
Qed.

Lemma simple_main_asks_four_questions_witness :
  exists c' w' path,
    simple_main Terminal.strip Terminal.int Samples.quiet_env
      Terminal.four_answers initial_world = (Return tt, c', w')
    /\ pending c' = []
    /\ shown c' = shown Terminal.four_answers ++ four_prompts
    /\ agent_tasks w'
       = agent_tasks initial_world ++ [simple_build_task "rust async, tokio" 2]
    /\ path = file_name "rust async, tokio"
                (now Samples.quiet_env (clock_reads initial_world)) "md"
    /\ is_Some (files w' !! path)
    /\ (forall p, p <> path -> files w' !! p = files initial_world !! p)
    /\ directories w' = directories initial_world.
Proof.
  exact (simple_main_asks_four_questions Terminal.strip Terminal.int
           Samples.quiet_env Terminal.four_answers initial_world
           "rust async, tokio" "2" "" "no" [] 2 eq_refl eq_refl
           quiet_env_cooperative).
Defined.

(** * Runs compose *)

Lemma process_keywords_from e o ks r w :
  process_keywords e o ks r w
  = match process_keywords e o ks ∅ w with
    | (Return r2, w') => (Return (r2 ∪ r), w')
    | (Raise x, w') => (Raise x, w')
    end.
Proof.
  revert r w. induction ks as [|k ks IH]; intros r w; cbn [process_keywords].
  - unfold ret. now rewrite (left_id_L ∅ (∪)).
  - unfold seq. destruct (process_keyword e o k w) as [[entry|x] w1]; [|reflexivity].
    rewrite (IH (<[ k := entry ]> r)), (IH (<[ k := entry ]> ∅)).
    destruct (process_keywords e o ks ∅ w1) as [[r2|x] w2]; [|reflexivity].
    f_equal. f_equal.
    rewrite (insert_union_singleton_l r), (insert_union_singleton_l ∅).
    now rewrite (right_id_L ∅ (∪)), (assoc_L (∪)).
Qed.

(** X19: a run over a list is the run over its first part followed by
    the run over the rest, started where the first one ended.  The first
    exception raised is the exception of the whole; when both parts
    return, the state is that of the second run and the dict is the
    entries of the second run laid over those of the first. *)
Theorem runs_compose (e : env) (opts : option partial_options)
    (pre post : list string) (w : world) :
  search_and_summarize e (KeywordList (pre ++ post)) opts w
  = match search_and_summarize e (KeywordList pre) opts w with
    | (Raise x, w1) => (Raise x, w1)
    | (Return r1, w1) =>
        match search_and_summarize e (KeywordList post) opts w1 with
        | (Raise x, w2) => (Raise x, w2)
        | (Return r2, w2) => (Return (r2 ∪ r1), w2)
        end
    end.
Proof.
  unfold search_and_summarize. rewrite process_keywords_app.
  destruct (process_keywords e (resolve_options opts) pre ∅ w) as [[r1|x] w1];
    [|reflexivity].
  apply process_keywords_from.
Qed.
